(** * llm-gateway: the request pipeline, embedded and verified

    A shallow embedding of the parts of the gateway backend that the
    specification's claims are about:

    - [app/common/sanitizer.py]            (module [Sanitizer]),
    - [app/rules/context.py], [app/rules/evaluator.py]
                                           (modules [PyValue], [Rules]),
    - [app/services/retry_handler.py]      (module [Retry]),
    - [app/common/token_counter.py]        (module [TokenCounter]),
    - [app/common/errors.py]               (module [Errors]),
    - [app/providers/factory.py]           (module [Factory]),
    - [app/services/proxy_service.py], [app/api/proxy/openai.py],
      [app/api/proxy/anthropic.py]         (module [Proxy]),
    - [app/common/protocol_conversion.py]  (modules [Protocol],
                                            [ProtocolResponse]).

    Conventions.  A Python [str] is a [string]: a sequence of code points
    below 256 (the range of an HTTP header value, which the framework decodes
    as Latin-1).  Python's dynamically typed JSON-like values are the
    inductive type [PyValue.value]; a [dict] is an association list in
    insertion order, as Python keeps it.  A function that can raise returns
    an [option] or a sum; state that the code threads through awaited calls
    is passed explicitly.  What the repository imports but does not hold
    (the interpreter's [str] and [re], [json], [litellm], [tiktoken], the
    repositories and provider clients) enters as a parameter; so does the
    UTF-8 encoding of a text that is not ASCII, which fails on a text that
    has none.

    The definitions come first; the properties, with the repository's unit
    tests replayed on the embedding, follow under "Properties". *)

From Stdlib Require Import String Ascii List ZArith Bool Lia.
From Stdlib Require QArith.
From stdpp Require Import base gmap strings list.
Import ListNotations.

#[local] Set Warnings "-register-all".
#[local] Open Scope string_scope.
#[local] Open Scope list_scope.

(** ** Python [str] operations *)

Module PyStr.

(** [s[:n]] *)
Fixpoint take (n : nat) (s : string) : string :=
  match n, s with
  | S n', String c s' => String c (take n' s')
  | _, _ => EmptyString
  end.

(** [s[n:]] *)
Fixpoint drop (n : nat) (s : string) : string :=
  match n, s with
  | S n', String _ s' => drop n' s'
  | _, _ => s
  end.

(** [s[-n:]] for [n > 0] *)
Definition last (n : nat) (s : string) : string :=
  drop (String.length s - n) s.

(** [s[i:j]] for [0 <= i], [0 <= j] *)
Definition slice (i j : nat) (s : string) : string :=
  drop i (take j s).

Definition is_empty (s : string) : bool :=
  match s with EmptyString => true | _ => false end.

(** [str.lower] on one code point below 256: the ASCII capitals and the
    Latin-1 capitals U+00C0..U+00DE (U+00D7, the multiplication sign, apart)
    move up by 32. *)
Definition lower_char (c : ascii) : ascii :=
  let n := nat_of_ascii c in
  if ((65 <=? n)%nat && (n <=? 90)%nat)
     || ((192 <=? n)%nat && (n <=? 222)%nat && negb (n =? 215)%nat)
  then ascii_of_nat (n + 32)
  else c.

Fixpoint lower (s : string) : string :=
  match s with
  | EmptyString => EmptyString
  | String c s' => String (lower_char c) (lower s')
  end.

(** [s.startswith(p)] *)
Fixpoint startswith (p s : string) : bool :=
  match p, s with
  | EmptyString, _ => true
  | String a p', String b s' => Ascii.eqb a b && startswith p' s'
  | String _ _, EmptyString => false
  end.

(** [s.endswith(p)] *)
Definition endswith (p s : string) : bool :=
  (String.length p <=? String.length s)%nat
  && String.eqb (drop (String.length s - String.length p) s) p.

(** [sub in s] *)
Fixpoint contains (sub s : string) : bool :=
  startswith sub s
  || match s with
     | EmptyString => false
     | String _ s' => contains sub s'
     end.

(** [s.index(c)] for a one-character needle that occurs in [s]
    (otherwise the length of [s]). *)
Fixpoint index_char (c : ascii) (s : string) : nat :=
  match s with
  | EmptyString => 0
  | String a s' => if Ascii.eqb a c then 0 else S (index_char c s')
  end.

Fixpoint contains_char (c : ascii) (s : string) : bool :=
  match s with
  | EmptyString => false
  | String a s' => Ascii.eqb a c || contains_char c s'
  end.

(** [s.split(sep)] for a one-character separator: never an empty list. *)
Fixpoint split_char (sep : ascii) (s : string) : list string :=
  match s with
  | EmptyString => [EmptyString]
  | String a s' =>
      if Ascii.eqb a sep then EmptyString :: split_char sep s'
      else match split_char sep s' with
           | [] => [String a EmptyString]
           | p :: ps => String a p :: ps
           end
  end.

(** [s.isascii()] *)
Fixpoint isascii (s : string) : bool :=
  match s with
  | EmptyString => true
  | String c s' => (nat_of_ascii c <? 128)%nat && isascii s'
  end.

(** White space as [str.strip] sees it, below code point 256. *)
Definition is_space (c : ascii) : bool :=
  let n := nat_of_ascii c in
  ((9 <=? n)%nat && (n <=? 13)%nat) || ((28 <=? n)%nat && (n <=? 32)%nat)
  || (n =? 133)%nat || (n =? 160)%nat.

Fixpoint lstrip (s : string) : string :=
  match s with
  | String c s' => if is_space c then lstrip s' else s
  | EmptyString => EmptyString
  end.

Fixpoint rstrip (s : string) : string :=
  match s with
  | EmptyString => EmptyString
  | String c s' =>
      match rstrip s' with
      | EmptyString => if is_space c then EmptyString else String c EmptyString
      | r => String c r
      end
  end.

(** [s.strip()] *)
Definition strip (s : string) : string := rstrip (lstrip s).

Definition is_digit (c : ascii) : bool :=
  let n := nat_of_ascii c in (48 <=? n)%nat && (n <=? 57)%nat.

Definition digit_val (c : ascii) : Z := Z.of_nat (nat_of_ascii c - 48).

(** The digits of a decimal literal: one or more digits, single underscores
    allowed between two digits. *)
Fixpoint parse_digits (s : string) (acc : Z) (after_digit : bool) : option Z :=
  match s with
  | EmptyString => if after_digit then Some acc else None
  | String c s' =>
      if is_digit c then parse_digits s' (10 * acc + digit_val c)%Z true
      else if Ascii.eqb c "_"%char && after_digit then parse_digits s' acc false
      else None
  end.

(** White space as [int] sees it, below code point 256: that of
    [str.strip] but for the separators U+001C to U+001F. *)
Definition is_int_space (c : ascii) : bool :=
  let n := nat_of_ascii c in
  ((9 <=? n)%nat && (n <=? 13)%nat) || (n =? 32)%nat
  || (n =? 133)%nat || (n =? 160)%nat.

Fixpoint int_lstrip (s : string) : string :=
  match s with
  | String c s' => if is_int_space c then int_lstrip s' else s
  | EmptyString => EmptyString
  end.

Fixpoint int_rstrip (s : string) : string :=
  match s with
  | EmptyString => EmptyString
  | String c s' =>
      match int_rstrip s' with
      | EmptyString =>
          if is_int_space c then EmptyString else String c EmptyString
      | r => String c r
      end
  end.

(** The number of digits of a literal, and the most [int] converts:
    [sys.get_int_max_str_digits()], 4300 unless the interpreter is told
    otherwise. *)
Fixpoint count_digits (s : string) : nat :=
  match s with
  | EmptyString => 0
  | String c s' =>
      if is_digit c then Datatypes.S (count_digits s') else count_digits s'
  end.

Definition int_max_str_digits : nat := 4300.

Definition parse_literal (d : string) : option Z :=
  if (int_max_str_digits <? count_digits d)%nat then None
  else parse_digits d 0%Z false.

(** [int(s)]: [None] stands for [ValueError]. *)
Definition int (s : string) : option Z :=
  match int_rstrip (int_lstrip s) with
  | String "-"%char d => Z.opp <$> parse_literal d
  | String "+"%char d => parse_literal d
  | d => parse_literal d
  end.

End PyStr.

(** ** [app/common/sanitizer.py] *)

Module Sanitizer.

(** [sanitize_authorization(value)], lines 12-45.  The empty string is the
    falsy [str]. *)
Definition sanitize_authorization (value : string) : string :=
  if PyStr.is_empty value then value
  else
    let '(prefix, token) :=
      if PyStr.startswith "bearer " (PyStr.lower value)
      then ("Bearer ", PyStr.drop 7 value)
      else ("", value) in
    if (String.length token <=? 8)%nat then prefix +:+ "***"
    else prefix +:+ PyStr.take 4 token +:+ "***...***" +:+ PyStr.last 2 token.

(** [sanitize_api_key_display(key_value)], lines 85-101. *)
Definition sanitize_api_key_display (key_value : string) : string :=
  sanitize_authorization key_value.

(** The mask pattern of the specification:
    [Bearer <4chars>***...***<2chars>] or [***], the latter also behind the
    [Bearer ] prefix. *)
Definition matches_mask (s : string) : bool :=
  let body := if PyStr.startswith "Bearer " s then PyStr.drop 7 s else s in
  String.eqb body "***"
  || ((String.length body =? 15)%nat
      && String.eqb (PyStr.slice 4 13 body) "***...***").

(** The token's middle characters: [token[4:-2]]. *)
Definition middle (token : string) : string :=
  PyStr.slice 4 (String.length token - 2) token.

End Sanitizer.

(** ** Python values *)

Module PyValue.

(** [TokenUsage], [app/rules/context.py] lines 11-27. *)
Record TokenUsage := {
  input_tokens : Z;
  output_tokens : Z;
}.

Definition total_tokens (tu : TokenUsage) : Z :=
  (input_tokens tu + output_tokens tu)%Z.

(** The values a request body, a rule or a context can hold: the JSON tree
    ([None], [bool], [int], finite [float] as the rational it denotes, [str],
    [list], [dict]) and the one object [get_value] can hand out besides, a
    [TokenUsage]. *)
Inductive value :=
| VNone
| VBool (b : bool)
| VInt (z : Z)
| VFloat (q : QArith_base.Q)
| VStr (s : string)
| VList (l : list value)
| VDict (d : list (string * value))
| VObj (tu : TokenUsage).

Abbreviation dict := (list (string * value)).

(** [d.get(k)], [k in d], [d[k] = v] on an insertion-ordered dict. *)
Fixpoint dict_get {A} (k : string) (d : list (string * A)) : option A :=
  match d with
  | [] => None
  | (k', v) :: d' => if String.eqb k' k then Some v else dict_get k d'
  end.

Definition dict_mem {A} (k : string) (d : list (string * A)) : bool :=
  match dict_get k d with Some _ => true | None => false end.

Fixpoint dict_set {A} (k : string) (v : A) (d : list (string * A))
  : list (string * A) :=
  match d with
  | [] => [(k, v)]
  | (k', v') :: d' =>
      if String.eqb k' k then (k', v) :: d' else (k', v') :: dict_set k v d'
  end.

Definition is_none (v : value) : bool :=
  match v with VNone => true | _ => false end.

(** The number a numeric value denotes; [bool] is a subclass of [int]. *)
Definition num_of (v : value) : option QArith_base.Q :=
  match v with
  | VBool b => Some (QArith_base.inject_Z (if b then 1 else 0))
  | VInt z => Some (QArith_base.inject_Z z)
  | VFloat q => Some q
  | _ => None
  end.

(** [bool(v)] *)
Definition truthy (v : value) : bool :=
  match v with
  | VNone => false
  | VBool b => b
  | VInt z => negb (z =? 0)%Z
  | VFloat q => negb (QArith_base.Qeq_bool q (QArith_base.inject_Z 0))
  | VStr s => negb (PyStr.is_empty s)
  | VList l => match l with [] => false | _ => true end
  | VDict d => match d with [] => false | _ => true end
  | VObj _ => true
  end.

(** [a == b]: numbers by value across [bool], [int] and [float], strings and
    lists element-wise, dicts key by key whatever the order, dataclass
    instances field by field; values of unrelated types are unequal. *)
Fixpoint py_eq (a b : value) : bool :=
  match num_of a, num_of b with
  | Some x, Some y => QArith_base.Qeq_bool x y
  | _, _ =>
      match a, b with
      | VNone, VNone => true
      | VStr s, VStr t => String.eqb s t
      | VList l, VList m =>
          (fix go (l m : list value) : bool :=
             match l, m with
             | [], [] => true
             | x :: l', y :: m' => py_eq x y && go l' m'
             | _, _ => false
             end) l m
      | VDict d, VDict e =>
          (length d =? length e)%nat
          && (fix go (d : dict) : bool :=
                match d with
                | [] => true
                | (k, v) :: d' =>
                    match dict_get k e with
                    | Some w => py_eq v w
                    | None => false
                    end && go d'
                end) d
      | VObj t, VObj u =>
          (input_tokens t =? input_tokens u)%Z
          && (output_tokens t =? output_tokens u)%Z
      | _, _ => false
      end
  end.

Inductive cmpop := Lt | Le | Gt | Ge.

Definition cmp_result (op : cmpop) (c : comparison) : bool :=
  match op, c with
  | Lt, Datatypes.Lt => true
  | Le, (Datatypes.Lt | Datatypes.Eq) => true
  | Gt, Datatypes.Gt => true
  | Ge, (Datatypes.Gt | Datatypes.Eq) => true
  | _, _ => false
  end.

(** [a < b], [a <= b], [a > b], [a >= b]: numbers by value, strings and
    lists lexicographically; [None] stands for the [TypeError] every other
    pair of types raises. *)
Fixpoint py_cmp (op : cmpop) (a b : value) : option bool :=
  match num_of a, num_of b with
  | Some x, Some y => Some (cmp_result op (QArith_base.Qcompare x y))
  | _, _ =>
      match a, b with
      | VStr s, VStr t => Some (cmp_result op (String.compare s t))
      | VList l, VList m =>
          (fix go (l m : list value) : option bool :=
             match l, m with
             | x :: l', y :: m' =>
                 if py_eq x y then go l' m' else py_cmp op x y
             | _, _ =>
                 Some (cmp_result op (Nat.compare (length l) (length m)))
             end) l m
      | _, _ => None
      end
  end.

(** What the interpreter supplies and this development leaves open: [str]
    of a value that is not a string, and the [re] module
    ([re.compile(pattern).search(s)], [None] for [re.error]). *)
Record Builtins := {
  str_other : value -> string;
  re_search : string -> string -> option bool;
}.

(** [str(v)] *)
Definition py_str (B : Builtins) (v : value) : string :=
  match v with
  | VStr s => s
  | _ => str_other B v
  end.

End PyValue.

(** ** [app/rules/context.py] and [app/rules/evaluator.py] *)

Module Rules.
Import PyValue.

(** [RuleContext], [context.py] lines 30-49.  [current_model] is annotated
    [str]; it holds whatever the request body's [model] field held. *)
Record RuleContext := {
  current_model : value;
  headers : list (string * string);
  request_body : dict;
  token_usage : TokenUsage;
}.

Definition headers_value (ctx : RuleContext) : value :=
  VDict (map (fun kv => (fst kv, VStr (snd kv))) (headers ctx)).

(** [_get_nested_value(obj, path)], lines 86-124.  The result [VNone] is
    Python's [None], which the function returns for a path it cannot
    follow. *)
Fixpoint _get_nested_value (obj : value) (path : list string) : value :=
  match path with
  | [] => obj
  | current :: remaining =>
      if PyStr.contains_char "["%char current && PyStr.endswith "]" current
      then
        let key := PyStr.take (PyStr.index_char "["%char current) current in
        let index_str :=
          PyStr.slice (PyStr.index_char "["%char current + 1)
                      (String.length current - 1) current in
        match PyStr.int index_str with
        | Some index =>
            match obj with
            | VDict d =>
                match dict_get key d with
                | Some (VList arr) =>
                    if (0 <=? index)%Z && (index <? Z.of_nat (length arr))%Z
                    then match nth_error arr (Z.to_nat index) with
                         | Some item => _get_nested_value item remaining
                         | None => VNone
                         end
                    else VNone
                | _ => VNone
                end
            | _ => VNone
            end
        | None => VNone
        end
      else
        match obj with
        | VDict d =>
            match dict_get current d with
            | Some v => _get_nested_value v remaining
            | None => VNone
            end
        | _ => VNone
        end
  end.

(** [_get_token_usage_value(path)], lines 126-139. *)
Definition _get_token_usage_value (ctx : RuleContext) (path : list string)
  : value :=
  match path with
  | [] => VObj (token_usage ctx)
  | field_name :: _ =>
      if String.eqb field_name "input_tokens"
      then VInt (input_tokens (token_usage ctx))
      else if String.eqb field_name "output_tokens"
      then VInt (output_tokens (token_usage ctx))
      else if String.eqb field_name "total_tokens"
      then VInt (total_tokens (token_usage ctx))
      else VNone
  end.

(** [RuleContext.get_value(field_path)], lines 51-84. *)
Definition get_value (ctx : RuleContext) (field_path : string) : value :=
  if PyStr.is_empty field_path then VNone
  else
    match PyStr.split_char "."%char field_path with
    | [] => VNone
    | part0 :: parts =>
        let root := PyStr.lower part0 in
        if String.eqb root "model" then current_model ctx
        else if String.eqb root "headers"
        then _get_nested_value (headers_value ctx) parts
        else if String.eqb root "body"
        then _get_nested_value (VDict (request_body ctx)) parts
        else if String.eqb root "token_usage"
        then _get_token_usage_value ctx parts
        else VNone
    end.

(** The specification's reading of path resolution, for comparison with
    [get_value]: a path either resolves to a present value, which may be
    null, or is absent ([None] here), "a distinguished absent value, distinct
    from null". *)
Fixpoint resolve_nested (obj : value) (path : list string) : option value :=
  match path with
  | [] => Some obj
  | current :: remaining =>
      if PyStr.contains_char "["%char current && PyStr.endswith "]" current
      then
        let key := PyStr.take (PyStr.index_char "["%char current) current in
        let index_str :=
          PyStr.slice (PyStr.index_char "["%char current + 1)
                      (String.length current - 1) current in
        match PyStr.int index_str, obj with
        | Some index, VDict d =>
            match dict_get key d with
            | Some (VList arr) =>
                if (0 <=? index)%Z
                then item ← nth_error arr (Z.to_nat index);
                     resolve_nested item remaining
                else None
            | _ => None
            end
        | _, _ => None
        end
      else
        match obj with
        | VDict d => v ← dict_get current d; resolve_nested v remaining
        | _ => None
        end
  end.

Definition resolve (ctx : RuleContext) (field_path : string) : option value :=
  match PyStr.split_char "."%char field_path with
  | [] => None
  | part0 :: parts =>
      let root := PyStr.lower part0 in
      if String.eqb root "model" then Some (current_model ctx)
      else if String.eqb root "headers"
      then resolve_nested (headers_value ctx) parts
      else if String.eqb root "body"
      then resolve_nested (VDict (request_body ctx)) parts
      else if String.eqb root "token_usage"
      then match parts with
           | [] => Some (VObj (token_usage ctx))
           | field_name :: _ =>
               if String.eqb field_name "input_tokens"
               then Some (VInt (input_tokens (token_usage ctx)))
               else if String.eqb field_name "output_tokens"
               then Some (VInt (output_tokens (token_usage ctx)))
               else if String.eqb field_name "total_tokens"
               then Some (VInt (total_tokens (token_usage ctx)))
               else None
           end
      else None
  end.

(** Modelled from the spec: [Rule] and [RuleSet] of [app/rules/models.py],
    which is not among the sources: "Rule = {field, operator, value}.
    RuleSet = {rules[], logic in {AND, OR}}".  The fields are the ones the
    evaluator reads. *)
Record Rule := {
  field : string;
  operator : string;
  value_ : value;
}.

Record RuleSet := {
  rules : list Rule;
  logic : string;
}.

(** Modelled from the spec: [RuleSet.is_empty] of [app/rules/models.py],
    which is not among the sources: "Empty or absent RuleSet matches
    unconditionally", "RuleSet evaluation with empty [rules]". *)
Definition is_empty (ruleset : RuleSet) : bool :=
  match rules ruleset with [] => true | _ => false end.

Section Evaluator.
Context (B : Builtins).

(** The operators, [evaluator.py] lines 110-182.  An operator that can raise
    returns an [option]: [None] is the exception. *)
Definition _evaluate_eq (actual expected : value) : bool :=
  py_eq actual expected.

Definition _evaluate_ne (actual expected : value) : bool :=
  negb (py_eq actual expected).

Definition _evaluate_gt (actual expected : value) : option bool :=
  if is_none actual then Some false else py_cmp Gt actual expected.

Definition _evaluate_gte (actual expected : value) : option bool :=
  if is_none actual then Some false else py_cmp Ge actual expected.

Definition _evaluate_lt (actual expected : value) : option bool :=
  if is_none actual then Some false else py_cmp Lt actual expected.

Definition _evaluate_lte (actual expected : value) : option bool :=
  if is_none actual then Some false else py_cmp Le actual expected.

Definition _evaluate_contains (actual expected : value) : bool :=
  match actual with
  | VStr s => PyStr.contains (py_str B expected) s
  | _ => false
  end.

Definition _evaluate_not_contains (actual expected : value) : bool :=
  match actual with
  | VStr s => negb (PyStr.contains (py_str B expected) s)
  | _ => true
  end.

Definition _evaluate_regex (actual expected : value) : bool :=
  match actual with
  | VStr s =>
      match re_search B (py_str B expected) s with
      | Some found => found
      | None => false
      end
  | _ => false
  end.

Definition _evaluate_in (actual expected : value) : bool :=
  match expected with
  | VList l => existsb (fun x => py_eq x actual) l
  | _ => false
  end.

Definition _evaluate_not_in (actual expected : value) : bool :=
  match expected with
  | VList l => negb (existsb (fun x => py_eq x actual) l)
  | _ => true
  end.

Definition _evaluate_exists (actual expected : value) : bool :=
  let exists_ := negb (is_none actual) in
  if truthy expected then exists_ else negb exists_.

(** [try: ... except Exception: return False] *)
Definition except_false (r : option bool) : bool :=
  match r with Some b => b | None => false end.

(** [evaluate_rule(rule, context)], lines 35-82. *)
Definition evaluate_rule (rule : Rule) (context : RuleContext) : bool :=
  let actual_value := get_value context (field rule) in
  let expected_value := value_ rule in
  let operator := PyStr.lower (operator rule) in
  if String.eqb operator "eq"
  then _evaluate_eq actual_value expected_value
  else if String.eqb operator "ne"
  then _evaluate_ne actual_value expected_value
  else if String.eqb operator "gt"
  then except_false (_evaluate_gt actual_value expected_value)
  else if String.eqb operator "gte"
  then except_false (_evaluate_gte actual_value expected_value)
  else if String.eqb operator "lt"
  then except_false (_evaluate_lt actual_value expected_value)
  else if String.eqb operator "lte"
  then except_false (_evaluate_lte actual_value expected_value)
  else if String.eqb operator "contains"
  then _evaluate_contains actual_value expected_value
  else if String.eqb operator "not_contains"
  then _evaluate_not_contains actual_value expected_value
  else if String.eqb operator "regex"
  then _evaluate_regex actual_value expected_value
  else if String.eqb operator "in"
  then _evaluate_in actual_value expected_value
  else if String.eqb operator "not_in"
  then _evaluate_not_in actual_value expected_value
  else if String.eqb operator "exists"
  then _evaluate_exists actual_value expected_value
  else false.

(** [evaluate_ruleset(ruleset, context)], lines 84-106. *)
Definition evaluate_ruleset (ruleset : option RuleSet) (context : RuleContext)
  : bool :=
  match ruleset with
  | None => true
  | Some rs =>
      if is_empty rs then true
      else
        let results := map (fun rule => evaluate_rule rule context) (rules rs) in
        if String.eqb (logic rs) "OR"
        then existsb (fun b => b) results
        else forallb (fun b => b) results
  end.

End Evaluator.

End Rules.

(** ** [app/services/retry_handler.py] *)

Module Retry.
Import PyValue.

(** [CandidateProvider], [app/domain/request.py] lines 91-114. *)
Record CandidateProvider := {
  provider_id : Z;
  provider_name : string;
  base_url : string;
  protocol : string;
  api_key : option string;
  target_model : string;
  priority : Z;
  weight : Z;
}.

(** Modelled from the spec: [ProviderResponse] of [app/providers/base.py],
    which is not among the sources.  The fields are the ones its users read
    ("UpstreamResponse = {status, headers, body_or_stream, ttfb_ms?,
    total_ms?, error?}"); [is_success] is "success (2xx/3xx)" and
    [is_server_error] is the class the handler's own docstring retries on,
    a status code of 500 or more. *)
Record ProviderResponse := {
  status_code : Z;
  response_headers : list (string * string);
  body : value;
  first_byte_delay_ms : option Z;
  total_time_ms : option Z;
  error : option string;
}.

Definition is_success (r : ProviderResponse) : bool :=
  (200 <=? status_code r)%Z && (status_code r <? 400)%Z.

Definition is_server_error (r : ProviderResponse) : bool :=
  (500 <=? status_code r)%Z.

(** [ProviderResponse(status_code=..., error=...)] *)
Definition error_response (status : Z) (msg : string) : ProviderResponse :=
  {| status_code := status; response_headers := []; body := VNone;
     first_byte_delay_ms := None; total_time_ms := None; error := Some msg |}.

(** [RetryResult], lines 17-32. *)
Record RetryResult := {
  response : ProviderResponse;
  retry_count : nat;
  final_provider : option CandidateProvider;
  success : bool;
}.

(** What an execution does to the outside: each awaited [forward_fn] call
    with its response, and each [asyncio.sleep] with its delay in
    milliseconds. *)
Inductive event :=
| Forward (c : CandidateProvider) (r : ProviderResponse)
| Sleep (ms : Z).

(** The responses the forward function produced, in order. *)
Definition responses (log : list event) : list ProviderResponse :=
  omap (fun e => match e with Forward _ r => Some r | Sleep _ => None end) log.

(** The candidates the forward function was called on, in order. *)
Definition calls (log : list event) : list CandidateProvider :=
  omap (fun e => match e with Forward c _ => Some c | Sleep _ => None end) log.

Section Handler.
(** [S] is the state behind the awaited calls: the strategy's counters and
    whatever the forward function closes over. *)
Context {S : Type}.
Context (select : list CandidateProvider -> value -> S -> option CandidateProvider * S).
Context (forward_fn : CandidateProvider -> S -> ProviderResponse * S).
(** [self.max_retries] and [self.retry_delay_ms]; the former counts
    attempts. *)
Context (max_retries : nat) (retry_delay_ms : Z).

Record world := {
  ext : S;
  log : list event;
}.

Definition await_forward (c : CandidateProvider) (w : world)
  : ProviderResponse * world :=
  let '(r, s) := forward_fn c (ext w) in
  (r, {| ext := s; log := log w ++ [Forward c r] |}).

Definition await_sleep (w : world) : world :=
  {| ext := ext w; log := log w ++ [Sleep retry_delay_ms] |}.

(** [_get_next_untried_provider(candidates, tried_providers)],
    lines 157-175. *)
Definition _get_next_untried_provider
    (candidates : list CandidateProvider) (tried_providers : gset Z)
  : option CandidateProvider :=
  find (fun candidate => bool_decide (provider_id candidate ∉ tried_providers))
       candidates.

(** The inner loop, lines 102-133, for one provider.  The result is [None]
    when the fuel runs out; otherwise the first component is the
    [RetryResult] the function returned from inside the loop, or [None] when
    the loop ended, and the others are [total_retry_count], [last_response]
    and the world at that point. *)
Fixpoint same_provider_loop (fuel : nat) (current_provider : CandidateProvider)
    (same_provider_retries total_retry_count : nat)
    (last_response : option ProviderResponse) (w : world)
  : option (option RetryResult * nat * option ProviderResponse * world) :=
  if (same_provider_retries <? max_retries)%nat then
    match fuel with
    | O => None
    | Datatypes.S fuel' =>
        let '(response, w) := await_forward current_provider w in
        let last_response := Some response in
        if is_success response then
          Some (Some {| response := response;
                        retry_count := total_retry_count;
                        final_provider := Some current_provider;
                        success := true |},
                total_retry_count, last_response, w)
        else if is_server_error response then
          let same_provider_retries := same_provider_retries + 1 in
          let total_retry_count := total_retry_count + 1 in
          if (same_provider_retries <? max_retries)%nat then
            same_provider_loop fuel' current_provider same_provider_retries
              total_retry_count last_response (await_sleep w)
          else Some (None, total_retry_count, last_response, w)
        else Some (None, total_retry_count + 1, last_response, w)
    end
  else Some (None, total_retry_count, last_response, w).

(** The outer loop, lines 96-144, entered with a provider at hand; the
    return after it, lines 146-155, is its last case. *)
Fixpoint provider_loop (fuel : nat) (candidates : list CandidateProvider)
    (current_provider : CandidateProvider) (tried_providers : gset Z)
    (total_retry_count : nat) (last_response : option ProviderResponse)
    (w : world) : option (RetryResult * world) :=
  match fuel with
  | O => None
  | Datatypes.S fuel' =>
      let tried_providers := {[provider_id current_provider]} ∪ tried_providers in
      let last_provider := Some current_provider in
      match same_provider_loop max_retries current_provider 0
              total_retry_count last_response w with
      | None => None
      | Some (Some result, _, _, w) => Some (result, w)
      | Some (None, total_retry_count, last_response, w) =>
          match _get_next_untried_provider candidates tried_providers with
          | Some next_provider =>
              provider_loop fuel' candidates next_provider tried_providers
                total_retry_count last_response w
          | None =>
              Some ({| response :=
                         match last_response with
                         | Some r => r
                         | None => error_response 503 "All providers failed"
                         end;
                       retry_count := total_retry_count;
                       final_provider := last_provider;
                       success := false |}, w)
          end
      end
  end.

(** [execute_with_retry(candidates, requested_model, forward_fn)],
    lines 59-155.  The outer loop runs once per provider tried: at most once
    for the strategy's pick and once for every candidate. *)
Definition execute_with_retry (candidates : list CandidateProvider)
    (requested_model : value) (w : world) : option (RetryResult * world) :=
  match candidates with
  | [] =>
      Some ({| response := error_response 503 "No available providers";
               retry_count := 0;
               final_provider := None;
               success := false |}, w)
  | _ =>
      let '(current_provider, s) := select candidates requested_model (ext w) in
      let w := {| ext := s; log := log w |} in
      match current_provider with
      | Some current_provider =>
          provider_loop (Datatypes.S (length candidates)) candidates
            current_provider ∅ 0 None w
      | None =>
          Some ({| response := error_response 503 "All providers failed";
                   retry_count := 0;
                   final_provider := None;
                   success := false |}, w)
      end
  end.

End Handler.

Arguments world : clear implicits.

End Retry.


(** ** [app/common/token_counter.py] *)

Module TokenCounter.
Import PyValue.
#[local] Open Scope Z_scope.

Definition DEFAULT_ENCODING : string := "cl100k_base".

Definition MODEL_ENCODING_MAP : list (string * string) :=
  [("gpt-4", "cl100k_base");
   ("gpt-4-32k", "cl100k_base");
   ("gpt-4-turbo", "cl100k_base");
   ("gpt-3.5-turbo", "cl100k_base");
   ("text-embedding-ada-002", "cl100k_base");
   ("text-davinci-003", "p50k_base")].

(** The loop of [_get_encoding], lines 93-97: the encoding of the first
    prefix of the map that the model starts with. *)
Definition encoding_name (model : string) : string :=
  match List.find (fun entry => PyStr.startswith (fst entry) model)
          MODEL_ENCODING_MAP with
  | Some entry => snd entry
  | None => DEFAULT_ENCODING
  end.

(** [len(v)]: a [TypeError] on a value without a length. *)
Definition py_len (v : value) : option Z :=
  match v with
  | VStr s => Some (Z.of_nat (String.length s))
  | VList l => Some (Z.of_nat (length l))
  | VDict d => Some (Z.of_nat (length d))
  | _ => None
  end.

(** [len(text) // 4] *)
Definition estimate (text : value) : option Z :=
  option_map (fun n => (n / 4)%Z) (py_len text).

Inductive counter :=
| OpenAITokenCounter
| AnthropicTokenCounter.

(** [get_token_counter(protocol)], lines 232-244. *)
Definition get_token_counter (protocol : string) : counter :=
  if String.eqb (PyStr.lower protocol) "anthropic" then AnthropicTokenCounter
  else OpenAITokenCounter.

Section Counters.
(** [tiktoken]: absent when its import failed; when present,
    [len(tiktoken.get_encoding(name).encode(text))] for an encoding name and
    a text, or nothing when one of the two calls raises.  The encoder
    objects that [_get_encoding] caches are those [get_encoding] returns. *)
Context (tiktoken : option (string -> value -> option nat)).

(** [OpenAITokenCounter.count_tokens(text, model)], lines 105-127, with
    [_get_encoding], lines 79-103; [model.startswith] raises on a model that
    is not a string. *)
Definition openai_count_tokens (text model : value) : option Z :=
  if negb (truthy text) then Some 0%Z
  else
    match tiktoken with
    | Some count =>
        match model with
        | VStr name => option_map Z.of_nat (count (encoding_name name) text)
        | _ => None
        end
    | None => estimate text
    end.

(** [AnthropicTokenCounter.count_tokens(text, model)], lines 175-194. *)
Definition anthropic_count_tokens (text model : value) : option Z :=
  if negb (truthy text) then Some 0%Z else estimate text.

Definition count_tokens (self : counter) : value -> value -> option Z :=
  match self with
  | OpenAITokenCounter => openai_count_tokens
  | AnthropicTokenCounter => anthropic_count_tokens
  end.

(** The loop over the items of a content array, lines 157-159 and 222-224:
    the items that are dicts with a [text] key are counted. *)
Fixpoint count_parts (self : counter) (items : list value) (model : value)
    (total_tokens : Z) : option Z :=
  match items with
  | [] => Some total_tokens
  | item :: rest =>
      match item with
      | VDict fields =>
          match dict_get "text" fields with
          | Some text =>
              match count_tokens self text model with
              | Some n => count_parts self rest model (total_tokens + n)
              | None => None
              end
          | None => count_parts self rest model total_tokens
          end
      | _ => count_parts self rest model total_tokens
      end
  end.

Definition tokens_per_message : Z := 4.
Definition tokens_per_name : Z := (-1).

(** The loop over [message.items()], lines 152-161. *)
Fixpoint openai_count_fields (fields : dict) (model : value)
    (total_tokens : Z) : option Z :=
  match fields with
  | [] => Some total_tokens
  | (key, v) :: rest =>
      match
        match v with
        | VStr _ =>
            option_map (Z.add total_tokens) (openai_count_tokens v model)
        | VList items => count_parts OpenAITokenCounter items model total_tokens
        | _ => Some total_tokens
        end
      with
      | Some total_tokens =>
          openai_count_fields rest model
            (if String.eqb key "name" then total_tokens + tokens_per_name
             else total_tokens)
      | None => None
      end
  end.

(** The loop over the messages, lines 150-161; [message.items] raises on a
    message that is not a dict. *)
Fixpoint openai_count_loop (messages : list value) (model : value)
    (total_tokens : Z) : option Z :=
  match messages with
  | [] => Some total_tokens
  | message :: rest =>
      match message with
      | VDict fields =>
          match openai_count_fields fields model
                  (total_tokens + tokens_per_message) with
          | Some total_tokens => openai_count_loop rest model total_tokens
          | None => None
          end
      | _ => None
      end
  end.

(** [OpenAITokenCounter.count_messages(messages, model)], lines 129-164.
    The members of a string or of a dict that is not empty are strings, and
    a number has no members: the loop raises on all of them. *)
Definition openai_count_messages (messages model : value) : option Z :=
  if negb (truthy messages) then Some 0%Z
  else
    match messages with
    | VList items =>
        option_map (fun total_tokens => total_tokens + 3)
          (openai_count_loop items model 0)
    | _ => None
    end.

(** One turn of the loop of lines 211-227; [message.get] raises on a message
    that is not a dict. *)
Definition anthropic_count_message (message model : value)
    (total_tokens : Z) : option Z :=
  match message with
  | VDict fields =>
      let role :=
        match dict_get "role" fields with Some v => v | None => VStr "" end in
      let content :=
        match dict_get "content" fields with Some v => v | None => VStr "" end in
      match anthropic_count_tokens role model with
      | Some n =>
          let total_tokens := total_tokens + n in
          match
            match content with
            | VStr _ =>
                option_map (Z.add total_tokens)
                  (anthropic_count_tokens content model)
            | VList items =>
                count_parts AnthropicTokenCounter items model total_tokens
            | _ => Some total_tokens
            end
          with
          | Some total_tokens => Some (total_tokens + 4)
          | None => None
          end
      | None => None
      end
  | _ => None
  end.

Fixpoint anthropic_count_loop (messages : list value) (model : value)
    (total_tokens : Z) : option Z :=
  match messages with
  | [] => Some total_tokens
  | message :: rest =>
      match anthropic_count_message message model total_tokens with
      | Some total_tokens => anthropic_count_loop rest model total_tokens
      | None => None
      end
  end.

(** [AnthropicTokenCounter.count_messages(messages, model)], lines 196-229. *)
Definition anthropic_count_messages (messages model : value) : option Z :=
  if negb (truthy messages) then Some 0%Z
  else
    match messages with
    | VList items => anthropic_count_loop items model 0
    | _ => None
    end.

Definition count_messages (self : counter) : value -> value -> option Z :=
  match self with
  | OpenAITokenCounter => openai_count_messages
  | AnthropicTokenCounter => anthropic_count_messages
  end.

End Counters.

(** *** Notions used in the statements *)

(** A text that the estimate accepts: one that is false or has a length. *)
Definition text_ok (text : value) : bool :=
  negb (truthy text)
  || match py_len text with Some _ => true | None => false end.

Definition part_ok (item : value) : bool :=
  match item with
  | VDict fields =>
      match dict_get "text" fields with
      | Some text => text_ok text
      | None => true
      end
  | _ => true
  end.

Definition field_ok (v : value) : bool :=
  match v with
  | VList items => forallb part_ok items
  | _ => true
  end.

(** A message whose role, when it has one, is a text, and whose content
    arrays hold texts. *)
Definition message_ok (message : value) : bool :=
  match message with
  | VDict fields =>
      forallb (fun entry => field_ok (snd entry)) fields
      && match dict_get "role" fields with
         | Some role => text_ok role
         | None => true
         end
  | _ => false
  end.

(** The keys of a Python dict are distinct. *)
Definition distinct_keys (message : value) : bool :=
  match message with
  | VDict fields => bool_decide (NoDup (map fst fields))
  | _ => true
  end.

End TokenCounter.

(** ** [app/common/errors.py] *)

Module Errors.
Import PyValue.

(** [AppError], lines 10-58: the fields every subclass fills in. *)
Record AppError := {
  message : string;
  error_type : string;
  code : string;
  details : dict;
  status_code : Z;
}.

(** [NotFoundError(message, code)], lines 83-102. *)
Definition NotFoundError (message code : string) : AppError :=
  {| message := message; error_type := "not_found_error"; code := code;
     details := []; status_code := 404 |}.

(** [ServiceError(message, code)], lines 172-191: the status is fixed. *)
Definition ServiceError (message code : string) : AppError :=
  {| message := message; error_type := "service_error"; code := code;
     details := []; status_code := 503 |}.

(** [AppError.to_dict()], lines 42-58. *)
Definition to_dict (e : AppError) : value :=
  let result :=
    [("message", VStr (message e)); ("type", VStr (error_type e));
     ("code", VStr (code e))] in
  VDict [("error",
          VDict (match details e with
                 | [] => result
                 | d => result ++ [("details", VDict d)]
                 end))].

(** A call that returns or raises an [AppError]. *)
Inductive result (A : Type) :=
| Ok (a : A)
| Raise (e : AppError).
Arguments Ok {A} a.
Arguments Raise {A} e.

(** A call that returns, raises an [AppError], or raises something else
    (named by its class, or by the call that raised it). *)
Inductive outcome (A : Type) :=
| Return (a : A)
| RaiseApp (e : AppError)
| RaiseOther (what : string).
Arguments Return {A} a.
Arguments RaiseApp {A} e.
Arguments RaiseOther {A} what.

End Errors.

(** ** [app/providers/factory.py] *)

Module Factory.

(** The two client classes. *)
Inductive client :=
| OpenAIClient
| AnthropicClient.

(** [get_provider_client(protocol)], lines 16-42: the client of a protocol,
    or nothing for the [ValueError] on a protocol it does not know.  The
    cache holds one client for each of the two protocols. *)
Definition get_provider_client (protocol : string) : option client :=
  let protocol := PyStr.lower protocol in
  if String.eqb protocol "openai" then Some OpenAIClient
  else if String.eqb protocol "anthropic" then Some AnthropicClient
  else None.

End Factory.

(** ** [app/services/proxy_service.py] and [app/api/proxy/] *)

Module Proxy.
Import PyValue Rules Retry Errors Factory.

(** Modelled from the spec: [RequestLogCreate] of [app/domain/log.py], which
    is not among the sources: the "LogRecord" of the data model, with the
    fields [process_request] fills in at lines 200-219. *)
Record RequestLogCreate := {
  log_request_time : Z;
  log_api_key_id : Z;
  log_api_key_name : string;
  log_requested_model : value;
  log_target_model : option string;
  log_provider_id : option Z;
  log_provider_name : option string;
  log_retry_count : nat;
  log_first_byte_delay_ms : option Z;
  log_total_time_ms : option Z;
  log_input_tokens : Z;
  log_output_tokens : value;
  log_request_headers : list (string * string);
  log_request_body : dict;
  log_response_status : Z;
  log_response_body : option string;
  log_error_info : option string;
  log_trace_id : string;
}.

(** The second component of [process_request]'s result, lines 223-228. *)
Record LogInfo := {
  info_trace_id : string;
  info_retry_count : nat;
  info_target_model : option string;
  info_provider_name : option string;
}.

(** [sanitize_headers(headers)], [app/common/sanitizer.py] lines 48-82, on
    a header map whose values are strings. *)
Definition sanitize_headers (headers : list (string * string))
  : list (string * string) :=
  map (fun kv =>
         let key := PyStr.lower (fst kv) in
         if String.eqb key "authorization" || String.eqb key "x-api-key"
            || String.eqb key "api-key"
         then (fst kv, Sanitizer.sanitize_authorization (snd kv))
         else kv)
      headers.

Section Service.
(** [W] is the world behind the awaited calls: the database, the strategy's
    counters, the upstream providers, the clock.  The repositories, the rule
    engine, the strategy and the [forward] of the provider clients are the
    service's collaborators; their code is outside this development and
    they enter as the operations that [process_request] calls, as does
    [tiktoken] for the token counter. *)
Context {W ModelMapping ProviderMapping Provider : Type}.
Context (B : Builtins).
Context (generate_trace_id : W -> string * W).
Context (utcnow : W -> Z * W).
Context (get_mapping : value -> W -> option ModelMapping * W).
Context (mapping_is_active : ModelMapping -> bool).
Context (get_provider_mappings : value -> bool -> W -> list ProviderMapping * W).
Context (mapping_provider_id : ProviderMapping -> Z).
Context (get_by_id : Z -> W -> option Provider * W).
Context (provider_protocol : Provider -> string).
Context (tiktoken : option (string -> value -> option nat)).
Context (rule_engine_evaluate :
           RuleContext -> ModelMapping -> list ProviderMapping ->
           list (Z * Provider) -> W -> list CandidateProvider * W).
Context (select : list CandidateProvider -> value -> W -> option CandidateProvider * W).
Context (client_forward :
           client -> CandidateProvider -> string -> string ->
           list (string * string) -> dict -> W -> ProviderResponse * W).
Context (max_retries : nat) (retry_delay_ms : Z).
Context (json_dumps : value -> string).
Context (log_create : RequestLogCreate -> W -> W).

(** Lines 128-133: the providers found, by id. *)
Fixpoint load_providers (provider_ids : list Z) (providers : list (Z * Provider))
    (w : W) : list (Z * Provider) * W :=
  match provider_ids with
  | [] => (providers, w)
  | pid :: rest =>
      let '(provider, w) := get_by_id pid w in
      match provider with
      | Some p =>
          load_providers rest
            (if existsb (fun kv => (fst kv =? pid)%Z) providers
             then map (fun kv => if (fst kv =? pid)%Z then (pid, p) else kv)
                      providers
             else providers ++ [(pid, p)]) w
      | None => load_providers rest providers w
      end
  end.

Definition providers_get (pid : Z) (providers : list (Z * Provider))
  : option Provider :=
  snd <$> find (fun kv => (fst kv =? pid)%Z) providers.

(** Lines 186-197: the output tokens of a successful buffered response. *)
Definition harvest_output_tokens (result : RetryResult) : value :=
  if success result && truthy (body (response result)) then
    match body (response result) with
    | VDict d =>
        match (match dict_get "usage" d with Some u => u | None => VDict [] end) with
        | VDict usage =>
            let output_tokens :=
              match dict_get "completion_tokens" usage with
              | Some v => v
              | None => VInt 0
              end in
            if truthy output_tokens then output_tokens
            else match dict_get "output_tokens" usage with
                 | Some v => v
                 | None => VInt 0
                 end
        | _ => VInt 0
        end
    | _ => VInt 0
    end
  else VInt 0.

(** The forward function of lines 167-177, which [execute_with_retry]
    awaits.  [get_provider_client] raises on a protocol it does not know and
    the handler has no [except]: the exception leaves both of its loops at
    once.  The state of the run notes the exception, and the forward
    function then answers [raised], a success, on which both loops return
    at once as well; [process_request] turns a run that noted an exception
    into that exception. *)
Definition raised : ProviderResponse :=
  {| Retry.status_code := 200; response_headers := []; body := VNone;
     first_byte_delay_ms := None; total_time_ms := None; error := None |}.

Definition forward_fn (path method : string)
    (headers : list (string * string)) (body_ : dict)
    (candidate : CandidateProvider) (s : W * option string)
  : ProviderResponse * (W * option string) :=
  match get_provider_client (protocol candidate) with
  | Some client =>
      let '(response, w) :=
        client_forward client candidate path method headers body_ (fst s) in
      (response, (w, snd s))
  | None => (raised, (fst s, Some "ValueError"))
  end.

(** [self.strategy.select], in the state of the run. *)
Definition strategy_select (candidates : list CandidateProvider)
    (requested_model : value) (s : W * option string)
  : option CandidateProvider * (W * option string) :=
  let '(picked, w) := select candidates requested_model (fst s) in
  (picked, (w, snd s)).

(** The events of a run that reached a provider: the delays, and the calls
    on a candidate whose protocol has a client. *)
Definition went_upstream (l : list event) : list event :=
  List.filter (fun e => match e with
                        | Forward candidate _ =>
                            match get_provider_client (protocol candidate) with
                            | Some _ => true
                            | None => false
                            end
                        | Sleep _ => true
                        end) l.

(** [ProxyService.process_request], lines 63-228.  The third component of
    the result is what the retry handler did upstream: the forward calls and
    the delays, in order. *)
Definition process_request (api_key_id : Z) (api_key_name : string)
    (path method : string) (headers : list (string * string)) (body_ : dict)
    (w : W) : outcome (ProviderResponse * LogInfo) * W * list event :=
  let '(trace_id, w) := generate_trace_id w in
  let '(request_time, w) := utcnow w in
  (* 1 *)
  let requested_model :=
    match dict_get "model" body_ with Some v => v | None => VNone end in
  if negb (truthy requested_model) then
    (RaiseApp (ServiceError "Model is required in request body"
                 "missing_model"),
     w, [])
  else
  (* 2 *)
  let '(model_mapping, w) := get_mapping requested_model w in
  match model_mapping with
  | None =>
      (RaiseApp (NotFoundError
                ("Model '" +:+ py_str B requested_model +:+ "' is not configured")
                "model_not_found"), w, [])
  | Some model_mapping =>
  if negb (mapping_is_active model_mapping) then
    (RaiseApp (ServiceError
              ("Model '" +:+ py_str B requested_model +:+ "' is disabled")
              "model_disabled"), w, [])
  else
  (* 3 *)
  let '(provider_mappings, w) := get_provider_mappings requested_model true w in
  match provider_mappings with
  | [] =>
      (RaiseApp (ServiceError
                ("No providers configured for model '"
                 +:+ py_str B requested_model +:+ "'")
                "no_available_provider"), w, [])
  | first_mapping :: _ =>
  (* 4 *)
  let provider_ids := map mapping_provider_id provider_mappings in
  let '(providers, w) := load_providers provider_ids [] w in
  (* 5 *)
  let first_provider :=
    providers_get (mapping_provider_id first_mapping) providers in
  let protocol :=
    match first_provider with
    | Some p => provider_protocol p
    | None => "openai"
    end in
  let messages :=
    match dict_get "messages" body_ with Some v => v | None => VList [] end in
  let token_counter := TokenCounter.get_token_counter protocol in
  match TokenCounter.count_messages tiktoken token_counter messages
          requested_model with
  | None => (RaiseOther "count_messages", w, [])
  | Some input_tokens =>
  (* 6 *)
  let context :=
    {| current_model := requested_model; Rules.headers := headers;
       request_body := body_;
       token_usage := {| input_tokens := input_tokens; output_tokens := 0 |} |} in
  (* 7 *)
  let '(candidates, w) :=
    rule_engine_evaluate context model_mapping provider_mappings providers w in
  match candidates with
  | [] =>
      (RaiseApp (ServiceError "No providers matched the rules"
                "no_available_provider"), w, [])
  | _ =>
  (* 8 *)
  match execute_with_retry strategy_select
          (forward_fn path method headers body_) max_retries retry_delay_ms
          candidates requested_model {| ext := (w, None); log := [] |} with
  | None =>
      (* out of fuel: never, the handler's loops end within their fuel *)
      (RaiseApp (ServiceError "unreachable" "internal_error"), w, [])
  | Some (result, rw) =>
  match snd (ext rw) with
  | Some what => (RaiseOther what, fst (ext rw), went_upstream (log rw))
  | None =>
  let w := fst (ext rw) in
  (* 9 *)
  let output_tokens := harvest_output_tokens result in
  (* 10 *)
  let log_data :=
    {| log_request_time := request_time;
       log_api_key_id := api_key_id;
       log_api_key_name := api_key_name;
       log_requested_model := requested_model;
       log_target_model := target_model <$> final_provider result;
       log_provider_id := provider_id <$> final_provider result;
       log_provider_name := provider_name <$> final_provider result;
       log_retry_count := retry_count result;
       log_first_byte_delay_ms := first_byte_delay_ms (response result);
       log_total_time_ms := total_time_ms (response result);
       log_input_tokens := input_tokens;
       log_output_tokens := output_tokens;
       log_request_headers := sanitize_headers headers;
       log_request_body := body_;
       log_response_status := Retry.status_code (response result);
       log_response_body :=
         if truthy (body (response result))
         then Some (json_dumps (body (response result))) else None;
       log_error_info := error (response result);
       log_trace_id := trace_id |} in
  let w := log_create log_data w in
  (Return (response result,
           {| info_trace_id := trace_id;
              info_retry_count := retry_count result;
              info_target_model := target_model <$> final_provider result;
              info_provider_name := provider_name <$> final_provider result |}),
   w, log rw)
  end end end end end end.

(** What an endpoint answers: [JSONResponse(content, status_code,
    headers)]. *)
Record JSONResponse := {
  content : value;
  http_status : Z;
  http_headers : list (string * value);
}.

Definition option_str (o : option string) : value :=
  match o with Some s => VStr s | None => VNone end.

(** The body of the four endpoints, [app/api/proxy/openai.py] lines 18-148
    and [app/api/proxy/anthropic.py] lines 18-67: they differ in the path
    and in whether a success carries the trace headers.  [except AppError]
    lets every other exception through. *)
Definition proxy_endpoint (path : string) (trace_headers : bool)
    (api_key_id : Z) (api_key_name : string)
    (headers : list (string * string)) (body_ : dict) (w : W)
  : outcome JSONResponse * W * list event :=
  let '(outcome, w, upstream) :=
    process_request api_key_id api_key_name path "POST" headers body_ w in
  match outcome with
  | Return (response, log_info) =>
      if is_success response then
        (Return
           {| content := body response;
              http_status := Retry.status_code response;
              http_headers :=
                if trace_headers then
                  [("X-Trace-ID", VStr (info_trace_id log_info));
                   ("X-Target-Model", option_str (info_target_model log_info));
                   ("X-Provider", option_str (info_provider_name log_info))]
                else [] |}, w, upstream)
      else
        (Return
           {| content :=
                if truthy (body response) then body response
                else VDict [("error",
                             VDict [("message",
                                     option_str (error response))])];
              http_status := Retry.status_code response;
              http_headers := [] |}, w, upstream)
  | RaiseApp e =>
      (Return {| content := to_dict e; http_status := Errors.status_code e;
                 http_headers := [] |}, w, upstream)
  | RaiseOther what => (RaiseOther what, w, upstream)
  end.

Definition chat_completions := proxy_endpoint "/v1/chat/completions" true.
Definition completions := proxy_endpoint "/v1/completions" false.
Definition embeddings := proxy_endpoint "/v1/embeddings" false.
Definition messages := proxy_endpoint "/v1/messages" true.

End Service.

End Proxy.

(** ** [app/common/protocol_conversion.py] *)

Module Protocol.
Import PyValue Errors.

Definition OPENAI_PROTOCOL : string := "openai".
Definition ANTHROPIC_PROTOCOL : string := "anthropic".

(** A line feed. *)
Definition LF : string := String (ascii_of_nat 10) EmptyString.

(** [normalize_protocol(protocol)], lines 38-42. *)
Definition normalize_protocol (protocol : string) : result string :=
  let protocol :=
    PyStr.strip
      (PyStr.lower (if PyStr.is_empty protocol then OPENAI_PROTOCOL
                    else protocol)) in
  if String.eqb protocol OPENAI_PROTOCOL || String.eqb protocol ANTHROPIC_PROTOCOL
  then Ok protocol
  else Raise (ServiceError ("Unsupported protocol '" +:+ protocol +:+ "'")
                "unsupported_protocol").

(** [dict.get(key, default)] *)
Definition get_or (key : string) (d : dict) (default : value) : value :=
  match dict_get key d with Some v => v | None => default end.

(** [x or y] *)
Definition py_or (x y : value) : value := if truthy x then x else y.

Section Conversion.
(** The interpreter's part and the libraries': [json], [uuid], [time], the
    [litellm] translations, and the SSE decoder of
    [app/common/stream_usage.py]; [W] is the state behind [uuid.uuid4] and
    [time.time], [D] the decoder's buffer.  [encode_utf8] is
    [str.encode("utf-8")] on a text that is not ASCII: its bytes, or
    nothing for the [UnicodeEncodeError] on a text that has no encoding;
    [json.loads] makes such texts of the escape of a lone surrogate, and
    [json.dumps(ensure_ascii=False)] writes them as they are. *)
Context {W D : Type}.
Context (encode_utf8 : string -> option string).
Context (json_dumps : value -> string).
Context (json_loads : string -> option value).
Context (uuid4_hex : W -> string * W).
Context (time_time : W -> Z * W).
Context (transform_request : string -> list value -> dict -> option dict).
Context (translate_anthropic_to_openai : dict -> option dict).
Context (translate_streaming_chunk : value -> option value).
Context (new_decoder : D).
Context (feed : D -> string -> list string * D).

(** [text.encode("utf-8")]: an ASCII text is its own encoding. *)
Definition encode (text : string) : option string :=
  if PyStr.isascii text then Some text else encode_utf8 text.

(** [_encode_sse_data(payload)] and [_encode_sse_json(obj)], lines 45-50:
    the bytes of an event, or nothing when [encode] raises. *)
Definition _encode_sse_data (payload : string) : option string :=
  encode ("data: " +:+ payload +:+ LF +:+ LF).

Definition _encode_sse_json (obj : value) : option string :=
  _encode_sse_data (json_dumps obj).

(** What a generator hands to [yield]: the bytes, or nothing when the
    expression raised and the generator ended there. *)
Definition yields := list (option string).

(** [_map_anthropic_finish_reason_to_openai(stop_reason)], lines 53-62. *)
Definition _map_anthropic_finish_reason_to_openai (stop_reason : value)
  : string :=
  if negb (truthy stop_reason) then "stop"
  else if py_eq stop_reason (VStr "end_turn") then "stop"
  else if py_eq stop_reason (VStr "max_tokens") then "length"
  else if py_eq stop_reason (VStr "tool_use") then "tool_calls"
  else "stop".

(** Lines 99-103: the parameters handed to the translation. *)
Definition openai_optional_params (openai_body : dict) : dict :=
  let optional_params :=
    List.filter
      (fun kv => negb (String.eqb (fst kv) "model"
                       || String.eqb (fst kv) "messages"))
      openai_body in
  let optional_params :=
    if negb (dict_mem "max_tokens" optional_params)
       && dict_mem "max_completion_tokens" optional_params
    then dict_set "max_tokens"
           (get_or "max_completion_tokens" optional_params VNone)
           optional_params
    else optional_params in
  if negb (dict_mem "max_tokens" optional_params)
  then dict_set "max_tokens" (VInt 1024) optional_params
  else optional_params.

(** [convert_request_for_supplier(request_protocol, supplier_protocol, path,
    body, target_model)], lines 65-130. *)
Definition convert_request_for_supplier
    (request_protocol supplier_protocol path : string) (body : dict)
    (target_model : string) : outcome (string * dict) :=
  match normalize_protocol request_protocol with
  | Raise e => RaiseApp e
  | Ok request_protocol =>
  match normalize_protocol supplier_protocol with
  | Raise e => RaiseApp e
  | Ok supplier_protocol =>
  if String.eqb request_protocol supplier_protocol then
    Return (path, dict_set "model" (VStr target_model) body)
  else if String.eqb request_protocol OPENAI_PROTOCOL
          && String.eqb supplier_protocol ANTHROPIC_PROTOCOL then
    if negb (String.eqb path "/v1/chat/completions") then
      RaiseApp (ServiceError
                  ("Unsupported OpenAI endpoint for conversion: " +:+ path)
                  "unsupported_protocol_conversion")
    else
      match dict_get "messages" body with
      | Some (VList messages) =>
          match transform_request target_model messages
                  (openai_optional_params body) with
          | Some anthropic_body => Return ("/v1/messages", anthropic_body)
          | None => RaiseOther "litellm"
          end
      | _ =>
          RaiseApp (ServiceError "OpenAI request missing 'messages'"
                      "invalid_request")
      end
  else if String.eqb request_protocol ANTHROPIC_PROTOCOL
          && String.eqb supplier_protocol OPENAI_PROTOCOL then
    if negb (String.eqb path "/v1/messages") then
      RaiseApp (ServiceError
                  ("Unsupported Anthropic endpoint for conversion: " +:+ path)
                  "unsupported_protocol_conversion")
    else
      match translate_anthropic_to_openai
              (dict_set "model" (VStr target_model) body) with
      | Some openai_body => Return ("/v1/chat/completions", openai_body)
      | None => RaiseOther "litellm"
      end
  else
    RaiseApp (ServiceError
                ("Unsupported protocol conversion: " +:+ request_protocol
                 +:+ " -> " +:+ supplier_protocol)
                "unsupported_protocol_conversion")
  end end.

(** *** Streams: Anthropic events to OpenAI chunks, lines 279-398 *)

(** The loop's variables. *)
Record stream_state := {
  response_id : value;
  sent_role : bool;
  done : bool;
}.

Definition initial_state : stream_state :=
  {| response_id := VNone; sent_role := false; done := false |}.

(** [done = True], the other variables as they are. *)
Definition with_done (st : stream_state) : stream_state :=
  {| response_id := response_id st; sent_role := sent_role st; done := true |}.

(** The [chat.completion.chunk] object of lines 314-320 and its
    repetitions: [uuid.uuid4] is called only when no response id is at
    hand. *)
Definition completion_chunk (st : stream_state) (model : string)
    (delta : value) (finish_reason : value) (w : W) : value * W :=
  let '(id, w) :=
    if truthy (response_id st) then (response_id st, w)
    else let '(hex, w) := uuid4_hex w in (VStr ("chatcmpl-" +:+ hex), w) in
  let '(created, w) := time_time w in
  (VDict [("id", id);
          ("object", VStr "chat.completion.chunk");
          ("created", VInt created);
          ("model", VStr model);
          ("choices",
           VList [VDict [("index", VInt 0); ("delta", delta);
                         ("finish_reason", finish_reason)]])], w).

(** A chunk that carries content: the first one also carries the role. *)
Definition content_chunk (st : stream_state) (model : string) (delta : dict)
    (w : W) : yields * stream_state * W :=
  let delta :=
    if sent_role st then delta else dict_set "role" (VStr "assistant") delta in
  let '(chunk, w) := completion_chunk st model (VDict delta) VNone w in
  ([_encode_sse_json chunk],
   {| response_id := response_id st; sent_role := true; done := done st |}, w).

(** One decoded event, lines 297-394: what it yields and the variables
    after it.  [None] is the [AttributeError] of [data.get] on a JSON value
    that is not an object. *)
Definition handle_event (model : string) (data : value) (st : stream_state)
    (w : W) : option (yields * stream_state * W) :=
  match data with
  | VDict data =>
      let event_type := get_or "type" data VNone in
      if py_eq event_type (VStr "message_start") then
        match get_or "message" data (VDict []) with
        | VDict message =>
            Some ([], {| response_id :=
                           py_or (get_or "id" message VNone) (response_id st);
                         sent_role := sent_role st; done := done st |}, w)
        | _ => Some ([], st, w)
        end
      else if py_eq event_type (VStr "content_block_start") then
        match get_or "content_block" data (VDict []) with
        | VDict content_block =>
            if py_eq (get_or "type" content_block VNone) (VStr "text") then
              let text := py_or (get_or "text" content_block VNone) (VStr "") in
              if truthy text
              then Some (content_chunk st model [("content", text)] w)
              else Some ([], st, w)
            else Some ([], st, w)
        | _ => Some ([], st, w)
        end
      else if py_eq event_type (VStr "content_block_delta") then
        match get_or "delta" data VNone with
        | VDict delta_obj =>
            let delta_type := get_or "type" delta_obj VNone in
            if py_eq delta_type (VStr "text_delta") then
              let text := py_or (get_or "text" delta_obj VNone) (VStr "") in
              if truthy text
              then Some (content_chunk st model [("content", text)] w)
              else Some ([], st, w)
            else if py_eq delta_type (VStr "input_json_delta") then
              let partial_json :=
                py_or (get_or "partial_json" delta_obj VNone) (VStr "") in
              if truthy partial_json
              then Some (content_chunk st model
                           [("tool_calls",
                             VList [VDict [("index", VInt 0);
                                           ("id", VNone);
                                           ("type", VStr "function");
                                           ("function",
                                            VDict [("name", VNone);
                                                   ("arguments", partial_json)])]])]
                           w)
              else Some ([], st, w)
            else Some ([], st, w)
        | _ => Some ([], st, w)
        end
      else if py_eq event_type (VStr "message_delta") then
        let stop_reason :=
          match get_or "delta" data VNone with
          | VDict delta_dict => get_or "stop_reason" delta_dict VNone
          | _ => VNone
          end in
        let finish_reason := _map_anthropic_finish_reason_to_openai stop_reason in
        let '(chunk, w) :=
          completion_chunk st model (VDict []) (VStr finish_reason) w in
        Some ([_encode_sse_json chunk; _encode_sse_data "[DONE]"],
              {| response_id := response_id st; sent_role := sent_role st;
                 done := true |}, w)
      else if py_eq event_type (VStr "message_stop") then
        if negb (done st)
        then Some ([_encode_sse_data "[DONE]"],
                   {| response_id := response_id st; sent_role := sent_role st;
                      done := true |}, w)
        else Some ([], st, w)
      else Some ([], st, w)
  | _ => None
  end.

(** The inner loop, lines 286-394, over the payloads of one chunk: what was
    yielded, and the variables when the loop ended ([None] when an event
    raised). *)
Fixpoint for_payloads (model : string) (payloads : list string)
    (st : stream_state) (w : W) : yields * option (stream_state * W) :=
  match payloads with
  | [] => ([], Some (st, w))
  | payload :: rest =>
      if PyStr.is_empty payload then for_payloads model rest st w
      else if String.eqb (PyStr.strip payload) "[DONE]"
      then for_payloads model rest st w
      else
        match json_loads payload with
        | None => for_payloads model rest st w
        | Some data =>
            match handle_event model data st w with
            | None => ([], None)
            | Some (out, st, w) =>
                let '(outs, fin) := for_payloads model rest st w in
                (out ++ outs, fin)
            end
        end
  end.

(** The outer loop, line 285, over the upstream chunks. *)
Fixpoint for_chunks (model : string) (upstream : list string) (decoder : D)
    (st : stream_state) (w : W) : yields * option (stream_state * W) :=
  match upstream with
  | [] => ([], Some (st, w))
  | chunk :: rest =>
      let '(payloads, decoder) := feed decoder chunk in
      match for_payloads model payloads st w with
      | (out, None) => (out, None)
      | (out, Some (st, w)) =>
          let '(outs, fin) := for_chunks model rest decoder st w in
          (out ++ outs, fin)
      end
  end.

(** *** Streams: OpenAI chunks to Anthropic events, lines 205-277 *)

Record anthropic_state := {
  sent_message_start : bool;
  sent_content_block_start : bool;
  sent_content_block_finish : bool;
  holding : option value;
}.

Definition message_start_event (model : string) (w : W) : value * W :=
  let '(hex, w) := uuid4_hex w in
  (VDict [("type", VStr "message_start");
          ("message",
           VDict [("id", VStr ("msg_" +:+ hex));
                  ("type", VStr "message");
                  ("role", VStr "assistant");
                  ("content", VList []);
                  ("model", VStr model);
                  ("stop_reason", VNone);
                  ("stop_sequence", VNone);
                  ("usage", VDict [("input_tokens", VInt 0);
                                   ("output_tokens", VInt 0)])])], w).

Definition content_block_start_event : value :=
  VDict [("type", VStr "content_block_start"); ("index", VInt 0);
         ("content_block", VDict [("type", VStr "text"); ("text", VStr "")])].

Definition content_block_stop_event : value :=
  VDict [("type", VStr "content_block_stop"); ("index", VInt 0)].

(** One payload of lines 216-268: what it yields, and the variables after
    it, or nothing when [processed.get] raised, on a translation that is
    not an object. *)
Definition handle_openai_payload (model : string) (payload : string)
    (st : anthropic_state) (w : W) : yields * option (anthropic_state * W) :=
  if PyStr.is_empty payload then ([], Some (st, w))
  else if String.eqb (PyStr.strip payload) "[DONE]" then ([], Some (st, w))
  else
    let '(out1, w) :=
      if sent_message_start st then ([], w)
      else let '(ev, w) := message_start_event model w in
           ([_encode_sse_json ev], w) in
    let out2 :=
      if sent_content_block_start st then []
      else [_encode_sse_json content_block_start_event] in
    let st :=
      {| sent_message_start := true; sent_content_block_start := true;
         sent_content_block_finish := sent_content_block_finish st;
         holding := holding st |} in
    match json_loads payload with
    | None => (out1 ++ out2, Some (st, w))
    | Some data =>
        match translate_streaming_chunk data with
        | None => (out1 ++ out2, Some (st, w))
        | Some (VDict processed) =>
            if py_eq (get_or "type" processed VNone) (VStr "message_delta")
               && negb (sent_content_block_finish st)
            then
              (out1 ++ out2 ++ [_encode_sse_json content_block_stop_event],
               Some ({| sent_message_start := true;
                        sent_content_block_start := true;
                        sent_content_block_finish := true;
                        holding := Some (VDict processed) |}, w))
            else
              match holding st with
              | Some held =>
                  (out1 ++ out2 ++ [_encode_sse_json held],
                   Some ({| sent_message_start := true;
                            sent_content_block_start := true;
                            sent_content_block_finish :=
                              sent_content_block_finish st;
                            holding := Some (VDict processed) |}, w))
              | None =>
                  (out1 ++ out2 ++ [_encode_sse_json (VDict processed)],
                   Some (st, w))
              end
        | Some _ => (out1 ++ out2, None)
        end
    end.

Fixpoint for_openai_payloads (model : string) (payloads : list string)
    (st : anthropic_state) (w : W) : yields * option (anthropic_state * W) :=
  match payloads with
  | [] => ([], Some (st, w))
  | payload :: rest =>
      match handle_openai_payload model payload st w with
      | (out, None) => (out, None)
      | (out, Some (st, w)) =>
          let '(outs, fin) := for_openai_payloads model rest st w in
          (out ++ outs, fin)
      end
  end.

Fixpoint for_openai_chunks (model : string) (upstream : list string)
    (decoder : D) (st : anthropic_state) (w : W)
  : yields * option (anthropic_state * W) :=
  match upstream with
  | [] => ([], Some (st, w))
  | chunk :: rest =>
      let '(payloads, decoder) := feed decoder chunk in
      match for_openai_payloads model payloads st w with
      | (out, None) => (out, None)
      | (out, Some (st, w)) =>
          let '(outs, fin) := for_openai_chunks model rest decoder st w in
          (out ++ outs, fin)
      end
  end.

(** How a generator ends: it returns, or an exception leaves it. *)
Inductive stream_end :=
| Closed
| Failed (e : AppError)
| Crashed (what : string).

(** What a generator delivers of what it hands to [yield], and how it ends:
    the bytes up to the first expression that raised, where it ends with
    [UnicodeEncodeError], and else as it would. *)
Fixpoint deliver (out : yields) (fin : stream_end)
  : list string * stream_end :=
  match out with
  | [] => ([], fin)
  | Some chunk :: rest =>
      let '(chunks, fin) := deliver rest fin in (chunk :: chunks, fin)
  | None :: _ => ([], Crashed "UnicodeEncodeError")
  end.

(** [convert_stream_for_user(request_protocol, supplier_protocol, upstream,
    model)], lines 184-403, on a finite upstream: everything the generator
    yields, and how it ends. *)
Definition convert_stream_for_user
    (request_protocol supplier_protocol : string) (upstream : list string)
    (model : string) (w : W) : list string * stream_end :=
  match normalize_protocol request_protocol with
  | Raise e => ([], Failed e)
  | Ok request_protocol =>
  match normalize_protocol supplier_protocol with
  | Raise e => ([], Failed e)
  | Ok supplier_protocol =>
  if String.eqb request_protocol supplier_protocol then (upstream, Closed)
  else if String.eqb request_protocol ANTHROPIC_PROTOCOL
          && String.eqb supplier_protocol OPENAI_PROTOCOL then
    match for_openai_chunks model upstream new_decoder
            {| sent_message_start := false; sent_content_block_start := false;
               sent_content_block_finish := false; holding := None |} w with
    | (out, None) => deliver out (Crashed "AttributeError")
    | (out, Some (st, _)) =>
        deliver
          (out
           ++ match holding st with
              | Some held => [_encode_sse_json held]
              | None => []
              end
           ++ [_encode_sse_json (VDict [("type", VStr "message_stop")])])
          Closed
    end
  else if String.eqb request_protocol OPENAI_PROTOCOL
          && String.eqb supplier_protocol ANTHROPIC_PROTOCOL then
    match for_chunks model upstream new_decoder initial_state w with
    | (out, None) => deliver out (Crashed "AttributeError")
    | (out, Some (st, _)) =>
        deliver
          (out ++ (if negb (done st) then [_encode_sse_data "[DONE]"] else []))
          Closed
    end
  else
    ([], Failed (ServiceError
                   ("Unsupported protocol conversion: " +:+ supplier_protocol
                    +:+ " -> " +:+ request_protocol)
                   "unsupported_protocol_conversion"))
  end end.

(** The events the translation sees: the payloads of all chunks that are
    not empty, not [[DONE]] and that parse as JSON, in order. *)
Definition parsed_payloads (payloads : list string) : list value :=
  omap (fun payload =>
          if PyStr.is_empty payload then None
          else if String.eqb (PyStr.strip payload) "[DONE]" then None
          else json_loads payload)
       payloads.

Fixpoint decoded_events (upstream : list string) (decoder : D) : list value :=
  match upstream with
  | [] => []
  | chunk :: rest =>
      let '(payloads, decoder) := feed decoder chunk in
      parsed_payloads payloads ++ decoded_events rest decoder
  end.

(** The loop over the events themselves. *)
Fixpoint for_events (model : string) (events : list value)
    (st : stream_state) (w : W) : yields * option (stream_state * W) :=
  match events with
  | [] => ([], Some (st, w))
  | data :: rest =>
      match handle_event model data st w with
      | None => ([], None)
      | Some (out, st, w) =>
          let '(outs, fin) := for_events model rest st w in
          (out ++ outs, fin)
      end
  end.

End Conversion.

(** The type of an event, and the shape of a stream the translation ends
    with the terminator on. *)
Definition event_type (data : value) : value :=
  match data with
  | VDict d => get_or "type" d VNone
  | _ => VNone
  end.

Definition is_object (data : value) : bool :=
  match data with VDict _ => true | _ => false end.

(** [message_delta] and [message_stop] make the translation emit the
    terminator. *)
Definition terminating (data : value) : bool :=
  py_eq (event_type data) (VStr "message_delta")
  || py_eq (event_type data) (VStr "message_stop").


(** The terminator event of an OpenAI stream, as bytes. *)
Definition terminator : string := "data: [DONE]" +:+ LF +:+ LF.


End Protocol.

(** ** Notions used in the statements, and test-suite data *)

Module Fixtures.
Import PyValue Rules Errors Proxy Protocol Retry.

(** The handler of the test suite: two providers, three attempts each. *)
Definition provider1 : CandidateProvider :=
  {| provider_id := 1; provider_name := "Provider1";
     base_url := "https://api1.com"; protocol := "openai";
     api_key := Some "key1"; target_model := "model1";
     priority := 1; weight := 1 |}.

Definition provider2 : CandidateProvider :=
  {| provider_id := 2; provider_name := "Provider2";
     base_url := "https://api2.com"; protocol := "openai";
     api_key := Some "key2"; target_model := "model2";
     priority := 2; weight := 1 |}.

Definition pick_first (candidates : list CandidateProvider) (_ : value)
    (s : unit) : option CandidateProvider * unit :=
  (head candidates, s).

Definition always_500 (_ : CandidateProvider) (s : unit)
  : ProviderResponse * unit :=
  (error_response 500 "Server error", s).

Definition bad_request_on_1 (c : CandidateProvider) (s : unit)
  : ProviderResponse * unit :=
  if (provider_id c =? 1)%Z then (error_response 400 "Bad request", s)
  else ({| status_code := 200; response_headers := [];
           body := VDict [("result", VStr "ok")];
           first_byte_delay_ms := None; total_time_ms := None;
           error := None |}, s).

(** An instance of the interpreter's part, for closed examples: [str] of a
    non-string is left empty and no pattern compiles. *)
Definition no_builtins : Builtins :=
  {| str_other := fun _ => ""; re_search := fun _ _ => None |}.

(** The four ordering operators. *)
Definition is_order_operator (op : string) : bool :=
  String.eqb op "gt" || String.eqb op "gte"
  || String.eqb op "lt" || String.eqb op "lte".

(** The candidates still untried, in list order. *)
Definition untried (candidates : list CandidateProvider) (tried : gset Z)
  : list CandidateProvider :=
  List.filter (fun c => bool_decide (provider_id c ∉ tried)) candidates.

(** The error a request without a model ends in. *)
Definition missing_model : AppError :=
  ServiceError "Model is required in request body" "missing_model".

(** A service whose collaborators know nothing: no mapping, no provider,
    an upstream that always answers 200. *)
Definition empty_service_request (path : string) (trace_headers : bool)
    (body_ : dict) : outcome JSONResponse * unit * list event :=
  proxy_endpoint (ModelMapping := unit) (ProviderMapping := unit)
    (Provider := unit) no_builtins
    (fun w => ("0123456789abcdef0123456789abcdef", w)) (fun w => (0%Z, w))
    (fun _ w => (None, w)) (fun _ => true) (fun _ _ w => ([], w))
    (fun _ => 0%Z) (fun _ w => (None, w)) (fun _ => "openai")
    None (fun _ _ _ _ w => ([], w)) pick_first
    (fun _ c _ _ _ _ w => bad_request_on_1 c w) 3 1000 (fun _ => "{}")
    (fun _ w => w) path trace_headers 1 "key" [] body_ tt.

(** A decoder that hands each chunk on as one payload, and a parser that
    knows three payloads by name: a [message_delta] event, a
    [content_block_delta] event with text, and the number 1. *)
Definition line_decoder (d : unit) (chunk : string) : list string * unit :=
  ([chunk], d).

Definition message_delta_event : value :=
  VDict [("type", VStr "message_delta");
         ("delta", VDict [("stop_reason", VStr "end_turn")])].

Definition text_delta_event : value :=
  VDict [("type", VStr "content_block_delta");
         ("delta", VDict [("type", VStr "text_delta"); ("text", VStr "hi")])].

Definition named_payloads (payload : string) : option value :=
  if String.eqb payload "message_delta" then Some message_delta_event
  else if String.eqb payload "text_delta" then Some text_delta_event
  else if String.eqb payload "1" then Some (VInt 1)
  else None.

Definition named_stream (upstream : list string) : list string * stream_end :=
  convert_stream_for_user (fun _ => None) (fun _ => "{}") named_payloads
    (fun w => ("0", w)) (fun w => (0%Z, w)) (fun _ => None) tt line_decoder
    "openai" "anthropic" upstream "claude" tt.

(** A text delta whose text, a lone surrogate in the source, has no
    encoding; a serialisation that shows the content of a chunk; and the
    stream over them. *)
Definition surrogate_delta_event : value :=
  VDict [("type", VStr "content_block_delta");
         ("delta", VDict [("type", VStr "text_delta");
                          ("text", VStr (String (ascii_of_nat 237) ""))])].

Definition surrogate_payloads (payload : string) : option value :=
  if String.eqb payload "surrogate_delta" then Some surrogate_delta_event
  else named_payloads payload.

Definition chunk_text (data : value) : string :=
  match data with
  | VDict d =>
      match dict_get "choices" d with
      | Some (VList [VDict choice]) =>
          match dict_get "delta" choice with
          | Some (VDict delta) =>
              match dict_get "content" delta with
              | Some (VStr text) => text
              | _ => "{}"
              end
          | _ => "{}"
          end
      | _ => "{}"
      end
  | _ => "{}"
  end.

Definition surrogate_stream (upstream : list string)
  : list string * stream_end :=
  convert_stream_for_user (fun _ => None) chunk_text surrogate_payloads
    (fun w => ("0", w)) (fun w => (0%Z, w)) (fun _ => None) tt line_decoder
    "openai" "anthropic" upstream "claude" tt.

(** A translation that keeps the parameters as the body. *)
Definition keep_params (model : string) (messages : list value)
    (optional_params : dict) : option dict :=
  Some (dict_set "model" (VStr model)
          (dict_set "messages" (VList messages) optional_params)).

(** The request of the specification's cross-protocol scenario. *)
Definition hello_body : dict :=
  [("model", VStr "claude");
   ("messages",
    VList [VDict [("role", VStr "user"); ("content", VStr "hello")]])].

(** The context of the evaluator's tests. *)
Definition test_context : RuleContext :=
  {| current_model := VStr "gpt-4";
     headers := [("x-priority", "high")];
     request_body :=
       [("temperature", VFloat (QArith_base.Qmake 7 10));
        ("max_tokens", VInt 1000);
        ("messages",
         VList [VDict [("role", VStr "system");
                       ("content", VStr "You are helpful")];
                VDict [("role", VStr "user"); ("content", VStr "Hello")]])];
     token_usage := {| input_tokens := 500; output_tokens := 0 |} |}.

(** A forward function that counts its calls and succeeds on the third. *)
Definition ok_response : ProviderResponse :=
  {| status_code := 200; response_headers := [];
     body := VDict [("result", VStr "ok")];
     first_byte_delay_ms := None; total_time_ms := None; error := None |}.

Definition succeed_on_third (_ : CandidateProvider) (call_count : nat)
  : ProviderResponse * nat :=
  if (call_count + 1 <? 3)%nat
  then (error_response 500 "Server error", call_count + 1)
  else (ok_response, call_count + 1).

Definition server_error_on_1 (c : CandidateProvider) (s : unit)
  : ProviderResponse * unit :=
  if (provider_id c =? 1)%Z then (error_response 500 "Server error", s)
  else (ok_response, s).

(** A rule, and a run of the handler as the tests set it up: three attempts,
    10 ms apart, the first candidate picked first. *)
Definition rule (f op : string) (v : value) : Rule :=
  {| field := f; operator := op; value_ := v |}.

Definition run {S : Type} (forward_fn : CandidateProvider -> S -> ProviderResponse * S)
    (candidates : list CandidateProvider) (s : S) :=
  execute_with_retry (fun cs _ st => (head cs, st)) forward_fn 3 10 candidates
    (VStr "test") {| ext := s; log := [] |}.

(** A service with one mapping and the two providers of the tests, whose
    world is the list of log records written so far; provider 1 answers
    400. *)
Definition logging_service (body_ : dict) (w : list RequestLogCreate)
  : outcome (ProviderResponse * LogInfo) * list RequestLogCreate
    * list event :=
  process_request (ModelMapping := unit) (ProviderMapping := Z)
    (Provider := unit) no_builtins
    (fun w => ("0123456789abcdef0123456789abcdef", w)) (fun w => (0%Z, w))
    (fun _ w => (Some tt, w)) (fun _ => true) (fun _ _ w => ([1%Z; 2%Z], w))
    (fun pid => pid) (fun _ w => (Some tt, w)) (fun _ => "openai")
    None (fun _ _ _ _ w => ([provider1; provider2], w))
    (fun cs _ w => (head cs, w))
    (fun _ c _ _ _ _ w => (fst (bad_request_on_1 c tt), w)) 3 1000
    (fun _ => "{}") (fun record w => w ++ [record])
    1 "key" "/v1/chat/completions" "POST"
    [("authorization", "Bearer sk-1234567890abcdef")] body_ w.

(** A provider whose protocol has no client, and the service above with
    a rule engine that names the providers 1 and 3. *)
Definition provider3 : CandidateProvider :=
  {| provider_id := 3; provider_name := "Provider3";
     base_url := "https://api3.com"; protocol := "gemini";
     api_key := None; target_model := "model3";
     priority := 3; weight := 1 |}.

Definition gemini_service (body_ : dict) (w : list RequestLogCreate)
  : outcome (ProviderResponse * LogInfo) * list RequestLogCreate
    * list event :=
  process_request (ModelMapping := unit) (ProviderMapping := Z)
    (Provider := unit) no_builtins
    (fun w => ("0123456789abcdef0123456789abcdef", w)) (fun w => (0%Z, w))
    (fun _ w => (Some tt, w)) (fun _ => true) (fun _ _ w => ([1%Z; 3%Z], w))
    (fun pid => pid) (fun _ w => (Some tt, w)) (fun _ => "openai")
    None (fun _ _ _ _ w => ([provider1; provider3], w))
    (fun cs _ w => (head cs, w))
    (fun _ c _ _ _ _ w => (fst (bad_request_on_1 c tt), w)) 3 1000
    (fun _ => "{}") (fun record w => w ++ [record])
    1 "key" "/v1/chat/completions" "POST"
    [("authorization", "Bearer sk-1234567890abcdef")] body_ w.

(** A stream towards an Anthropic client, with a translation that keeps
    the event and a serialisation that shows its type. *)
Definition show_type (data : value) : string :=
  match event_type data with
  | VStr name => name
  | _ => "?"
  end.

Definition anthropic_named_stream (upstream : list string)
  : list string * stream_end :=
  convert_stream_for_user (fun _ => None) show_type named_payloads
    (fun w => ("0", w)) (fun w => (0%Z, w)) (fun data => Some data) tt
    line_decoder "anthropic" "openai" upstream "claude" tt.

(** Chat messages: a plain one, one with a [name], one with a content
    array. *)
Definition user_message : value :=
  VDict [("role", VStr "user");
         ("content", VStr "Hello, how are you today?")].

Definition named_message : value :=
  VDict [("role", VStr "user"); ("name", VStr "bob");
         ("content", VStr "Hi")].

Definition assistant_message : value :=
  VDict [("role", VStr "assistant");
         ("content",
          VList [VDict [("type", VStr "text"); ("text", VStr "I am fine.")]])].

(** The chat endpoint of that service. *)
Definition logging_endpoint (body_ : dict) (w : list RequestLogCreate)
  : outcome JSONResponse * list RequestLogCreate * list event :=
  chat_completions (ModelMapping := unit) (ProviderMapping := Z)
    (Provider := unit) no_builtins
    (fun w => ("0123456789abcdef0123456789abcdef", w)) (fun w => (0%Z, w))
    (fun _ w => (Some tt, w)) (fun _ => true) (fun _ _ w => ([1%Z; 2%Z], w))
    (fun pid => pid) (fun _ w => (Some tt, w)) (fun _ => "openai")
    None (fun _ _ _ _ w => ([provider1; provider2], w))
    (fun cs _ w => (head cs, w))
    (fun _ c _ _ _ _ w => (fst (bad_request_on_1 c tt), w)) 3 1000
    (fun _ => "{}") (fun record w => w ++ [record])
    1 "key" [("authorization", "Bearer sk-1234567890abcdef")] body_ w.

End Fixtures.

(** ** Further notions used in the statements *)

Module Notions.
Import PyValue Rules Errors Proxy Protocol Retry.

(** The responses of a log that are failures. *)
Definition failed (r : ProviderResponse) : bool := negb (is_success r).

Definition failed_count (l : list event) : nat :=
  length (List.filter failed (responses l)).

(** What the loops keep: the counter is the number of failures so far, the
    last response is the last one logged, and no response so far was a
    success. *)
Definition loop_invariant {S : Type} (total : nat) (last : option ProviderResponse)
    (w : world S) : Prop :=
  total = failed_count (log w)
  /\ last = list.last (responses (log w))
  /\ forallb failed (responses (log w)) = true.

(** What holds of a result and the world it is returned in. *)
Definition result_invariant {S : Type} (res : RetryResult) (w : world S) : Prop :=
  retry_count res = failed_count (log w)
  /\ (forall r, list.last (responses (log w)) = Some r -> response res = r)
  /\ (success res = true ->
      is_success (response res) = true
      /\ list.last (responses (log w)) = Some (response res)
      /\ list.last (calls (log w)) = final_provider res)
  /\ (success res = false -> forallb failed (responses (log w)) = true).

(** A log replays a forward function from a state to a state: every
    response it holds is the one the forward function gave on that
    candidate in the state that the calls before it left. *)
Fixpoint replays {S : Type}
    (forward_fn : CandidateProvider -> S -> ProviderResponse * S)
    (s : S) (l : list event) (s' : S) : Prop :=
  match l with
  | [] => s' = s
  | Forward c r :: rest =>
      fst (forward_fn c s) = r
      /\ replays forward_fn (snd (forward_fn c s)) rest s'
  | Sleep _ :: rest => replays forward_fn s rest s'
  end.


(** A path segment that is a plain key. *)
Definition plain_key (key : string) : bool :=
  negb (PyStr.contains_char "." key) && negb (PyStr.contains_char "[" key).

(** The operators [evaluate_rule] knows. *)
Definition known_operators : list string :=
  ["eq"; "ne"; "gt"; "gte"; "lt"; "lte"; "contains"; "not_contains";
   "regex"; "in"; "not_in"; "exists"].

End Notions.

(** ** [app/common/sanitizer.py], the header map *)

Module SanitizerHeaders.
Import PyValue Sanitizer.

(** Line 72: the names whose values are masked, in lower case. *)
Definition sensitive_fields : list string :=
  ["authorization"; "x-api-key"; "api-key"].

Definition is_sensitive (key : string) : bool :=
  existsb (String.eqb (PyStr.lower key)) sensitive_fields.

(** [sanitize_headers(headers)], lines 48-82, on a [dict[str, Any]]: a new
    dict with the same keys in the same order; the empty dict gives the
    empty dict. *)
Definition sanitize_headers (headers : dict) : dict :=
  map (fun kv =>
         match snd kv with
         | VStr s =>
             if is_sensitive (fst kv)
             then (fst kv, VStr (sanitize_authorization s))
             else kv
         | _ => kv
         end)
      headers.

(** What [sanitize_headers] does to one value under its key. *)
Definition sanitized_value (key : string) (v : value) : value :=
  match v with
  | VStr s => if is_sensitive key then VStr (sanitize_authorization s) else v
  | _ => v
  end.

(** The four shapes of a result. *)
Inductive masked : string -> Prop :=
| masked_short : masked "***"
| masked_long a b :
    String.length a = 4 -> String.length b = 2 ->
    masked (a +:+ "***...***" +:+ b)
| masked_bearer_short : masked "Bearer ***"
| masked_bearer_long a b :
    String.length a = 4 -> String.length b = 2 ->
    masked ("Bearer " +:+ a +:+ "***...***" +:+ b).

End SanitizerHeaders.


(** ** The frames of a stream towards an Anthropic client *)

Module AnthropicStream.
Import PyValue Protocol.

Section Frames.
Context {W D : Type}.
Context (encode_utf8 : string -> option string).
Context (json_dumps : value -> string).
Context (json_loads : string -> option value).
Context (uuid4_hex : W -> string * W).
Context (translate_streaming_chunk : value -> option value).
Context (feed : D -> string -> list string * D).

(** The payloads the loop of lines 216-268 does not skip: not empty and not
    [[DONE]]. *)
Definition is_live (payload : string) : bool :=
  negb (PyStr.is_empty payload)
  && negb (String.eqb (PyStr.strip payload) "[DONE]").

(** All payloads the decoder gives for the chunks of the upstream. *)
Fixpoint decoded_payloads (upstream : list string) (decoder : D)
  : list string :=
  match upstream with
  | [] => []
  | chunk :: rest =>
      let '(payloads, decoder) := feed decoder chunk in
      payloads ++ decoded_payloads rest decoder
  end.

(** What [translate_streaming_openai_response_to_anthropic] makes of a
    payload: nothing of one that is skipped, is not JSON or is not a chat
    completion chunk. *)
Definition translate_payload (payload : string) : option value :=
  if is_live payload then
    match json_loads payload with
    | Some data => translate_streaming_chunk data
    | None => None
    end
  else None.

Definition translated (payloads : list string) : list value :=
  omap translate_payload payloads.

Definition is_message_delta (processed : value) : bool :=
  py_eq (event_type processed) (VStr "message_delta").

(** The events before the first [message_delta], and the events from it
    on. *)
Fixpoint until_delta (events : list value) : list value :=
  match events with
  | [] => []
  | processed :: rest =>
      if is_message_delta processed then []
      else processed :: until_delta rest
  end.

Fixpoint from_delta (events : list value) : list value :=
  match events with
  | [] => []
  | processed :: rest =>
      if is_message_delta processed then processed :: rest
      else from_delta rest
  end.

(** The state of line 209-213. *)
Definition initial_anthropic_state : anthropic_state :=
  {| sent_message_start := false; sent_content_block_start := false;
     sent_content_block_finish := false; holding := None |}.

(** The frames still to open the stream with, the frames of a list of
    translated events, and the frame that is held back. *)
Definition header (model : string) (st : anthropic_state) (w : W)
  : yields :=
  (if sent_message_start st then []
   else [_encode_sse_json encode_utf8 json_dumps
           (fst (message_start_event uuid4_hex model w))])
  ++ (if sent_content_block_start st then []
      else [_encode_sse_json encode_utf8 json_dumps content_block_start_event]).

Definition body (finished : bool) (events : list value) : yields :=
  if finished then map (_encode_sse_json encode_utf8 json_dumps) events
  else
    map (_encode_sse_json encode_utf8 json_dumps) (until_delta events)
    ++ match from_delta events with
       | [] => []
       | rest =>
           _encode_sse_json encode_utf8 json_dumps content_block_stop_event
           :: map (_encode_sse_json encode_utf8 json_dumps) rest
       end.

Definition pending (st : anthropic_state) : yields :=
  match holding st with
  | Some held => [_encode_sse_json encode_utf8 json_dumps held]
  | None => []
  end.

(** An event is held back exactly when the content block was closed, which
    happens after the stream was opened. *)
Definition consistent (st : anthropic_state) : bool :=
  match holding st with
  | Some _ =>
      sent_content_block_finish st && sent_message_start st
      && sent_content_block_start st
  | None => negb (sent_content_block_finish st)
  end.

Definition message_stop_frame : option string :=
  _encode_sse_json encode_utf8 json_dumps (VDict [("type", VStr "message_stop")]).

(** The whole stream, read off the payloads: [message_start] and
    [content_block_start] when a payload is not skipped, the translated
    events in order with [content_block_stop] before the first
    [message_delta], and [message_stop]. *)
Definition frames (model : string) (payloads : list string) (w : W)
  : yields :=
  match List.filter is_live payloads with
  | [] => []
  | _ => header model initial_anthropic_state w
  end
  ++ body false (translated payloads)
  ++ [message_stop_frame].

End Frames.

End AnthropicStream.


(** ** [convert_response_for_user] of [app/common/protocol_conversion.py] *)

Module ProtocolResponse.
Import PyValue Errors Protocol.

Section Response.
(** The [litellm] translations of a response body, each with the
    [model_dump] of its result; nothing when one of the calls raises:
    [ModelResponse] of the body and
    [translate_openai_response_to_anthropic], and [httpx.Response] of the
    body and [AnthropicConfig().transform_response] for a model. *)
Context (translate_openai_response_to_anthropic : dict -> option value).
Context (transform_response : value -> dict -> option value).

(** [convert_response_for_user(request_protocol, supplier_protocol, body,
    target_model)], lines 133-181. *)
Definition convert_response_for_user
    (request_protocol supplier_protocol : string) (body : value)
    (target_model : string) : outcome value :=
  match normalize_protocol request_protocol with
  | Raise e => RaiseApp e
  | Ok request_protocol =>
  match normalize_protocol supplier_protocol with
  | Raise e => RaiseApp e
  | Ok supplier_protocol =>
  if String.eqb request_protocol supplier_protocol then Return body
  else
    match body with
    | VDict fields =>
        if String.eqb request_protocol ANTHROPIC_PROTOCOL
           && String.eqb supplier_protocol OPENAI_PROTOCOL then
          match translate_openai_response_to_anthropic fields with
          | Some translated => Return translated
          | None => RaiseOther "litellm"
          end
        else if String.eqb request_protocol OPENAI_PROTOCOL
                && String.eqb supplier_protocol ANTHROPIC_PROTOCOL then
          let model :=
            py_or (get_or "model" fields VNone) (VStr target_model) in
          match transform_response model fields with
          | Some model_response => Return model_response
          | None => RaiseOther "litellm"
          end
        else
          RaiseApp (ServiceError
                      ("Unsupported protocol conversion: "
                       +:+ supplier_protocol +:+ " -> " +:+ request_protocol)
                      "unsupported_protocol_conversion")
    | _ => Return body
    end
  end end.

End Response.

End ProtocolResponse.

(** * Properties *)

(** ** The repository's unit tests, replayed *)

Module TestSuite.
Import PyValue Rules Retry Sanitizer Fixtures.

(** [tests/unit/test_common/test_sanitizer.py] *)
Example test_bearer_token :
  sanitize_authorization "Bearer sk-1234567890abcdef" = "Bearer sk-1***...***ef".
Proof. reflexivity. Qed.

Example test_plain_token :
  sanitize_authorization "lgw-abcdefghijklmnop" = "lgw-***...***op".
Proof. reflexivity. Qed.

Example test_short_token : sanitize_authorization "short" = "***".
Proof. reflexivity. Qed.

Example test_empty_value : sanitize_authorization "" = "".
Proof. reflexivity. Qed.

(** [tests/unit/test_rules/test_rule_engine.py], [TestRuleContext] *)
Example test_get_value_model : get_value test_context "model" = VStr "gpt-4".
Proof. reflexivity. Qed.

Example test_get_value_headers :
  get_value test_context "headers.x-priority" = VStr "high".
Proof. reflexivity. Qed.

Example test_get_value_body :
  get_value test_context "body.max_tokens" = VInt 1000.
Proof. reflexivity. Qed.

Example test_get_value_body_nested :
  get_value test_context "body.messages[0].role" = VStr "system"
  /\ get_value test_context "body.messages[1].content" = VStr "Hello".
Proof. split; reflexivity. Qed.

Example test_get_value_token_usage :
  get_value test_context "token_usage.input_tokens" = VInt 500
  /\ get_value test_context "token_usage.total_tokens" = VInt 500.
Proof. split; reflexivity. Qed.

Example test_get_value_not_found :
  get_value test_context "headers.not-exist" = VNone
  /\ get_value test_context "body.not-exist" = VNone
  /\ get_value test_context "unknown.field" = VNone
  /\ get_value test_context "body.messages[2].role" = VNone.
Proof. repeat split. Qed.

(** [TestRuleEvaluator] *)
Example test_eq_operator :
  evaluate_rule no_builtins (rule "model" "eq" (VStr "gpt-4")) test_context = true
  /\ evaluate_rule no_builtins (rule "model" "eq" (VStr "gpt-3.5")) test_context
     = false.
Proof. split; reflexivity. Qed.

Example test_gt_operator :
  evaluate_rule no_builtins
    (rule "body.temperature" "gt" (VFloat (QArith_base.Qmake 1 2))) test_context
  = true
  /\ evaluate_rule no_builtins
       (rule "body.temperature" "gt" (VFloat (QArith_base.Qmake 7 10)))
       test_context
     = false.
Proof. split; reflexivity. Qed.

Example test_lte_operator :
  evaluate_rule no_builtins (rule "token_usage.input_tokens" "lte" (VInt 500))
    test_context = true.
Proof. reflexivity. Qed.

Example test_contains_operator :
  evaluate_rule no_builtins (rule "headers.x-priority" "contains" (VStr "hi"))
    test_context = true.
Proof. reflexivity. Qed.

Example test_in_operator :
  evaluate_rule no_builtins
    (rule "model" "in" (VList [VStr "gpt-4"; VStr "gpt-3.5"])) test_context
  = true
  /\ evaluate_rule no_builtins (rule "model" "in" (VList [VStr "claude-3"]))
       test_context
     = false.
Proof. split; reflexivity. Qed.

Example test_exists_operator :
  evaluate_rule no_builtins (rule "headers.x-priority" "exists" (VBool true))
    test_context = true
  /\ evaluate_rule no_builtins (rule "headers.not-exist" "exists" (VBool false))
       test_context
     = true.
Proof. split; reflexivity. Qed.

Example test_evaluate_ruleset_and :
  evaluate_ruleset no_builtins
    (Some {| rules := [rule "model" "eq" (VStr "gpt-4");
                       rule "headers.x-priority" "eq" (VStr "low")];
             logic := "AND" |}) test_context
  = false.
Proof. reflexivity. Qed.

Example test_evaluate_ruleset_or :
  evaluate_ruleset no_builtins
    (Some {| rules := [rule "model" "eq" (VStr "gpt-3.5");
                       rule "headers.x-priority" "eq" (VStr "high")];
             logic := "OR" |}) test_context
  = true.
Proof. reflexivity. Qed.

(** [tests/unit/test_services/test_retry_handler.py] *)
Example test_retry_on_500_error :
  exists w,
    run succeed_on_third [provider1; provider2] 0
    = Some ({| response := ok_response; retry_count := 2;
               final_provider := Some provider1; success := true |}, w)
    /\ ext w = 3
    /\ calls (log w) = [provider1; provider1; provider1].
Proof. eexists. repeat split. Qed.

Example test_switch_provider_on_400_error :
  exists w,
    run bad_request_on_1 [provider1; provider2] tt
    = Some ({| response := ok_response; retry_count := 1;
               final_provider := Some provider2; success := true |}, w)
    /\ calls (log w) = [provider1; provider2].
Proof. eexists. repeat split. Qed.

Example test_max_retries_then_switch :
  exists w,
    run server_error_on_1 [provider1; provider2] tt
    = Some ({| response := ok_response; retry_count := 3;
               final_provider := Some provider2; success := true |}, w)
    /\ calls (log w) = [provider1; provider1; provider1; provider2].
Proof. eexists. repeat split. Qed.

Example test_all_providers_fail :
  exists w,
    run always_500 [provider1; provider2] tt
    = Some ({| response := error_response 500 "Server error";
               retry_count := 6; final_provider := Some provider2;
               success := false |}, w).
Proof. eexists. reflexivity. Qed.

Example test_empty_candidates :
  run always_500 [] tt
  = Some ({| response := error_response 503 "No available providers";
             retry_count := 0; final_provider := None; success := false |},
          {| ext := tt; log := [] |}).
Proof. reflexivity. Qed.

End TestSuite.

(** ** Strings *)

Module PyStrFacts.
Import PyStr.

Lemma length_take n s : String.length (take n s) = Nat.min n (String.length s).
Proof.
  revert s; induction n as [|n IH]; intros [|c s]; simpl; auto.
Qed.

Lemma length_drop n s : String.length (drop n s) = String.length s - n.
Proof.
  revert s; induction n as [|n IH]; intros [|c s]; simpl; auto.
Qed.

Lemma length_last n s :
  n <= String.length s -> String.length (last n s) = n.
Proof. intros H. unfold last. rewrite length_drop. lia. Qed.

Lemma startswith_take p s :
  startswith p s = true -> take (String.length p) s = p.
Proof.
  revert s; induction p as [|a p IH]; intros [|b s]; simpl; try easy.
  intros H. apply andb_true_iff in H as [Hab Hp].
  apply Ascii.eqb_eq in Hab. subst b. f_equal. auto.
Qed.

(** A string of known length is its characters. *)
Lemma length_4_inv s :
  String.length s = 4 ->
  exists a b c d, s = String a (String b (String c (String d EmptyString))).
Proof.
  destruct s as [|a [|b [|c [|d [|e s]]]]]; simpl; try discriminate.
  intros _. eauto.
Qed.

Lemma length_2_inv s :
  String.length s = 2 -> exists a b, s = String a (String b EmptyString).
Proof.
  destruct s as [|a [|b [|c s]]]; simpl; try discriminate.
  intros _. eauto.
Qed.

(** [int] as the interpreter has it: white space around the literal, a sign,
    single underscores between digits; the separators U+001C to U+001F are
    no white space for it, and a literal of more than 4300 digits is
    refused. *)
Example int_literals :
  int " 12 " = Some 12%Z /\ int "-0" = Some 0%Z /\ int "1_0" = Some 10%Z
  /\ int "1__0" = None /\ int "+ 1" = None /\ int "" = None
  /\ int "0x10" = None.
Proof. repeat split; reflexivity. Qed.

Example int_white_space :
  int (String (ascii_of_nat 160) "1") = Some 1%Z
  /\ int (String (ascii_of_nat 11) "1") = Some 1%Z
  /\ int (String (ascii_of_nat 31) "1") = None
  /\ int ("1" +:+ String (ascii_of_nat 28) "") = None
  /\ strip (String (ascii_of_nat 31) "1") = "1".
Proof. repeat split; reflexivity. Qed.

Example int_digit_limit :
  int (string_of_list_ascii (repeat "1"%char 4301)) = None
  /\ int (string_of_list_ascii ("-"%char :: repeat "0"%char 4300)) = Some 0%Z
  /\ int (string_of_list_ascii (repeat "0"%char 4301)) = None.
Proof. repeat split; vm_compute; reflexivity. Qed.

End PyStrFacts.

(** ** The sanitizer *)

Module SanitizerFacts.
Import Sanitizer.

Lemma masked_long_matches a b :
  String.length a = 4 -> String.length b = 2 ->
  matches_mask ("Bearer " +:+ a +:+ "***...***" +:+ b) = true.
Proof.
  intros Ha Hb.
  destruct (PyStrFacts.length_4_inv a Ha) as (c1 & c2 & c3 & c4 & ->).
  destruct (PyStrFacts.length_2_inv b Hb) as (d1 & d2 & ->).
  unfold matches_mask. cbv zeta. apply orb_true_iff. right. reflexivity.
Qed.

Lemma bearer_not_empty value :
  PyStr.startswith "bearer " (PyStr.lower value) = true ->
  PyStr.is_empty value = false.
Proof. destruct value; [discriminate|reflexivity]. Qed.

(** The two outcomes on a value with the bearer prefix. *)
Lemma sanitize_bearer_long value :
  PyStr.startswith "bearer " (PyStr.lower value) = true ->
  9 <= String.length (PyStr.drop 7 value) ->
  sanitize_authorization value
  = "Bearer " +:+ PyStr.take 4 (PyStr.drop 7 value) +:+ "***...***"
    +:+ PyStr.last 2 (PyStr.drop 7 value).
Proof.
  intros Hb Hlen. unfold sanitize_authorization.
  rewrite (bearer_not_empty value Hb), Hb.
  destruct (String.length (PyStr.drop 7 value) <=? 8)%nat eqn:E;
    [apply Nat.leb_le in E; lia|reflexivity].
Qed.

Lemma sanitize_bearer_short value :
  PyStr.startswith "bearer " (PyStr.lower value) = true ->
  String.length (PyStr.drop 7 value) < 9 ->
  sanitize_authorization value = "Bearer ***".
Proof.
  intros Hb Hlen. unfold sanitize_authorization.
  rewrite (bearer_not_empty value Hb), Hb.
  destruct (String.length (PyStr.drop 7 value) <=? 8)%nat eqn:E;
    [reflexivity|apply Nat.leb_gt in E; lia].
Qed.

(** C4, as the code has it.  On a non-empty value that begins with
    [bearer ] in any letter case, the result begins with the literal prefix
    [Bearer ], whatever the case of the value's own prefix.  A token (the
    part after the first 7 characters) of 9 or more characters becomes its
    first 4 characters, [***...***] and its last 2 characters; a shorter one
    becomes [***].  The result matches the mask pattern, and it is the same
    for two tokens that agree on their first 4 and last 2 characters: the
    characters in between play no part. *)
Theorem C4_bearer_token_masked value :
  value <> "" ->
  PyStr.startswith "bearer " (PyStr.lower value) = true ->
  let token := PyStr.drop 7 value in
  (9 <= String.length token ->
   sanitize_authorization value
   = "Bearer " +:+ PyStr.take 4 token +:+ "***...***" +:+ PyStr.last 2 token)
  /\ (String.length token < 9 -> sanitize_authorization value = "Bearer ***")
  /\ matches_mask (sanitize_authorization value) = true
  /\ (forall value',
        PyStr.startswith "bearer " (PyStr.lower value') = true ->
        let token' := PyStr.drop 7 value' in
        9 <= String.length token -> 9 <= String.length token' ->
        PyStr.take 4 token' = PyStr.take 4 token ->
        PyStr.last 2 token' = PyStr.last 2 token ->
        sanitize_authorization value' = sanitize_authorization value).
Proof.
  intros _ Hb token.
  split; [apply sanitize_bearer_long; exact Hb|].
  split; [apply sanitize_bearer_short; exact Hb|].
  split.
  - destruct (Nat.le_gt_cases 9 (String.length token)) as [Hlong|Hshort].
    + rewrite (sanitize_bearer_long value Hb Hlong).
      apply masked_long_matches.
      * rewrite PyStrFacts.length_take. fold token. lia.
      * apply PyStrFacts.length_last. fold token. lia.
    + rewrite (sanitize_bearer_short value Hb Hshort). reflexivity.
  - intros value' Hb' token' Hlong Hlong' H4 H2.
    rewrite (sanitize_bearer_long value Hb Hlong).
    rewrite (sanitize_bearer_long value' Hb' Hlong').
    fold token token'. rewrite H4, H2. reflexivity.
Qed.

Lemma C4_witness :
  sanitize_authorization "Bearer sk-1234567890abcdef"
  = "Bearer sk-1***...***ef"
  /\ matches_mask (sanitize_authorization "Bearer sk-1234567890abcdef") = true.
Proof.
  pose proof (C4_bearer_token_masked "Bearer sk-1234567890abcdef"
                ltac:(discriminate) eq_refl) as (Hlong & _ & Hmask & _).
  split; [|exact Hmask].
  apply Hlong. simpl. lia.
Defined.

(** C4 as stated fails on a lower-case prefix: the value's own prefix is
    not kept, the result begins with [Bearer ]. *)
Lemma C4_counterexample :
  ~ (forall value,
        value <> "" ->
        PyStr.startswith "bearer " (PyStr.lower value) = true ->
        let token := PyStr.drop 7 value in
        (9 <= String.length token ->
         sanitize_authorization value
         = PyStr.take 7 value +:+ PyStr.take 4 token +:+ "***...***"
           +:+ PyStr.last 2 token
         /\ PyStr.contains (middle token) (sanitize_authorization value)
            = false)
        /\ (String.length token < 9 ->
            sanitize_authorization value = PyStr.take 7 value +:+ "***")).
Proof.
  intros H.
  destruct (H "bearer sk-1234567890abcdef" ltac:(discriminate) eq_refl)
    as (Hlong & _).
  destruct (Hlong ltac:(simpl; lia)) as [Heq _].
  vm_compute in Heq. discriminate.
Qed.

(** Nor is the middle of the token always missing from the result as a
    substring: a token that repeats its first characters shows them. *)
Lemma middle_may_reappear :
  sanitize_authorization "Bearer abcdabcdab" = "Bearer abcd***...***ab"
  /\ middle "abcdabcdab" = "abcd"
  /\ PyStr.contains (middle "abcdabcdab")
       (sanitize_authorization "Bearer abcdabcdab") = true.
Proof. repeat split. Qed.

End SanitizerFacts.

(** ** The rule evaluator *)

Module RulesFacts.
Import PyValue Rules Fixtures.

(** [get_value] against the specification's resolution: an absent path and
    a present null both come out as [None]. *)
Lemma get_nested_resolve path : forall obj,
  _get_nested_value obj path
  = match resolve_nested obj path with Some v => v | None => VNone end.
Proof.
  induction path as [|current remaining IH]; intros obj; [reflexivity|].
  cbn [_get_nested_value resolve_nested].
  destruct (PyStr.contains_char "[" current && PyStr.endswith "]" current).
  - destruct (PyStr.int _) as [index|]; [|reflexivity].
    destruct obj; try reflexivity.
    destruct (dict_get _ d) as [[]|]; try reflexivity.
    destruct (0 <=? index)%Z eqn:E0; [|reflexivity].
    cbn [andb].
    destruct (index <? Z.of_nat (length l))%Z eqn:E1.
    + destruct (nth_error l (Z.to_nat index)); [apply IH|reflexivity].
    + apply Z.ltb_ge in E1. apply Z.leb_le in E0.
      assert (Hn : nth_error l (Z.to_nat index) = None).
      { apply nth_error_None. lia. }
      rewrite Hn. reflexivity.
  - destruct obj; try reflexivity.
    destruct (dict_get current d); [apply IH|reflexivity].
Qed.

Lemma get_value_resolve ctx field_path :
  get_value ctx field_path
  = match resolve ctx field_path with Some v => v | None => VNone end.
Proof.
  unfold get_value, resolve.
  destruct field_path as [|c s]; [reflexivity|].
  cbn [PyStr.is_empty].
  destruct (PyStr.split_char "." (String c s)) as [|part0 parts];
    [reflexivity|].
  cbv zeta.
  destruct (String.eqb (PyStr.lower part0) "model"); [reflexivity|].
  destruct (String.eqb (PyStr.lower part0) "headers");
    [apply get_nested_resolve|].
  destruct (String.eqb (PyStr.lower part0) "body");
    [apply get_nested_resolve|].
  destruct (String.eqb (PyStr.lower part0) "token_usage"); [|reflexivity].
  unfold _get_token_usage_value.
  destruct parts as [|field_name ?]; [reflexivity|].
  repeat match goal with
         | |- context [if ?b then _ else _] => destruct b; try reflexivity
         end.
Qed.

Section Evaluator.
Context (B : Builtins).

(** C5. A ruleset that is [None], or whose [rules] list is empty, evaluates
    to true on every context, whatever its [logic], [AND] and [OR]
    included. *)
Theorem C5_empty_ruleset_true (context : RuleContext) :
  evaluate_ruleset B None context = true
  /\ (forall logic,
        evaluate_ruleset B (Some {| rules := []; logic := logic |}) context
        = true)
  /\ evaluate_ruleset B (Some {| rules := []; logic := "AND" |}) context = true
  /\ evaluate_ruleset B (Some {| rules := []; logic := "OR" |}) context = true.
Proof. repeat split. Qed.

Lemma py_cmp_none_left op expected : py_cmp op VNone expected = None.
Proof. destruct expected; reflexivity. Qed.

(** Ordering a non-number against a number raises. *)
Lemma py_cmp_mismatch op actual expected :
  num_of actual = None -> num_of expected <> None ->
  py_cmp op actual expected = None.
Proof.
  intros Ha He.
  destruct actual; try discriminate; destruct expected; try reflexivity;
    simpl in He; congruence.
Qed.

(** C6, as the code has it.  For a rule whose operator is [gt], [gte],
    [lt] or [lte]: when the field resolves to [None] (absent), or resolves
    to a non-number while the rule's value is a number, [evaluate_rule]
    returns false. *)
Theorem C6_order_false_on_absent_or_mismatch (rule : Rule) (context : RuleContext) :
  is_order_operator (PyStr.lower (operator rule)) = true ->
  get_value context (field rule) = VNone
  \/ (num_of (get_value context (field rule)) = None
      /\ num_of (value_ rule) <> None) ->
  evaluate_rule B rule context = false.
Proof.
  intros Hop Hact. unfold evaluate_rule. cbv zeta.
  set (op := PyStr.lower (operator rule)) in *.
  set (actual := get_value context (field rule)) in *.
  assert (Hcmp : forall o,
             except_false (if is_none actual then Some false
                           else py_cmp o actual (value_ rule)) = false).
  { intros o. destruct Hact as [->|[Ha He]]; [reflexivity|].
    rewrite (py_cmp_mismatch o _ _ Ha He). destruct (is_none actual); reflexivity. }
  unfold is_order_operator in Hop.
  destruct (String.eqb op "eq") eqn:E1.
  { apply String.eqb_eq in E1. rewrite E1 in Hop. discriminate. }
  destruct (String.eqb op "ne") eqn:E2.
  { apply String.eqb_eq in E2. rewrite E2 in Hop. discriminate. }
  unfold _evaluate_gt, _evaluate_gte, _evaluate_lt, _evaluate_lte.
  destruct (String.eqb op "gt"); [apply Hcmp|].
  destruct (String.eqb op "gte"); [apply Hcmp|].
  destruct (String.eqb op "lt"); [apply Hcmp|].
  destruct (String.eqb op "lte"); [apply Hcmp|].
  discriminate.
Qed.

(** [exists] with a false expectation holds exactly on [None]. *)
Lemma evaluate_exists_false actual :
  _evaluate_exists actual (VBool false) = is_none actual.
Proof. unfold _evaluate_exists. simpl. apply negb_involutive. Qed.

(** C7, as the code has it.  [get_value] returns [None] for a path that
    does not resolve, the same value it returns for a path that is present
    with a null value; so the [exists] operator with [expected = false]
    holds exactly for the paths that do not resolve and the paths present
    with a null value. *)
Theorem C7_absent_is_null (context : RuleContext) (field_path : string) :
  get_value context field_path
  = match resolve context field_path with Some v => v | None => VNone end
  /\ (evaluate_rule B {| field := field_path; operator := "exists";
                         value_ := VBool false |} context = true
      <-> resolve context field_path = None
          \/ resolve context field_path = Some VNone).
Proof.
  split; [apply get_value_resolve|].
  unfold evaluate_rule. cbn [field operator value_].
  change (PyStr.lower "exists") with "exists". cbn [String.eqb Ascii.eqb].
  cbv zeta.
  change (if String.eqb "exists" "eq" then _ else _)
    with (_evaluate_exists (get_value context field_path) (VBool false)).
  rewrite evaluate_exists_false, get_value_resolve.
  destruct (resolve context field_path) as [v|]; [|simpl; tauto].
  destruct v; simpl; split; intros H; try discriminate; auto;
    destruct H as [H|H]; congruence.
Qed.

(** C10. [not_contains] is the negation of [contains] on all values: where
    the actual value is [None] or not a string, [contains] is false and
    [not_contains] is true. *)
Theorem C10_not_contains_negates_contains (actual expected : value) :
  _evaluate_not_contains B actual expected
  = negb (_evaluate_contains B actual expected)
  /\ ((forall s, actual <> VStr s) ->
      _evaluate_contains B actual expected = false
      /\ _evaluate_not_contains B actual expected = true).
Proof.
  split.
  - destruct actual; reflexivity.
  - intros Hns. destruct actual; try (split; reflexivity).
    exfalso. apply (Hns s). reflexivity.
Qed.

End Evaluator.

(** C6 as stated fails on a string that is compared with a string: the
    comparison is lexicographic and can hold. *)
Lemma C6_counterexample :
  ~ (forall (B : Builtins) (rule : Rule) (context : RuleContext),
        is_order_operator (PyStr.lower (operator rule)) = true ->
        get_value context (field rule) = VNone
        \/ num_of (get_value context (field rule)) = None ->
        evaluate_rule B rule context = false).
Proof.
  intros H.
  specialize (H no_builtins
                {| field := "model"; operator := "gt"; value_ := VStr "a" |}
                {| current_model := VStr "gpt-4"; headers := [];
                   request_body := []; token_usage :=
                     {| input_tokens := 0; output_tokens := 0 |} |}
                eq_refl (or_intror eq_refl)).
  vm_compute in H. discriminate.
Qed.

Lemma C6_witness :
  evaluate_rule no_builtins
    {| field := "model"; operator := "gt"; value_ := VInt 5 |}
    {| current_model := VStr "gpt-4"; headers := []; request_body := [];
       token_usage := {| input_tokens := 0; output_tokens := 0 |} |}
  = false.
Proof.
  apply (C6_order_false_on_absent_or_mismatch no_builtins).
  - reflexivity.
  - right. split; [reflexivity|discriminate].
Defined.

(** C7 as stated fails on a field that is present with a null value. *)
Lemma C7_counterexample :
  ~ (forall (B : Builtins) (context : RuleContext) (field_path : string),
        (resolve context field_path = None ->
         get_value context field_path <> VNone)
        /\ (evaluate_rule B {| field := field_path; operator := "exists";
                               value_ := VBool false |} context = true ->
            resolve context field_path = None)).
Proof.
  intros H.
  destruct (H no_builtins
              {| current_model := VStr "gpt-4"; headers := [];
                 request_body := [("user", VNone)]; token_usage :=
                   {| input_tokens := 0; output_tokens := 0 |} |}
              "body.user") as [_ Hex].
  specialize (Hex eq_refl). vm_compute in Hex. discriminate.
Qed.

End RulesFacts.

(** ** The proxy service *)

Module ProxyFacts.
Import PyValue Rules Retry Errors Factory Proxy Fixtures.

Section Service.
Context {W ModelMapping ProviderMapping Provider : Type}.
Context (B : Builtins).
Context (generate_trace_id : W -> string * W).
Context (utcnow : W -> Z * W).
Context (get_mapping : value -> W -> option ModelMapping * W).
Context (mapping_is_active : ModelMapping -> bool).
Context (get_provider_mappings : value -> bool -> W -> list ProviderMapping * W).
Context (mapping_provider_id : ProviderMapping -> Z).
Context (get_by_id : Z -> W -> option Provider * W).
Context (provider_protocol : Provider -> string).
Context (tiktoken : option (string -> value -> option nat)).
Context (rule_engine_evaluate :
           RuleContext -> ModelMapping -> list ProviderMapping ->
           list (Z * Provider) -> W -> list CandidateProvider * W).
Context (select : list CandidateProvider -> value -> W -> option CandidateProvider * W).
Context (client_forward :
           client -> CandidateProvider -> string -> string ->
           list (string * string) -> dict -> W -> ProviderResponse * W).
Context (max_retries : nat) (retry_delay_ms : Z).
Context (json_dumps : value -> string).
Context (log_create : RequestLogCreate -> W -> W).

Local Abbreviation process_request :=
  (process_request B generate_trace_id utcnow get_mapping mapping_is_active
     get_provider_mappings mapping_provider_id get_by_id provider_protocol
     tiktoken rule_engine_evaluate select client_forward max_retries
     retry_delay_ms json_dumps log_create).
Local Abbreviation proxy_endpoint :=
  (proxy_endpoint B generate_trace_id utcnow get_mapping mapping_is_active
     get_provider_mappings mapping_provider_id get_by_id provider_protocol
     tiktoken rule_engine_evaluate select client_forward max_retries
     retry_delay_ms json_dumps log_create).

Lemma process_request_missing_model
    api_key_id api_key_name path method headers body_ w :
  truthy (match dict_get "model" body_ with Some v => v | None => VNone end)
  = false ->
  process_request api_key_id api_key_name path method headers body_ w
  = (RaiseApp missing_model, snd (utcnow (snd (generate_trace_id w))), []).
Proof.
  intros Hm. unfold Proxy.process_request.
  destruct (generate_trace_id w) as [trace_id w1]. cbn [snd].
  destruct (utcnow w1) as [request_time w2]. cbn [snd].
  cbv zeta. rewrite Hm. reflexivity.
Qed.

(** C3, as the code has it.  When the body's [model] field is missing or
    falsy, [process_request] raises the [ServiceError] with code
    [missing_model] before it reads a mapping or calls a provider (the world
    has only seen the trace id and the clock, and nothing went upstream), and
    each of the four endpoints answers with that error's dictionary and its
    status, which is 503. *)
Theorem C3_missing_model_is_503
    path trace_headers api_key_id api_key_name headers body_ w :
  truthy (match dict_get "model" body_ with Some v => v | None => VNone end)
  = false ->
  (forall method,
      process_request api_key_id api_key_name path method headers body_ w
      = (RaiseApp missing_model, snd (utcnow (snd (generate_trace_id w))),
         []))
  /\ code missing_model = "missing_model"
  /\ proxy_endpoint path trace_headers api_key_id api_key_name headers body_ w
     = (Return {| content := to_dict missing_model; http_status := 503;
                  http_headers := [] |},
        snd (utcnow (snd (generate_trace_id w))), []).
Proof.
  intros Hm. split; [|split; [reflexivity|]].
  - intros method. apply process_request_missing_model. exact Hm.
  - unfold Proxy.proxy_endpoint.
    rewrite (process_request_missing_model _ _ _ _ _ _ _ Hm). reflexivity.
Qed.

End Service.

Lemma C3_witness :
  empty_service_request "/v1/chat/completions" true
    [("messages", VList [])]
  = (Return
       {| content :=
            VDict [("error",
                    VDict [("message",
                            VStr "Model is required in request body");
                           ("type", VStr "service_error");
                           ("code", VStr "missing_model")])];
          http_status := 503; http_headers := [] |}, tt, []).
Proof.
  unfold empty_service_request.
  refine (proj2 (proj2 (C3_missing_model_is_503 _ _ _ _ _ _ _ _ _ _ _ _ _ _
                          _ _ _ _ _ _ _ _ _ _ _))).
  reflexivity.
Defined.

(** C3 as stated fails: the status the client sees is neither 404 nor
    400. *)
Lemma C3_counterexample :
  ~ (forall (path : string) (trace_headers : bool) (body_ : dict),
        truthy (match dict_get "model" body_ with
                | Some v => v
                | None => VNone
                end) = false ->
        let '(reply, _, upstream) :=
          empty_service_request path trace_headers body_ in
        (exists answer,
            reply = Return answer
            /\ (http_status answer = 404%Z \/ http_status answer = 400%Z))
        /\ upstream = []).
Proof.
  intros H.
  specialize (H "/v1/chat/completions" true [("messages", VList [])] eq_refl).
  vm_compute in H. destruct H as [(answer & Hr & H) _].
  injection Hr as <-. destruct H as [H|H]; discriminate.
Qed.

End ProxyFacts.

(** ** Protocol conversion *)

Module ProtocolFacts.
Import PyValue Errors Protocol Fixtures Notions.






Section Conversion.
Context (transform_request : string -> list value -> dict -> option dict).
Context (translate_anthropic_to_openai : dict -> option dict).

Local Abbreviation convert_request_for_supplier :=
  (convert_request_for_supplier transform_request translate_anthropic_to_openai).


End Conversion.


Lemma py_eq_VStr v s : py_eq v (VStr s) = true -> v = VStr s.
Proof.
  destruct v; simpl; try discriminate.
  intros H. apply String.eqb_eq in H. congruence.
Qed.


Lemma terminator_bytes : terminator = "data: [DONE]" +:+ LF +:+ LF.
Proof. reflexivity. Qed.

(** *** What is delivered *)


(** A generator that closes delivered everything it handed to [yield]. *)
Lemma deliver_closed ys fin out :
  deliver ys fin = (out, Closed) -> fin = Closed /\ ys = map Some out.
Proof.
  revert out. induction ys as [|[chunk|] rest IH]; intros out; cbn [deliver].
  - intros H. injection H as <- ->. auto.
  - destruct (deliver rest fin) as [chunks fin'] eqn:Hrest.
    intros H. injection H as <- ->.
    destruct (IH _ eq_refl) as [-> ->]. auto.
  - discriminate.
Qed.

Lemma deliver_failed ys fin out e :
  deliver ys fin = (out, Failed e) -> fin = Failed e /\ ys = map Some out.
Proof.
  revert out. induction ys as [|[chunk|] rest IH]; intros out; cbn [deliver].
  - intros H. injection H as <- ->. auto.
  - destruct (deliver rest fin) as [chunks fin'] eqn:Hrest.
    intros H. injection H as <- ->.
    destruct (IH _ eq_refl) as [-> ->]. auto.
  - discriminate.
Qed.

(** A generator ends as it would, or on the first expression that has no
    encoding. *)
Lemma deliver_end ys fin out fin' :
  deliver ys fin = (out, fin') ->
  fin' = fin \/ fin' = Crashed "UnicodeEncodeError".
Proof.
  revert out fin'.
  induction ys as [|[chunk|] rest IH]; intros out fin'; cbn [deliver].
  - intros H. injection H as <- <-. auto.
  - destruct (deliver rest fin) as [chunks f] eqn:Hrest.
    intros H. injection H as <- <-. exact (IH _ _ eq_refl).
  - intros H. injection H as <- <-. auto.
Qed.




Section Streams.
Context {W D : Type}.
Context (encode_utf8 : string -> option string).
Context (json_dumps : value -> string).
Context (json_loads : string -> option value).
Context (uuid4_hex : W -> string * W).
Context (time_time : W -> Z * W).
Context (translate_streaming_chunk : value -> option value).
Context (new_decoder : D).
Context (feed : D -> string -> list string * D).

Local Abbreviation _encode_sse_data := (_encode_sse_data encode_utf8).
Local Abbreviation _encode_sse_json :=
  (_encode_sse_json encode_utf8 json_dumps).
Local Abbreviation handle_event :=
  (handle_event encode_utf8 json_dumps uuid4_hex time_time).
Local Abbreviation for_events :=
  (for_events encode_utf8 json_dumps uuid4_hex time_time).
Local Abbreviation for_payloads :=
  (for_payloads encode_utf8 json_dumps json_loads uuid4_hex time_time).
Local Abbreviation for_chunks :=
  (for_chunks encode_utf8 json_dumps json_loads uuid4_hex time_time feed).
Local Abbreviation decoded_events := (decoded_events json_loads feed).
Local Abbreviation convert_stream_for_user :=
  (convert_stream_for_user encode_utf8 json_dumps json_loads uuid4_hex
     time_time translate_streaming_chunk new_decoder feed).

(** The terminator has an encoding, itself. *)
Lemma encode_terminator : _encode_sse_data "[DONE]" = Some terminator.
Proof. reflexivity. Qed.

(** *** The loops, over the events *)

Lemma for_payloads_events model payloads st w :
  for_payloads model payloads st w
  = for_events model (parsed_payloads json_loads payloads) st w.
Proof.
  revert st w. induction payloads as [|payload rest IH]; intros st w;
    [reflexivity|].
  cbn [Protocol.for_payloads parsed_payloads omap list_omap].
  destruct (PyStr.is_empty payload); [apply IH|].
  destruct (String.eqb (PyStr.strip payload) "[DONE]"); [apply IH|].
  destruct (json_loads payload) as [data|]; [|apply IH].
  cbn [Protocol.for_events].
  destruct (handle_event model data st w) as [[[out st'] w']|]; [|reflexivity].
  rewrite IH. reflexivity.
Qed.

Lemma for_events_app model evs1 evs2 st w :
  for_events model (evs1 ++ evs2) st w
  = match for_events model evs1 st w with
    | (out, None) => (out, None)
    | (out, Some (st', w')) =>
        let '(outs, fin) := for_events model evs2 st' w' in (out ++ outs, fin)
    end.
Proof.
  revert st w. induction evs1 as [|data rest IH]; intros st w.
  - simpl. destruct (for_events model evs2 st w). reflexivity.
  - cbn [app Protocol.for_events].
    destruct (handle_event model data st w) as [[[out st'] w']|]; [|reflexivity].
    rewrite IH.
    destruct (for_events model rest st' w') as [out1 [[st1 w1]|]]; [|reflexivity].
    destruct (for_events model evs2 st1 w1) as [out2 fin].
    rewrite app_assoc. reflexivity.
Qed.

Lemma for_chunks_events model upstream decoder st w :
  for_chunks model upstream decoder st w
  = for_events model (decoded_events upstream decoder) st w.
Proof.
  revert decoder st w.
  induction upstream as [|chunk rest IH]; intros decoder st w; [reflexivity|].
  cbn [Protocol.for_chunks Protocol.decoded_events].
  destruct (feed decoder chunk) as [payloads decoder'].
  rewrite for_events_app, for_payloads_events.
  destruct (for_events model (parsed_payloads json_loads payloads) st w)
    as [out [[st' w']|]]; [|reflexivity].
  rewrite IH. reflexivity.
Qed.

(** *** One event *)

Lemma content_chunk_done st model delta w :
  done (snd (fst (content_chunk encode_utf8 json_dumps uuid4_hex time_time
                    st model delta w)))
  = done st.
Proof.
  unfold content_chunk.
  destruct (completion_chunk _ _ _ _ _ _ _). reflexivity.
Qed.

(** [message_delta]: the finish chunk, then the terminator. *)
Lemma handle_message_delta model d st w :
  py_eq (get_or "type" d VNone) (VStr "message_delta") = true ->
  exists chunk w',
    handle_event model (VDict d) st w
    = Some ([_encode_sse_json chunk; Some terminator], with_done st, w').
Proof.
  intros H. apply py_eq_VStr in H. unfold Protocol.handle_event.
  cbv zeta. rewrite H. cbn [py_eq num_of String.eqb Ascii.eqb Bool.eqb].
  destruct (completion_chunk _ _ _ _ _ _ _) as [chunk w'].
  exists chunk, w'. reflexivity.
Qed.

(** [message_stop]: the terminator, unless one was emitted. *)
Lemma handle_message_stop model d st w :
  py_eq (get_or "type" d VNone) (VStr "message_stop") = true ->
  handle_event model (VDict d) st w
  = if done st then Some ([], st, w)
    else Some ([Some terminator], with_done st, w).
Proof.
  intros H. apply py_eq_VStr in H. unfold Protocol.handle_event.
  cbv zeta. rewrite H. cbn [py_eq num_of String.eqb Ascii.eqb Bool.eqb].
  destruct (done st); reflexivity.
Qed.



(** An event that is neither [message_delta] nor [message_stop] leaves
    [done] as it is. *)
Lemma handle_other_done model data st w out st' w' :
  terminating data = false ->
  handle_event model data st w = Some (out, st', w') ->
  done st' = done st.
Proof.
  destruct data; try discriminate.
  unfold terminating, event_type. intros Ht.
  apply orb_false_iff in Ht as [Hd Hs].
  unfold Protocol.handle_event. cbv zeta. rewrite Hd, Hs.
  repeat match goal with
         | |- context [content_chunk ?a ?b ?c ?d ?e ?f ?g ?h] =>
             let H := fresh in
             pose proof (content_chunk_done e f g h) as H;
             destruct (content_chunk a b c d e f g h) as [[? ?] ?];
             simpl in H
         | |- context [match ?x with _ => _ end] => destruct x
         end;
    intros Heq; try discriminate; injection Heq as <- <- <-;
    try reflexivity; assumption.
Qed.


(** *** The stream *)




Lemma convert_stream_openai_client
    request_protocol supplier_protocol upstream model w :
  normalize_protocol request_protocol = Ok OPENAI_PROTOCOL ->
  normalize_protocol supplier_protocol = Ok ANTHROPIC_PROTOCOL ->
  convert_stream_for_user request_protocol supplier_protocol upstream model w
  = match for_events model (decoded_events upstream new_decoder)
            initial_state w with
    | (out, None) => deliver out (Crashed "AttributeError")
    | (out, Some (st, _)) =>
        deliver (out ++ (if negb (done st) then [Some terminator] else []))
          Closed
    end.
Proof.
  intros Hreq Hsup. unfold Protocol.convert_stream_for_user.
  rewrite Hreq, Hsup. cbn [String.eqb Ascii.eqb Bool.eqb andb].
  rewrite for_chunks_events. reflexivity.
Qed.


End Streams.



(** Nor does a payload that is JSON but no object pass: the generator
    raises and nothing ends the stream. *)
Lemma number_payload_crashes :
  named_stream ["1"] = ([], Crashed "AttributeError").
Proof. reflexivity. Qed.

(** Nor a text that has no encoding: the generator raises at the chunk
    that holds it, before any terminator. *)
Lemma surrogate_crashes :
  surrogate_stream ["surrogate_delta"; "message_delta"]
  = ([], Crashed "UnicodeEncodeError")
  /\ surrogate_stream ["text_delta"; "surrogate_delta"; "message_delta"]
     = (["data: hi" +:+ LF +:+ LF], Crashed "UnicodeEncodeError").
Proof. split; reflexivity. Qed.

End ProtocolFacts.

(** ** The retry handler *)

Module RetryFacts.
Import PyValue Retry Fixtures Notions.

Lemma responses_snoc_forward l c r :
  responses (l ++ [Forward c r]) = responses l ++ [r].
Proof. unfold responses. rewrite omap_app. reflexivity. Qed.

Lemma responses_snoc_sleep l ms : responses (l ++ [Sleep ms]) = responses l.
Proof. unfold responses. rewrite omap_app. simpl. apply app_nil_r. Qed.

Lemma calls_snoc_forward l c r : calls (l ++ [Forward c r]) = calls l ++ [c].
Proof. unfold calls. rewrite omap_app. reflexivity. Qed.

Lemma calls_snoc_sleep l ms : calls (l ++ [Sleep ms]) = calls l.
Proof. unfold calls. rewrite omap_app. simpl. apply app_nil_r. Qed.

Lemma next_untried_head candidates tried :
  _get_next_untried_provider candidates tried = head (untried candidates tried).
Proof.
  unfold _get_next_untried_provider, untried.
  induction candidates as [|x cs IH]; simpl; auto.
  destruct (bool_decide (provider_id x ∉ tried)); simpl; auto.
Qed.

Lemma next_untried_Some candidates tried c :
  _get_next_untried_provider candidates tried = Some c ->
  In c candidates /\ provider_id c ∉ tried.
Proof.
  unfold _get_next_untried_provider. intros H.
  apply find_some in H as [Hin Hb]. split; auto.
  apply bool_decide_eq_true in Hb. exact Hb.
Qed.

Lemma untried_length_le candidates tried :
  length (untried candidates tried) <= length candidates.
Proof. apply List.filter_length_le. Qed.

Lemma untried_empty candidates : untried candidates ∅ = candidates.
Proof.
  unfold untried. induction candidates as [|x cs IH]; simpl; auto.
  rewrite bool_decide_eq_true_2 by set_solver. f_equal. exact IH.
Qed.

(** Marking an untried candidate as tried removes at least that one. *)
Lemma untried_add_lt candidates tried c :
  In c candidates -> provider_id c ∉ tried ->
  length (untried candidates ({[provider_id c]} ∪ tried))
  < length (untried candidates tried).
Proof.
  unfold untried. induction candidates as [|x cs IH]; simpl; [easy|].
  intros [->|Hin] Hc.
  - rewrite (bool_decide_eq_true_2 _ Hc).
    rewrite bool_decide_eq_false_2 by set_solver. simpl.
    apply Nat.lt_succ_r.
    clear. induction cs as [|y cs IH]; simpl; auto.
    destruct (bool_decide (provider_id y ∉ {[provider_id c]} ∪ tried)) eqn:E.
    + apply bool_decide_eq_true in E.
      rewrite bool_decide_eq_true_2 by set_solver. simpl. lia.
    + destruct (bool_decide (provider_id y ∉ tried)); simpl; lia.
  - specialize (IH Hin Hc).
    destruct (bool_decide (provider_id x ∉ {[provider_id c]} ∪ tried)) eqn:E.
    + apply bool_decide_eq_true in E.
      rewrite bool_decide_eq_true_2 by set_solver. simpl. lia.
    + destruct (bool_decide (provider_id x ∉ tried)); simpl; lia.
Qed.

(** With pairwise distinct ids it removes exactly that one. *)
Lemma untried_add_exact candidates tried c :
  List.NoDup (map provider_id candidates) ->
  In c candidates -> provider_id c ∉ tried ->
  length (untried candidates tried)
  = Datatypes.S (length (untried candidates ({[provider_id c]} ∪ tried))).
Proof.
  unfold untried. induction candidates as [|x cs IH]; simpl; [easy|].
  intros Hnd Hin Hc. inversion Hnd as [|? ? Hx Hnd']; subst.
  destruct Hin as [->|Hin].
  - rewrite (bool_decide_eq_true_2 _ Hc).
    rewrite bool_decide_eq_false_2 by set_solver. simpl. f_equal.
    f_equal. apply List.filter_ext_in. intros y Hy.
    assert (Hne : provider_id y <> provider_id c).
    { intros E. apply Hx. rewrite <- E. apply in_map. exact Hy. }
    apply bool_decide_ext. rewrite not_elem_of_union, not_elem_of_singleton. tauto.
  - assert (Hne : provider_id x <> provider_id c).
    { intros E. apply Hx. rewrite E. apply in_map. exact Hin. }
    specialize (IH Hnd' Hin Hc).
    rewrite (bool_decide_ext (provider_id x ∉ {[provider_id c]} ∪ tried)
               (provider_id x ∉ tried))
      by (rewrite not_elem_of_union, not_elem_of_singleton; tauto).
    destruct (bool_decide (provider_id x ∉ tried)); simpl; lia.
Qed.


Section Handler.
Context {S : Type}.
Context (select : list CandidateProvider -> value -> S -> option CandidateProvider * S).
Context (forward_fn : CandidateProvider -> S -> ProviderResponse * S).
Context (max_retries : nat) (retry_delay_ms : Z).

Local Abbreviation same_provider_loop :=
  (same_provider_loop forward_fn max_retries retry_delay_ms).
Local Abbreviation provider_loop :=
  (provider_loop forward_fn max_retries retry_delay_ms).
Local Abbreviation execute_with_retry :=
  (execute_with_retry select forward_fn max_retries retry_delay_ms).

(** The inner loop ends within [max_retries] rounds. *)
Lemma same_provider_loop_total fuel c same total last w :
  max_retries - same <= fuel ->
  exists out, same_provider_loop fuel c same total last w = Some out.
Proof.
  revert same total last w.
  induction fuel as [|fuel IH]; intros same total last w Hfuel; simpl.
  - destruct (same <? max_retries)%nat eqn:E; [|eauto].
    apply Nat.ltb_lt in E. lia.
  - destruct (same <? max_retries)%nat eqn:E; [|eauto].
    unfold await_forward. destruct (forward_fn c (ext w)) as [r s].
    destruct (is_success r); [eauto|].
    destruct (is_server_error r); [|eauto].
    destruct (same + 1 <? max_retries)%nat; [|eauto].
    apply IH. lia.
Qed.

(** The outer loop ends: every round marks one more candidate as tried. *)
Lemma provider_loop_total fuel candidates c tried total last w :
  length (untried candidates ({[provider_id c]} ∪ tried)) < fuel ->
  exists out, provider_loop fuel candidates c tried total last w = Some out.
Proof.
  revert c tried total last w.
  induction fuel as [|fuel IH]; intros c tried total last w Hfuel; [lia|].
  simpl.
  destruct (same_provider_loop_total max_retries c 0 total last w)
    as [[[[[res|] total'] last'] w'] ->]; [lia|eauto|].
  destruct (_get_next_untried_provider candidates _) as [n|] eqn:En; [|eauto].
  apply next_untried_Some in En as [Hin Hn].
  apply IH. pose proof (untried_add_lt candidates _ n Hin Hn). lia.
Qed.

Lemma execute_with_retry_total candidates requested_model w :
  exists out, execute_with_retry candidates requested_model w = Some out.
Proof.
  unfold Retry.execute_with_retry. destruct candidates as [|c0 cs]; [eauto|].
  destruct (select _ _ _) as [[c|] s]; [|eauto].
  apply provider_loop_total.
  pose proof (untried_length_le (c0 :: cs) ({[provider_id c]} ∪ ∅)). lia.
Qed.


Lemma server_error_flags (r : ProviderResponse) :
  (500 <= status_code r)%Z -> is_success r = false /\ is_server_error r = true.
Proof.
  intros H. unfold is_success, is_server_error. split.
  - apply andb_false_iff. right. apply Z.ltb_ge. lia.
  - apply Z.leb_le. exact H.
Qed.

Section AllServerErrors.
Hypothesis forward_5xx :
  forall c s, (500 <= status_code (fst (forward_fn c s)))%Z.

(** When every response is a server error the inner loop runs its full
    [max_retries] rounds on the provider and then ends. *)
Lemma same_provider_loop_5xx fuel c same total last w :
  same <= max_retries -> max_retries - same <= fuel ->
  last = list.last (responses (log w)) ->
  exists last' w',
    same_provider_loop fuel c same total last w
    = Some (None, total + (max_retries - same), last', w')
    /\ last' = list.last (responses (log w'))
    /\ length (responses (log w'))
       = length (responses (log w)) + (max_retries - same)
    /\ calls (log w') = calls (log w) ++ repeat c (max_retries - same).
Proof.
  revert same total last w.
  induction fuel as [|fuel IH]; intros same total last w Hle Hfuel Hlast; simpl.
  - assert (same = max_retries) as -> by lia.
    rewrite Nat.ltb_irrefl. exists last, w.
    rewrite Nat.sub_diag, !Nat.add_0_r. cbn [repeat]. rewrite app_nil_r. auto.
  - destruct (same <? max_retries)%nat eqn:E.
    + apply Nat.ltb_lt in E.
      unfold await_forward.
      pose proof (forward_5xx c (ext w)) as H5.
      destruct (forward_fn c (ext w)) as [r s]. simpl in H5.
      destruct (server_error_flags r H5) as [-> ->].
      destruct (same + 1 <? max_retries)%nat eqn:E'.
      * apply Nat.ltb_lt in E'.
        edestruct (IH (same + 1) (total + 1) (Some r)
                     (await_sleep retry_delay_ms
                        {| ext := s; log := log w ++ [Forward c r] |}))
          as (last' & w' & Heq & Hl & Hn & Hc); [lia|lia| |].
        { simpl. rewrite responses_snoc_sleep, responses_snoc_forward.
          symmetry. apply last_snoc. }
        exists last', w'. rewrite Heq. split; [f_equal; f_equal; f_equal; f_equal; lia|].
        split; [exact Hl|]. split.
        -- rewrite Hn. simpl.
           rewrite responses_snoc_sleep, responses_snoc_forward, length_app.
           simpl. lia.
        -- rewrite Hc. simpl.
           rewrite calls_snoc_sleep, calls_snoc_forward, <- app_assoc.
           replace (max_retries - same)
             with (Datatypes.S (max_retries - (same + 1))) by lia.
           reflexivity.
      * apply Nat.ltb_ge in E'.
        eexists _, _. split; [f_equal; f_equal; f_equal; f_equal; lia|].
        simpl. rewrite responses_snoc_forward, calls_snoc_forward, length_app,
          last_snoc. simpl.
        split; [reflexivity|]. split; [lia|].
        replace (max_retries - same) with 1 by lia. reflexivity.
    + apply Nat.ltb_ge in E. assert (same = max_retries) as -> by lia.
      exists last, w. rewrite Nat.sub_diag, !Nat.add_0_r. cbn [repeat].
      rewrite app_nil_r. auto.
Qed.

(** With pairwise distinct ids, the untried candidates after the first of
    them is tried are the rest of them. *)
Lemma untried_add_tail candidates tried n rest :
  List.NoDup (map provider_id candidates) ->
  untried candidates tried = n :: rest ->
  untried candidates ({[provider_id n]} ∪ tried) = rest.
Proof.
  unfold untried. revert n rest.
  induction candidates as [|x cs IH]; intros n rest Hnd; simpl; [discriminate|].
  inversion Hnd as [|? ? Hx Hnd']; subst.
  destruct (bool_decide (provider_id x ∉ tried)) eqn:E.
  - intros H. injection H as -> <-.
    rewrite bool_decide_eq_false_2 by set_solver.
    apply List.filter_ext_in. intros y Hy.
    assert (Hne : provider_id y <> provider_id n).
    { intros Heq. apply Hx. rewrite <- Heq. apply in_map. exact Hy. }
    apply bool_decide_ext. rewrite not_elem_of_union, not_elem_of_singleton.
    tauto.
  - intros H. apply bool_decide_eq_false in E.
    rewrite bool_decide_eq_false_2 by set_solver.
    apply (IH _ _ Hnd' H).
Qed.

(** The outer loop then visits every untried candidate. *)
Lemma provider_loop_5xx fuel candidates c tried total last w :
  List.NoDup (map provider_id candidates) ->
  In c candidates -> provider_id c ∉ tried ->
  length (untried candidates tried) <= fuel ->
  last = list.last (responses (log w)) ->
  exists res w',
    provider_loop fuel candidates c tried total last w = Some (res, w')
    /\ success res = false
    /\ retry_count res
       = total + max_retries * length (untried candidates tried)
    /\ length (responses (log w'))
       = length (responses (log w))
         + max_retries * length (untried candidates tried)
    /\ response res
       = match list.last (responses (log w')) with
         | Some r => r
         | None => error_response 503 "All providers failed"
         end
    /\ calls (log w')
       = calls (log w)
         ++ flat_map (fun x => repeat x max_retries)
              (c :: untried candidates ({[provider_id c]} ∪ tried)).
Proof.
  intros Hnd. revert c tried total last w.
  induction fuel as [|fuel IH]; intros c tried total last w Hin Hc Hfuel Hlast.
  - pose proof (untried_add_exact candidates tried c Hnd Hin Hc). lia.
  - simpl.
    destruct (same_provider_loop_5xx max_retries c 0 total last w)
      as (last' & w' & -> & Hl & Hn & Hcalls); [lia|lia|exact Hlast|].
    pose proof (untried_add_exact candidates tried c Hnd Hin Hc) as Hcount.
    rewrite Nat.sub_0_r in Hn, Hcalls.
    destruct (_get_next_untried_provider candidates _) as [n|] eqn:En.
    + pose proof En as Hhead. rewrite next_untried_head in Hhead.
      apply next_untried_Some in En as [Hnin Hn'].
      edestruct (IH n ({[provider_id c]} ∪ tried) (total + (max_retries - 0))
                   last' w')
        as (res & w'' & Heq & Hs & Hr & Hlen & Hresp & Hcalls');
        [exact Hnin|exact Hn'|lia|exact Hl|].
      exists res, w''. rewrite Heq. split; [reflexivity|]. split; [exact Hs|].
      split; [rewrite Hr; nia|]. split; [rewrite Hlen; nia|].
      split; [exact Hresp|].
      rewrite Hcalls', Hcalls, <- app_assoc. f_equal.
      destruct (untried candidates ({[provider_id c]} ∪ tried))
        as [|n' rest] eqn:Eu; [discriminate|].
      injection Hhead as ->.
      rewrite (untried_add_tail candidates _ n rest Hnd Eu). reflexivity.
    + rewrite next_untried_head in En.
      destruct (untried candidates ({[provider_id c]} ∪ tried)) eqn:Eu;
        [|discriminate].
      eexists _, _. split; [reflexivity|]. simpl.
      split; [reflexivity|]. split; [simpl in Hcount; nia|].
      split; [simpl in Hcount; nia|]. split; [rewrite <- Hl; reflexivity|].
      rewrite Hcalls, app_nil_r. reflexivity.
Qed.

End AllServerErrors.


(** The log of the handler replays the forward function: the responses it
    holds are the forward function's, call after call. *)
Lemma replays_snoc_forward s l s1 c :
  replays forward_fn s l s1 ->
  replays forward_fn s (l ++ [Forward c (fst (forward_fn c s1))])
    (snd (forward_fn c s1)).
Proof.
  revert s. induction l as [|[c' r'|ms] l IH]; intros s; cbn [app replays].
  - intros ->. auto.
  - intros [Hr Hl]. split; [exact Hr|]. apply IH. exact Hl.
  - apply IH.
Qed.

Lemma replays_snoc_sleep s l s1 ms :
  replays forward_fn s l s1 -> replays forward_fn s (l ++ [Sleep ms]) s1.
Proof.
  revert s. induction l as [|[c' r'|ms'] l IH]; intros s; cbn [app replays].
  - auto.
  - intros [Hr Hl]. split; [exact Hr|]. apply IH. exact Hl.
  - apply IH.
Qed.

Lemma same_provider_loop_replays fuel c same total last w out s_init :
  same_provider_loop fuel c same total last w = Some out ->
  replays forward_fn s_init (log w) (ext w) ->
  replays forward_fn s_init (log (snd out)) (ext (snd out)).
Proof.
  revert same total last w.
  induction fuel as [|fuel IH]; intros same total last w Hrun Hrep;
    simpl in Hrun.
  - destruct (same <? max_retries)%nat; [discriminate|].
    injection Hrun as <-. exact Hrep.
  - destruct (same <? max_retries)%nat; [|injection Hrun as <-; exact Hrep].
    unfold await_forward in Hrun.
    pose proof (replays_snoc_forward _ _ _ c Hrep) as Hstep.
    destruct (forward_fn c (ext w)) as [r s]. cbn [fst snd] in Hstep.
    destruct (is_success r); [injection Hrun as <-; exact Hstep|].
    destruct (is_server_error r); [|injection Hrun as <-; exact Hstep].
    destruct (same + 1 <? max_retries)%nat;
      [|injection Hrun as <-; exact Hstep].
    eapply IH; [exact Hrun|].
    cbn [await_sleep log ext]. apply replays_snoc_sleep. exact Hstep.
Qed.

Lemma provider_loop_replays fuel candidates c tried total last w res w' s_init :
  provider_loop fuel candidates c tried total last w = Some (res, w') ->
  replays forward_fn s_init (log w) (ext w) ->
  replays forward_fn s_init (log w') (ext w').
Proof.
  revert c tried total last w.
  induction fuel as [|fuel IH]; intros c tried total last w Hrun Hrep;
    [discriminate|].
  simpl in Hrun.
  destruct (same_provider_loop max_retries c 0 total last w)
    as [[[[ores total1] last1] w1]|] eqn:Einner; [|discriminate].
  pose proof (same_provider_loop_replays _ _ _ _ _ _ _ _ Einner Hrep) as Hrep1.
  cbn [snd] in Hrep1.
  destruct ores as [res1|]; [injection Hrun as <- <-; exact Hrep1|].
  destruct (_get_next_untried_provider candidates _) as [n|].
  - eapply IH; eassumption.
  - injection Hrun as <- <-. exact Hrep1.
Qed.

Lemma execute_with_retry_replays candidates requested_model s res w' :
  execute_with_retry candidates requested_model {| ext := s; log := [] |}
  = Some (res, w') ->
  replays forward_fn
    (match candidates with
     | [] => s
     | _ => snd (select candidates requested_model s)
     end) (log w') (ext w').
Proof.
  unfold Retry.execute_with_retry. destruct candidates as [|x cs].
  - intros H. injection H as <- <-. reflexivity.
  - cbn [ext log].
    destruct (select (x :: cs) requested_model s) as [[c|] s0]; cbn [snd].
    + intros H. eapply provider_loop_replays; [exact H|]. reflexivity.
    + intros H. injection H as <- <-. reflexivity.
Qed.

(** C1, as the code has it.  With [max_retries >= 1]: when every call of the
    forward function answers with a server error (status 500 or more), the
    candidate ids are pairwise distinct and the strategy picks a member of
    the candidate list, [execute_with_retry] returns a result with
    [success = false] and [retry_count = max_retries * len(candidates)].
    The forward function was called [max_retries] times on the candidate
    picked and then [max_retries] times on each of the others in list order;
    the responses of the log are those it gave, and the result's response is
    the last of them. *)
Theorem C1_all_server_errors candidates requested_model s c0 s0 :
  1 <= max_retries ->
  candidates <> [] ->
  List.NoDup (map provider_id candidates) ->
  (forall c st, (500 <= status_code (fst (forward_fn c st)))%Z) ->
  select candidates requested_model s = (Some c0, s0) ->
  In c0 candidates ->
  exists res w' r,
    execute_with_retry candidates requested_model {| ext := s; log := [] |}
    = Some (res, w')
    /\ success res = false
    /\ retry_count res = max_retries * length candidates
    /\ calls (log w')
       = flat_map (fun c => repeat c max_retries)
           (c0 :: untried candidates {[provider_id c0]})
    /\ replays forward_fn s0 (log w') (ext w')
    /\ list.last (responses (log w')) = Some r
    /\ response res = r.
Proof.
  intros Hmax Hne Hnd H5 Hsel Hin.
  unfold Retry.execute_with_retry.
  destruct candidates as [|x cs]; [congruence|].
  cbn [ext log]. rewrite Hsel.
  edestruct (provider_loop_5xx H5 (Datatypes.S (length (x :: cs))) (x :: cs)
               c0 ∅ 0 None {| ext := s0; log := [] |})
    as (res & w' & Heq & Hs & Hr & Hlen & Hresp & Hcalls);
    [exact Hnd|exact Hin|set_solver| |reflexivity|].
  { pose proof (untried_length_le (x :: cs) ∅). lia. }
  rewrite untried_empty in Hr, Hlen. rewrite union_empty_r_L in Hcalls.
  cbn [log calls omap app] in Hcalls.
  assert (Hsome : exists r, list.last (responses (log w')) = Some r).
  { destruct (responses (log w')) as [|r0 rs] eqn:Er.
    - cbn [responses length] in Hlen. cbn [length] in Hlen. nia.
    - destruct (list.last (r0 :: rs)) as [r|] eqn:El; [eauto|].
      apply last_None in El. discriminate. }
  destruct Hsome as [r Hlast].
  exists res, w', r. rewrite Hlast in Hresp.
  split; [exact Heq|]. split; [exact Hs|]. split; [exact Hr|].
  split; [exact Hcalls|]. split; [|split; [exact Hlast|exact Hresp]].
  eapply provider_loop_replays; [exact Heq|]. reflexivity.
Qed.

(** C2, as the code has it.  With [max_retries >= 1]: when the first selected
    candidate answers with a failure below 500, it is called exactly once
    and no delay follows; the next untried candidate, which exists among two
    or more candidates of distinct ids, is called next, and when it answers
    with a success the result is [success = true], [final_provider] that
    candidate and [retry_count = 1]. *)
Theorem C2_client_error_switches_provider
    candidates requested_model s c0 s0 r1 s1 :
  2 <= length candidates ->
  List.NoDup (map provider_id candidates) ->
  1 <= max_retries ->
  select candidates requested_model s = (Some c0, s0) ->
  In c0 candidates ->
  forward_fn c0 s0 = (r1, s1) ->
  (status_code r1 < 500)%Z -> is_success r1 = false ->
  exists c1,
    _get_next_untried_provider candidates {[provider_id c0]} = Some c1
    /\ provider_id c1 <> provider_id c0
    /\ forall r2 s2,
         forward_fn c1 s1 = (r2, s2) -> is_success r2 = true ->
         execute_with_retry candidates requested_model
           {| ext := s; log := [] |}
         = Some ({| response := r2; retry_count := 1;
                    final_provider := Some c1; success := true |},
                 {| ext := s2; log := [Forward c0 r1; Forward c1 r2] |}).
Proof.
  intros Hlen Hnd Hmax Hsel Hin Hf1 Hlt Hs1.
  pose proof (untried_add_exact candidates ∅ c0 Hnd Hin) as Hcount.
  rewrite untried_empty, union_empty_r_L in Hcount.
  specialize (Hcount ltac:(set_solver)).
  destruct (_get_next_untried_provider candidates {[provider_id c0]})
    as [c1|] eqn:En.
  2:{ rewrite next_untried_head in En.
      destruct (untried candidates {[provider_id c0]}); [simpl in *; lia|discriminate]. }
  exists c1. split; [reflexivity|].
  pose proof (next_untried_Some _ _ _ En) as [_ Hc1].
  split; [set_solver|].
  intros r2 s2 Hf2 Hs2.
  assert (Hse1 : is_server_error r1 = false).
  { unfold is_server_error. apply Z.leb_gt. exact Hlt. }
  unfold Retry.execute_with_retry.
  destruct candidates as [|x cs]; [simpl in Hlen; lia|].
  cbn [ext log]. rewrite Hsel.
  destruct max_retries as [|m] eqn:Em; [lia|].
  cbn [Retry.provider_loop Retry.same_provider_loop].
  change (0 <? Datatypes.S m)%nat with true. cbn iota.
  unfold await_forward at 1. cbn [ext log]. rewrite Hf1, Hs1, Hse1.
  rewrite union_empty_r_L, En.
  destruct (length (x :: cs)) as [|n] eqn:El; [simpl in El; lia|].
  cbn [Retry.provider_loop Retry.same_provider_loop].
  change (0 <? Datatypes.S m)%nat with true. cbn iota.
  unfold await_forward. cbn [ext log]. rewrite Hf2, Hs2. reflexivity.
Qed.

End Handler.

Lemma two_providers_nodup :
  List.NoDup (map provider_id [provider1; provider2]).
Proof.
  simpl. constructor; [|constructor; [|constructor]]; simpl; intuition congruence.
Defined.

Lemma C1_witness :
  exists res w' r,
    execute_with_retry pick_first always_500 3 10 [provider1; provider2]
      (VStr "test") {| ext := tt; log := [] |} = Some (res, w')
    /\ success res = false
    /\ retry_count res = 3 * 2
    /\ calls (log w')
       = flat_map (fun c => repeat c 3)
           (provider1 :: untried [provider1; provider2]
                           {[provider_id provider1]})
    /\ replays always_500 tt (log w') (ext w')
    /\ list.last (responses (log w')) = Some r
    /\ response res = r.
Proof.
  apply (C1_all_server_errors pick_first always_500 3 10
           [provider1; provider2] (VStr "test") tt provider1 tt).
  - lia.
  - discriminate.
  - exact two_providers_nodup.
  - intros c st. simpl. lia.
  - reflexivity.
  - left. reflexivity.
Defined.

Lemma C2_witness :
  exists c1,
    _get_next_untried_provider [provider1; provider2] {[provider_id provider1]}
    = Some c1
    /\ provider_id c1 <> provider_id provider1
    /\ forall r2 s2,
         bad_request_on_1 c1 tt = (r2, s2) -> is_success r2 = true ->
         execute_with_retry pick_first bad_request_on_1 3 10
           [provider1; provider2] (VStr "test") {| ext := tt; log := [] |}
         = Some ({| response := r2; retry_count := 1;
                    final_provider := Some c1; success := true |},
                 {| ext := s2;
                    log := [Forward provider1 (error_response 400 "Bad request");
                            Forward c1 r2] |}).
Proof.
  apply (C2_client_error_switches_provider pick_first bad_request_on_1 3 10
           [provider1; provider2] (VStr "test") tt provider1 tt
           (error_response 400 "Bad request") tt).
  - simpl. lia.
  - exact two_providers_nodup.
  - lia.
  - reflexivity.
  - left. reflexivity.
  - reflexivity.
  - simpl. lia.
  - reflexivity.
Defined.

(** C2 as stated, for every [max_retries], fails at [max_retries = 0]: the
    inner loop is never entered and no provider is called. *)
Lemma C2_counterexample :
  ~ (forall (max_retries : nat) (candidates : list CandidateProvider)
            (c0 : CandidateProvider) (r1 : ProviderResponse),
        2 <= length candidates ->
        List.NoDup (map provider_id candidates) ->
        pick_first candidates (VStr "test") tt = (Some c0, tt) ->
        In c0 candidates ->
        bad_request_on_1 c0 tt = (r1, tt) ->
        (status_code r1 < 500)%Z -> is_success r1 = false ->
        exists c1,
          _get_next_untried_provider candidates {[provider_id c0]} = Some c1
          /\ forall r2 s2,
               bad_request_on_1 c1 tt = (r2, s2) -> is_success r2 = true ->
               execute_with_retry pick_first bad_request_on_1 max_retries 10
                 candidates (VStr "test") {| ext := tt; log := [] |}
               = Some ({| response := r2; retry_count := 1;
                          final_provider := Some c1; success := true |},
                       {| ext := s2; log := [Forward c0 r1; Forward c1 r2] |})).
Proof.
  intros H.
  destruct (H 0 [provider1; provider2] provider1
              (error_response 400 "Bad request"))
    as (c1 & Hc1 & Hrun).
  - simpl. lia.
  - exact two_providers_nodup.
  - reflexivity.
  - left. reflexivity.
  - reflexivity.
  - simpl. lia.
  - reflexivity.
  - vm_compute in Hc1. injection Hc1 as <-.
    specialize (Hrun _ _ eq_refl eq_refl). vm_compute in Hrun. discriminate.
Qed.

(** C1 as stated, for every [max_retries], fails at [max_retries = 0]: no
    provider is called, so that the response returned, the synthesized 503,
    is no response of the forward function. *)
Lemma C1_counterexample :
  ~ (forall (max_retries : nat) (candidates : list CandidateProvider)
            (c0 : CandidateProvider),
        candidates <> [] ->
        List.NoDup (map provider_id candidates) ->
        (forall c st, (500 <= status_code (fst (always_500 c st)))%Z) ->
        pick_first candidates (VStr "test") tt = (Some c0, tt) ->
        In c0 candidates ->
        exists res w' r,
          execute_with_retry pick_first always_500 max_retries 10 candidates
            (VStr "test") {| ext := tt; log := [] |} = Some (res, w')
          /\ success res = false
          /\ retry_count res = max_retries * length candidates
          /\ list.last (responses (log w')) = Some r
          /\ response res = r).
Proof.
  intros H.
  destruct (H 0 [provider1; provider2] provider1)
    as (res & w' & r & Hrun & _ & _ & Hlast & _).
  - discriminate.
  - exact two_providers_nodup.
  - intros c st. simpl. lia.
  - reflexivity.
  - left. reflexivity.
  - vm_compute in Hrun. injection Hrun as <- <-. discriminate.
Qed.

End RetryFacts.

(** ** The sanitizer: every value, and the header map *)

Module SanitizerMore.
Import PyValue Sanitizer SanitizerHeaders SanitizerFacts.

Lemma lower_cons c s :
  PyStr.lower (String c s) = String (PyStr.lower_char c) (PyStr.lower s).
Proof. reflexivity. Qed.

(** A string whose fifth character is an asterisk has no bearer prefix, in
    either letter case. *)
Lemma masked_no_bearer_lower c1 c2 c3 c4 rest :
  PyStr.startswith "bearer "
    (PyStr.lower (String c1 (String c2 (String c3 (String c4 (String "*" rest))))))
  = false.
Proof.
  rewrite !lower_cons.
  generalize (PyStr.lower_char c1) (PyStr.lower_char c2)
             (PyStr.lower_char c3) (PyStr.lower_char c4).
  intros x1 x2 x3 x4. cbn [PyStr.startswith].
  destruct (Ascii.eqb "b" x1); [|reflexivity].
  destruct (Ascii.eqb "e" x2); [|reflexivity].
  destruct (Ascii.eqb "a" x3); [|reflexivity].
  destruct (Ascii.eqb "r" x4); reflexivity.
Qed.

Lemma masked_no_bearer c1 c2 c3 c4 rest :
  PyStr.startswith "Bearer "
    (String c1 (String c2 (String c3 (String c4 (String "*" rest)))))
  = false.
Proof.
  cbn [PyStr.startswith].
  destruct (Ascii.eqb "B" c1); [|reflexivity].
  destruct (Ascii.eqb "e" c2); [|reflexivity].
  destruct (Ascii.eqb "a" c3); [|reflexivity].
  destruct (Ascii.eqb "r" c4); reflexivity.
Qed.

Lemma sanitize_masked value :
  value <> "" -> masked (sanitize_authorization value).
Proof.
  intros Hne. unfold sanitize_authorization.
  destruct value as [|c v]; [congruence|]. cbn [PyStr.is_empty].
  destruct (PyStr.startswith "bearer " (PyStr.lower (String c v))).
  - destruct (String.length (PyStr.drop 7 (String c v)) <=? 8)%nat eqn:E.
    + constructor.
    + apply Nat.leb_gt in E. constructor.
      * rewrite PyStrFacts.length_take. lia.
      * apply PyStrFacts.length_last. lia.
  - destruct (String.length (String c v) <=? 8)%nat eqn:E.
    + constructor.
    + apply Nat.leb_gt in E.
      change ("" +:+ PyStr.take 4 (String c v) +:+ "***...***"
              +:+ PyStr.last 2 (String c v))
        with (PyStr.take 4 (String c v) +:+ "***...***"
              +:+ PyStr.last 2 (String c v)).
      constructor.
      * rewrite PyStrFacts.length_take. lia.
      * apply PyStrFacts.length_last. lia.
Qed.

Lemma masked_fixed s : masked s -> sanitize_authorization s = s.
Proof.
  intros [|a b Ha Hb| |a b Ha Hb]; try reflexivity.
  - destruct (PyStrFacts.length_4_inv a Ha) as (c1 & c2 & c3 & c4 & ->).
    destruct (PyStrFacts.length_2_inv b Hb) as (d1 & d2 & ->).
    unfold sanitize_authorization.
    change (String c1 (String c2 (String c3 (String c4 ""))) +:+ "***...***"
            +:+ String d1 (String d2 ""))
      with (String c1 (String c2 (String c3 (String c4
              (String "*" ("**...***" +:+ String d1 (String d2 ""))))))).
    cbn [PyStr.is_empty]. rewrite masked_no_bearer_lower. reflexivity.
  - destruct (PyStrFacts.length_4_inv a Ha) as (c1 & c2 & c3 & c4 & ->).
    destruct (PyStrFacts.length_2_inv b Hb) as (d1 & d2 & ->).
    reflexivity.
Qed.

Lemma masked_matches s :
  masked s -> matches_mask s = true /\ String.length s <= 22.
Proof.
  intros [|a b Ha Hb| |a b Ha Hb].
  - split; [reflexivity|simpl; lia].
  - destruct (PyStrFacts.length_4_inv a Ha) as (c1 & c2 & c3 & c4 & ->).
    destruct (PyStrFacts.length_2_inv b Hb) as (d1 & d2 & ->).
    split; [|simpl; lia].
    unfold matches_mask.
    change (String c1 (String c2 (String c3 (String c4 ""))) +:+ "***...***"
            +:+ String d1 (String d2 ""))
      with (String c1 (String c2 (String c3 (String c4
              (String "*" ("**...***" +:+ String d1 (String d2 ""))))))).
    rewrite masked_no_bearer. cbv zeta. apply orb_true_iff. right. reflexivity.
  - split; [reflexivity|simpl; lia].
  - split; [apply masked_long_matches; assumption|].
    destruct (PyStrFacts.length_4_inv a Ha) as (c1 & c2 & c3 & c4 & ->).
    destruct (PyStrFacts.length_2_inv b Hb) as (d1 & d2 & ->).
    simpl. lia.
Qed.

(** X4. Sanitizing twice is sanitizing once: a value that is already
    masked, with or without the [Bearer ] prefix, comes back as it is. *)
Theorem X4_sanitize_authorization_idempotent (value : string) :
  sanitize_authorization (sanitize_authorization value)
  = sanitize_authorization value.
Proof.
  destruct value as [|c v]; [reflexivity|].
  apply masked_fixed. apply sanitize_masked. discriminate.
Qed.

(** X5. Whatever the non-empty value, with a bearer prefix or without, the
    result matches the mask pattern and has at most 22 characters. *)
Theorem X5_every_result_is_masked (value : string) :
  value <> "" ->
  matches_mask (sanitize_authorization value) = true
  /\ String.length (sanitize_authorization value) <= 22.
Proof. intros Hne. apply masked_matches. apply sanitize_masked. exact Hne. Qed.

Lemma X5_witness :
  matches_mask (sanitize_authorization "lgw-abcdefghijklmnopqrstuvwxyz") = true
  /\ String.length (sanitize_authorization "lgw-abcdefghijklmnopqrstuvwxyz")
     <= 22.
Proof.
  apply (X5_every_result_is_masked "lgw-abcdefghijklmnopqrstuvwxyz").
  discriminate.
Defined.

Lemma dict_get_sanitize_headers key headers :
  dict_get key (sanitize_headers headers)
  = sanitized_value key <$> dict_get key headers.
Proof.
  induction headers as [|[k v] rest IH]; [reflexivity|].
  cbn [sanitize_headers map] in *. cbn [fst snd].
  assert (Hk : fst (match v with
                    | VStr s =>
                        if is_sensitive k
                        then (k, VStr (sanitize_authorization s))
                        else (k, v)
                    | _ => (k, v)
                    end) = k).
  { destruct v; try reflexivity. destruct (is_sensitive k); reflexivity. }
  destruct (match v with
            | VStr s => if is_sensitive k
                        then (k, VStr (sanitize_authorization s)) else (k, v)
            | _ => (k, v)
            end) as [k' v'] eqn:E.
  cbn [fst] in Hk. subst k'. cbn [dict_get].
  destruct (String.eqb k key) eqn:Ek; [|exact IH].
  apply String.eqb_eq in Ek. subst key. cbn [fmap option_fmap option_map].
  f_equal. unfold sanitized_value.
  destruct v; try (injection E as <-; reflexivity).
  destruct (is_sensitive k); injection E as <-; reflexivity.
Qed.

(** X6. [sanitize_headers] keeps the keys and their order; looking a key
    up in the result gives the value of the original, masked by
    [sanitize_authorization] when the key is [authorization], [x-api-key]
    or [api-key] in any letter case and the value is a string, and untouched
    otherwise. *)
Theorem X6_sanitize_headers_by_key (headers : dict) :
  map fst (sanitize_headers headers) = map fst headers
  /\ forall key,
       dict_get key (sanitize_headers headers)
       = match dict_get key headers with
         | Some (VStr s) =>
             if is_sensitive key then Some (VStr (sanitize_authorization s))
             else Some (VStr s)
         | other => other
         end.
Proof.
  split.
  - unfold sanitize_headers. rewrite map_map. apply map_ext.
    intros [k v]. cbn [fst snd]. destruct v; try reflexivity.
    destruct (is_sensitive k); reflexivity.
  - intros key. rewrite dict_get_sanitize_headers.
    destruct (dict_get key headers) as [v|]; [|reflexivity].
    cbn [fmap option_fmap option_map]. unfold sanitized_value.
    destruct v; try reflexivity.
    destruct (is_sensitive key); reflexivity.
Qed.

End SanitizerMore.

(** ** The rule evaluator: operators, rulesets and paths *)

Module RulesMore.
Import PyValue Rules Fixtures Notions.

Lemma lower_char_idempotent c :
  PyStr.lower_char (PyStr.lower_char c) = PyStr.lower_char c.
Proof. destruct c as [[] [] [] [] [] [] [] []]; reflexivity. Qed.

Lemma lower_idempotent s : PyStr.lower (PyStr.lower s) = PyStr.lower s.
Proof.
  induction s as [|c s IH]; [reflexivity|].
  simpl. rewrite lower_char_idempotent, IH. reflexivity.
Qed.

(** *** Strings taken apart *)

Lemma append_cons x a b : String x a +:+ b = String x (a +:+ b).
Proof. reflexivity. Qed.

Lemma append_nil b : "" +:+ b = b.
Proof. reflexivity. Qed.

Lemma contains_char_app c a b :
  PyStr.contains_char c (a +:+ b)
  = PyStr.contains_char c a || PyStr.contains_char c b.
Proof.
  induction a as [|x a IH]; [reflexivity|].
  rewrite ?append_cons, ?append_nil. cbn [PyStr.contains_char]. rewrite IH. apply orb_assoc.
Qed.

Lemma split_char_none sep s :
  PyStr.contains_char sep s = false -> PyStr.split_char sep s = [s].
Proof.
  induction s as [|x s IH]; [reflexivity|].
  cbn [PyStr.contains_char PyStr.split_char]. intros H.
  apply orb_false_iff in H as [Hx Hs]. rewrite Hx, (IH Hs). reflexivity.
Qed.

Lemma split_char_app sep a b :
  PyStr.contains_char sep a = false ->
  PyStr.split_char sep (a +:+ String sep b) = a :: PyStr.split_char sep b.
Proof.
  induction a as [|x a IH].
  - intros _. rewrite ?append_cons, ?append_nil. cbn [PyStr.split_char].
    rewrite Ascii.eqb_refl. reflexivity.
  - cbn [PyStr.contains_char]. intros H.
    apply orb_false_iff in H as [Hx Ha].
    rewrite ?append_cons, ?append_nil. cbn [PyStr.split_char]. rewrite Hx, (IH Ha). reflexivity.
Qed.

Lemma index_char_app c a b :
  PyStr.contains_char c a = false ->
  PyStr.index_char c (a +:+ String c b) = String.length a.
Proof.
  induction a as [|x a IH].
  - intros _. rewrite ?append_cons, ?append_nil. cbn [PyStr.index_char].
    rewrite Ascii.eqb_refl. reflexivity.
  - cbn [PyStr.contains_char]. intros H.
    apply orb_false_iff in H as [Hx Ha].
    rewrite ?append_cons, ?append_nil. cbn [PyStr.index_char String.length].
    rewrite Hx, (IH Ha). reflexivity.
Qed.

Lemma take_app a b : PyStr.take (String.length a) (a +:+ b) = a.
Proof.
  induction a as [|x a IH]; [destruct b; reflexivity|].
  rewrite ?append_cons, ?append_nil. cbn [String.length PyStr.take]. rewrite IH. reflexivity.
Qed.

Lemma drop_app a b : PyStr.drop (String.length a) (a +:+ b) = b.
Proof.
  induction a as [|x a IH]; [destruct b; reflexivity|].
  rewrite ?append_cons, ?append_nil. cbn [String.length PyStr.drop]. exact IH.
Qed.

Lemma length_app a b :
  String.length (a +:+ b) = String.length a + String.length b.
Proof.
  induction a as [|x a IH]; [reflexivity|].
  rewrite ?append_cons, ?append_nil. cbn [String.length]. rewrite IH. reflexivity.
Qed.

Lemma app_assoc a b c : (a +:+ b) +:+ c = a +:+ (b +:+ c).
Proof.
  induction a as [|x a IH]; [reflexivity|].
  rewrite ?append_cons, ?append_nil. rewrite IH. reflexivity.
Qed.

Lemma endswith_bracket s : PyStr.endswith "]" (s +:+ "]") = true.
Proof.
  unfold PyStr.endswith. rewrite length_app. cbn [String.length].
  replace (String.length s + 1 - 1) with (String.length s) by lia.
  rewrite drop_app. apply andb_true_iff. split; [|reflexivity].
  apply Nat.leb_le. lia.
Qed.

Lemma dict_get_headers key (hs : list (string * string)) :
  dict_get key (map (fun kv => (fst kv, VStr (snd kv))) hs)
  = VStr <$> dict_get key hs.
Proof.
  induction hs as [|[k v] hs IH]; [reflexivity|].
  cbn [map fst snd dict_get]. destruct (String.eqb k key); [reflexivity|exact IH].
Qed.

Lemma plain_key_inv key :
  plain_key key = true ->
  PyStr.contains_char "." key = false /\ PyStr.contains_char "[" key = false.
Proof.
  unfold plain_key. intros H. apply andb_true_iff in H as [H1 H2].
  apply negb_true_iff in H1, H2. auto.
Qed.

(** X9. A field of the body, or a header, under a plain name (no dot, no
    bracket): [get_value] returns the value stored under that name, and
    [None] when there is none; header names are matched as they are
    written. *)
Theorem X9_get_value_top_level (ctx : RuleContext) (key : string) :
  plain_key key = true ->
  get_value ctx ("body." +:+ key)
  = match dict_get key (request_body ctx) with Some v => v | None => VNone end
  /\ get_value ctx ("headers." +:+ key)
     = match dict_get key (headers ctx) with
       | Some v => VStr v
       | None => VNone
       end.
Proof.
  intros Hk. apply plain_key_inv in Hk as [Hdot Hbr].
  assert (Hnested : forall obj,
             _get_nested_value obj [key]
             = match obj with
               | VDict d =>
                   match dict_get key d with Some v => v | None => VNone end
               | _ => VNone
               end).
  { intros obj. cbn [_get_nested_value]. rewrite Hbr. cbn [andb].
    destruct obj; try reflexivity. }
  split.
  - unfold get_value.
    change ("body." +:+ key) with ("body" +:+ String "." key).
    rewrite split_char_app by reflexivity.
    rewrite (split_char_none _ _ Hdot). cbv iota beta zeta.
    change (PyStr.is_empty ("body" +:+ String "." key)) with false.
    cbv iota. change (PyStr.lower "body") with "body".
    change (String.eqb "body" "model") with false.
    change (String.eqb "body" "headers") with false.
    change (String.eqb "body" "body") with true. cbv iota.
    exact (Hnested (VDict (request_body ctx))).
  - unfold get_value.
    change ("headers." +:+ key) with ("headers" +:+ String "." key).
    rewrite split_char_app by reflexivity.
    rewrite (split_char_none _ _ Hdot). cbv iota beta zeta.
    change (PyStr.is_empty ("headers" +:+ String "." key)) with false.
    cbv iota. change (PyStr.lower "headers") with "headers".
    change (String.eqb "headers" "model") with false.
    change (String.eqb "headers" "headers") with true. cbv iota.
    rewrite Hnested. unfold headers_value. rewrite dict_get_headers.
    destruct (dict_get key (headers ctx)); reflexivity.
Qed.

(** X10. An indexed field of the body, [body.key[index]], where [key] is a
    plain name that holds a list and the text between the brackets reads as
    the integer [i]: the result is the element at [i] when
    [0 <= i < len(list)] and [None] otherwise; a negative index does not
    count from the end. *)
Theorem X10_get_value_index_bounds
    (ctx : RuleContext) (key index_str : string) (i : Z) (arr : list value) :
  plain_key key = true ->
  PyStr.contains_char "." index_str = false ->
  PyStr.int index_str = Some i ->
  dict_get key (request_body ctx) = Some (VList arr) ->
  get_value ctx ("body." +:+ key +:+ "[" +:+ index_str +:+ "]")
  = if (0 <=? i)%Z && (i <? Z.of_nat (length arr))%Z
    then match nth_error arr (Z.to_nat i) with
         | Some item => item
         | None => VNone
         end
    else VNone.
Proof.
  intros Hk Hdot Hint Hget. apply plain_key_inv in Hk as [Hkdot Hbr].
  set (segment := key +:+ "[" +:+ index_str +:+ "]").
  assert (Hseg_dot : PyStr.contains_char "." segment = false).
  { unfold segment. rewrite !contains_char_app, Hkdot, Hdot. reflexivity. }
  assert (Hseg_br : PyStr.contains_char "[" segment = true).
  { unfold segment. rewrite !contains_char_app. cbn [PyStr.contains_char].
    rewrite Ascii.eqb_refl. cbn [orb]. apply orb_true_r. }
  assert (Hend : PyStr.endswith "]" segment = true).
  { unfold segment. rewrite <- !app_assoc. apply endswith_bracket. }
  assert (Hidx : PyStr.index_char "[" segment = String.length key).
  { unfold segment.
    change (key +:+ "[" +:+ index_str +:+ "]")
      with (key +:+ String "[" (index_str +:+ "]")).
    apply index_char_app. exact Hbr. }
  assert (Hkey : PyStr.take (String.length key) segment = key).
  { apply take_app. }
  assert (Hslice : PyStr.slice (String.length key + 1)
                     (String.length segment - 1) segment = index_str).
  { unfold PyStr.slice, segment.
    replace (String.length (key +:+ "[" +:+ index_str +:+ "]") - 1)
      with (String.length ((key +:+ "[") +:+ index_str)).
    2:{ rewrite !length_app. cbn [String.length]. lia. }
    rewrite <- (app_assoc key "[" (index_str +:+ "]")).
    rewrite <- (app_assoc (key +:+ "[") index_str "]").
    rewrite take_app.
    replace (String.length key + 1) with (String.length (key +:+ "["))
      by (rewrite length_app; reflexivity).
    apply drop_app. }
  unfold get_value.
  change ("body." +:+ segment) with ("body" +:+ String "." segment).
  rewrite split_char_app by reflexivity.
  rewrite (split_char_none _ _ Hseg_dot).
  change (PyStr.is_empty ("body" +:+ String "." segment)) with false.
  cbv iota beta zeta. change (PyStr.lower "body") with "body".
  change (String.eqb "body" "model") with false.
  change (String.eqb "body" "headers") with false.
  change (String.eqb "body" "body") with true. cbv iota.
  cbn [_get_nested_value]. rewrite Hseg_br, Hend. cbn [andb].
  rewrite Hidx, Hkey, Hslice, Hint, Hget.
  destruct ((0 <=? i)%Z && (i <? Z.of_nat (length arr))%Z); [|reflexivity].
  destruct (nth_error arr (Z.to_nat i)); reflexivity.
Qed.

Section Evaluator.
Context (B : Builtins).

(** X7. The operator is read in lower case, so [GT] is [gt]; an operator
    that is none of the twelve makes the rule false on every context. *)
Theorem X7_operator_case_and_unknown (rule : Rule) (context : RuleContext) :
  evaluate_rule B rule context
  = evaluate_rule B {| field := field rule;
                       operator := PyStr.lower (operator rule);
                       value_ := value_ rule |} context
  /\ (existsb (String.eqb (PyStr.lower (operator rule))) known_operators
      = false ->
      evaluate_rule B rule context = false).
Proof.
  split.
  - unfold evaluate_rule. cbn [field operator value_].
    rewrite lower_idempotent. reflexivity.
  - unfold evaluate_rule, known_operators. cbn [existsb]. intros H.
    repeat (apply orb_false_iff in H as [?H H]).
    cbv zeta.
    repeat match goal with
           | Heq : String.eqb ?a ?b = false |- _ => rewrite Heq; clear Heq
           end.
    reflexivity.
Qed.

(** X8. On every rule and context, [ne] is the negation of [eq] and
    [not_in] the negation of [in].  With an expected value that is no list,
    [in] is false and [not_in] is true, whatever the field holds; and on a
    field that is absent, [ne] holds for every expected value but null. *)
Theorem X8_ne_and_not_in_negate (f : string) (expected : value)
    (context : RuleContext) :
  evaluate_rule B {| field := f; operator := "ne"; value_ := expected |} context
  = negb (evaluate_rule B {| field := f; operator := "eq";
                             value_ := expected |} context)
  /\ evaluate_rule B {| field := f; operator := "not_in";
                        value_ := expected |} context
     = negb (evaluate_rule B {| field := f; operator := "in";
                                value_ := expected |} context)
  /\ ((forall l, expected <> VList l) ->
      evaluate_rule B {| field := f; operator := "in"; value_ := expected |}
        context = false
      /\ evaluate_rule B {| field := f; operator := "not_in";
                            value_ := expected |} context = true)
  /\ (get_value context f = VNone -> expected <> VNone ->
      evaluate_rule B {| field := f; operator := "ne"; value_ := expected |}
        context = true).
Proof.
  assert (Hin : forall op,
            op = "in" \/ op = "not_in" \/ op = "ne" ->
            evaluate_rule B {| field := f; operator := op;
                               value_ := expected |} context
            = if String.eqb op "in"
              then _evaluate_in (get_value context f) expected
              else if String.eqb op "not_in"
              then _evaluate_not_in (get_value context f) expected
              else _evaluate_ne (get_value context f) expected).
  { intros op [-> | [-> | ->]]; reflexivity. }
  split; [reflexivity|].
  rewrite !Hin by auto. cbn [String.eqb Ascii.eqb Bool.eqb].
  unfold _evaluate_in, _evaluate_not_in, _evaluate_ne.
  split; [destruct expected; reflexivity|]. split.
  - intros Hl. destruct expected; try (split; reflexivity).
    exfalso. apply (Hl l). reflexivity.
  - intros -> Hne. destruct expected; try reflexivity.
    exfalso. apply Hne. reflexivity.
Qed.

(** X11. A ruleset with rules matches under [logic = "OR"] when some rule
    matches, and under every other [logic], [AND] and a lower-case [or]
    among them, when all rules match. *)
Theorem X11_ruleset_logic (rs : RuleSet) (context : RuleContext) :
  rules rs <> [] ->
  (logic rs = "OR" ->
   (evaluate_ruleset B (Some rs) context = true
    <-> exists rule, In rule (rules rs) /\ evaluate_rule B rule context = true))
  /\ (logic rs <> "OR" ->
      (evaluate_ruleset B (Some rs) context = true
       <-> forall rule, In rule (rules rs) ->
                        evaluate_rule B rule context = true)).
Proof.
  intros Hne. unfold evaluate_ruleset, is_empty.
  destruct (rules rs) as [|r0 rest] eqn:Er; [congruence|]. clear Hne.
  split.
  - intros ->. cbn [String.eqb Ascii.eqb Bool.eqb].
    rewrite existsb_exists. split.
    + intros (b & Hin & Hb). apply in_map_iff in Hin as (rule & <- & Hin).
      exists rule. auto.
    + intros (rule & Hin & Hb). exists true. split; [|reflexivity].
      apply in_map_iff. exists rule. auto.
  - intros Hl. apply String.eqb_neq in Hl. rewrite Hl.
    rewrite forallb_forall. split.
    + intros H rule Hin. apply H. apply in_map_iff. exists rule. auto.
    + intros H b Hin. apply in_map_iff in Hin as (rule & <- & Hin). auto.
Qed.

End Evaluator.

Lemma X9_witness :
  get_value test_context "body.max_tokens" = VInt 1000
  /\ get_value test_context "headers.x-priority" = VStr "high".
Proof.
  split.
  - exact (proj1 (X9_get_value_top_level test_context "max_tokens" eq_refl)).
  - exact (proj2 (X9_get_value_top_level test_context "x-priority" eq_refl)).
Defined.

Lemma X10_witness :
  get_value test_context "body.messages[-1]" = VNone.
Proof.
  exact (X10_get_value_index_bounds test_context "messages" "-1" (-1)
           _ eq_refl eq_refl eq_refl eq_refl).
Defined.

Lemma X7_witness :
  evaluate_rule no_builtins (rule "model" "matches" (VStr "gpt-4")) test_context
  = false.
Proof.
  exact (proj2 (X7_operator_case_and_unknown no_builtins
                  (rule "model" "matches" (VStr "gpt-4")) test_context)
           eq_refl).
Defined.

Lemma X11_witness :
  evaluate_ruleset no_builtins
    (Some {| rules := [rule "model" "eq" (VStr "gpt-3.5");
                       rule "headers.x-priority" "eq" (VStr "high")];
             logic := "OR" |}) test_context = true.
Proof.
  apply (proj1 (X11_ruleset_logic no_builtins
                  {| rules := [rule "model" "eq" (VStr "gpt-3.5");
                               rule "headers.x-priority" "eq" (VStr "high")];
                     logic := "OR" |} test_context ltac:(discriminate))
           eq_refl).
  exists (rule "headers.x-priority" "eq" (VStr "high")).
  split; [right; left; reflexivity|reflexivity].
Defined.

End RulesMore.

(** ** Protocol conversion: the other pairs, and every stream *)

Module ProtocolMore.
Import PyValue Errors Protocol Fixtures ProtocolFacts.


Lemma normalize_protocol_Ok protocol q :
  normalize_protocol protocol = Ok q ->
  q = OPENAI_PROTOCOL \/ q = ANTHROPIC_PROTOCOL.
Proof.
  unfold normalize_protocol. cbv zeta.
  set (p := PyStr.strip _).
  destruct (String.eqb p OPENAI_PROTOCOL) eqn:E1.
  - apply String.eqb_eq in E1. intros H. injection H as <-. auto.
  - destruct (String.eqb p ANTHROPIC_PROTOCOL) eqn:E2; [|discriminate].
    apply String.eqb_eq in E2. intros H. injection H as <-. auto.
Qed.

Lemma normalize_protocol_Raise protocol e :
  normalize_protocol protocol = Raise e ->
  code e = "unsupported_protocol" /\ status_code e = 503%Z.
Proof.
  unfold normalize_protocol. cbv zeta.
  destruct (_ || _); [discriminate|].
  intros H. injection H as <-. split; reflexivity.
Qed.

(** X12. [normalize_protocol] returns only [openai] or [anthropic], and
    returns each of the two as it is; the missing protocol (the empty
    string) is [openai]; anything it refuses is refused with the error code
    [unsupported_protocol]. *)
Theorem X12_normalize_protocol_range (protocol : string) :
  (forall q, normalize_protocol protocol = Ok q ->
             (q = "openai" \/ q = "anthropic")
             /\ normalize_protocol q = Ok q)
  /\ (forall e, normalize_protocol protocol = Raise e ->
                code e = "unsupported_protocol")
  /\ normalize_protocol "" = Ok "openai".
Proof.
  split; [|split; [|reflexivity]].
  - intros q H. destruct (normalize_protocol_Ok _ _ H) as [->| ->];
      split; auto; reflexivity.
  - intros e H. apply normalize_protocol_Raise in H. tauto.
Qed.

Section Conversion.
Context {W D : Type}.
Context (encode_utf8 : string -> option string).
Context (json_dumps : value -> string).
Context (json_loads : string -> option value).
Context (uuid4_hex : W -> string * W).
Context (time_time : W -> Z * W).
Context (transform_request : string -> list value -> dict -> option dict).
Context (translate_anthropic_to_openai : dict -> option dict).
Context (translate_streaming_chunk : value -> option value).
Context (new_decoder : D).
Context (feed : D -> string -> list string * D).

Local Abbreviation convert_request_for_supplier :=
  (convert_request_for_supplier transform_request translate_anthropic_to_openai).
Local Abbreviation convert_stream_for_user :=
  (convert_stream_for_user encode_utf8 json_dumps json_loads uuid4_hex
     time_time translate_streaming_chunk new_decoder feed).
Local Abbreviation handle_event :=
  (handle_event encode_utf8 json_dumps uuid4_hex time_time).
Local Abbreviation for_events :=
  (for_events encode_utf8 json_dumps uuid4_hex time_time).
Local Abbreviation for_chunks :=
  (for_chunks encode_utf8 json_dumps json_loads uuid4_hex time_time feed).
Local Abbreviation decoded_events := (decoded_events json_loads feed).


(** X14. For a request in the Anthropic protocol to a provider in the
    OpenAI protocol, only [/v1/messages] converts: every other path fails
    with [unsupported_protocol_conversion]; a return carries the path
    [/v1/chat/completions] and the translation of the body with [model] set
    to the target model. *)
Theorem X14_anthropic_request_to_openai
    request_protocol supplier_protocol path body target_model :
  normalize_protocol request_protocol = Ok ANTHROPIC_PROTOCOL ->
  normalize_protocol supplier_protocol = Ok OPENAI_PROTOCOL ->
  (path <> "/v1/messages" ->
   exists e,
     convert_request_for_supplier request_protocol supplier_protocol path
       body target_model = RaiseApp e
     /\ code e = "unsupported_protocol_conversion")
  /\ (forall new_path new_body,
        convert_request_for_supplier request_protocol supplier_protocol path
          body target_model = Return (new_path, new_body) ->
        path = "/v1/messages" /\ new_path = "/v1/chat/completions"
        /\ translate_anthropic_to_openai
             (dict_set "model" (VStr target_model) body) = Some new_body).
Proof.
  intros Hreq Hsup.
  assert (Hconv :
            convert_request_for_supplier request_protocol supplier_protocol
              path body target_model
            = if negb (String.eqb path "/v1/messages") then
                RaiseApp (ServiceError
                            ("Unsupported Anthropic endpoint for conversion: "
                             +:+ path)
                            "unsupported_protocol_conversion")
              else
                match translate_anthropic_to_openai
                        (dict_set "model" (VStr target_model) body) with
                | Some openai_body =>
                    Return ("/v1/chat/completions", openai_body)
                | None => RaiseOther "litellm"
                end).
  { unfold Protocol.convert_request_for_supplier. rewrite Hreq, Hsup.
    reflexivity. }
  split.
  - intros Hpath. rewrite Hconv.
    destruct (String.eqb path "/v1/messages") eqn:E.
    + apply String.eqb_eq in E. contradiction.
    + simpl. eexists. split; reflexivity.
  - intros new_path new_body. rewrite Hconv.
    destruct (String.eqb path "/v1/messages") eqn:E; [|discriminate].
    apply String.eqb_eq in E. cbn [negb].
    destruct (translate_anthropic_to_openai _) as [b|]; [|discriminate].
    intros H. injection H as <- <-. auto.
Qed.

(** X15. A protocol that is neither [openai] nor [anthropic], on either
    side, stops both conversions at once with [unsupported_protocol]: no
    request is built and the stream yields nothing. *)
Theorem X15_unknown_protocol_is_refused
    request_protocol supplier_protocol path body target_model upstream
    model w e :
  normalize_protocol request_protocol = Raise e
  \/ (exists q, normalize_protocol request_protocol = Ok q
                /\ normalize_protocol supplier_protocol = Raise e) ->
  convert_request_for_supplier request_protocol supplier_protocol path body
    target_model = RaiseApp e
  /\ convert_stream_for_user request_protocol supplier_protocol upstream
       model w = ([], Failed e)
  /\ code e = "unsupported_protocol".
Proof.
  unfold Protocol.convert_request_for_supplier,
    Protocol.convert_stream_for_user.
  intros [H|(q & Hq & H)].
  - rewrite H. repeat split. apply (normalize_protocol_Raise _ _ H).
  - rewrite Hq, H. repeat split. apply (normalize_protocol_Raise _ _ H).
Qed.

(** *** Streams towards an OpenAI client *)

(** X16. The output depends on the upstream only through the events it
    decodes to: two upstreams with the same decoded events give the same
    output, so empty payloads, [[DONE]] lines of the upstream and payloads
    that are not JSON leave no trace. *)
Theorem X16_stream_reads_decoded_events
    request_protocol supplier_protocol upstream1 upstream2 model w :
  normalize_protocol request_protocol = Ok OPENAI_PROTOCOL ->
  normalize_protocol supplier_protocol = Ok ANTHROPIC_PROTOCOL ->
  decoded_events upstream1 new_decoder = decoded_events upstream2 new_decoder ->
  convert_stream_for_user request_protocol supplier_protocol upstream1 model w
  = convert_stream_for_user request_protocol supplier_protocol upstream2
      model w.
Proof.
  intros Hreq Hsup Hev.
  rewrite !(convert_stream_openai_client _ _ _ _ _ _ _ _ _ _ _ _ _ Hreq Hsup),
    Hev.
  reflexivity.
Qed.

(** An event sets [done] only by emitting the terminator. *)
Lemma handle_event_done model data st w out st' w' :
  handle_event model data st w = Some (out, st', w') ->
  done st' = true -> done st = true \/ In (Some terminator) out.
Proof.
  intros Hev Hd.
  destruct (terminating data) eqn:Ht.
  - destruct data; try discriminate.
    unfold terminating, event_type in Ht.
    apply orb_true_iff in Ht as [Ht|Ht].
    + destruct (handle_message_delta encode_utf8 json_dumps uuid4_hex
                  time_time model d st w Ht) as (chunk & w1 & H1).
      rewrite H1 in Hev. injection Hev as <- <- <-.
      right. right. left. reflexivity.
    + rewrite (handle_message_stop encode_utf8 json_dumps uuid4_hex
                 time_time model d st w Ht) in Hev.
      destruct (done st); [left; reflexivity|].
      injection Hev as <- <- <-. right. left. reflexivity.
  - left. rewrite <- Hd. symmetry.
    eapply handle_other_done; eassumption.
Qed.

Lemma for_events_done model evs st w out st' w' :
  for_events model evs st w = (out, Some (st', w')) ->
  done st' = true -> done st = true \/ In (Some terminator) out.
Proof.
  revert st w out. induction evs as [|data rest IH]; intros st w out Hrun Hd.
  - injection Hrun as <- <- <-. auto.
  - cbn [Protocol.for_events] in Hrun.
    destruct (handle_event model data st w) as [[[out1 st1] w1]|] eqn:Hev;
      [|discriminate].
    destruct (for_events model rest st1 w1) as [out2 fin] eqn:Hrest.
    injection Hrun as <- ->.
    destruct (IH _ _ _ Hrest Hd) as [Hd1|Hin].
    + destruct (handle_event_done _ _ _ _ _ _ _ Hev Hd1) as [H|H]; auto.
      right. apply in_or_app. auto.
    + right. apply in_or_app. auto.
Qed.

(** X17. Every stream that closes without an exception contains the
    terminator: whatever the events and their order, the client of an
    OpenAI stream is told that it ended. *)
Theorem X17_closed_stream_has_terminator
    request_protocol supplier_protocol upstream model w out :
  normalize_protocol request_protocol = Ok OPENAI_PROTOCOL ->
  normalize_protocol supplier_protocol = Ok ANTHROPIC_PROTOCOL ->
  convert_stream_for_user request_protocol supplier_protocol upstream model w
  = (out, Closed) ->
  In terminator out.
Proof.
  intros Hreq Hsup.
  rewrite (convert_stream_openai_client _ _ _ _ _ _ _ _ _ _ _ _ _ Hreq Hsup).
  destruct (for_events model _ initial_state w) as [out1 [[st' w']|]] eqn:Hrun.
  2:{ intros H. apply deliver_end in H as [H|H]; discriminate. }
  intros H. apply deliver_closed in H as [_ Hys].
  assert (Hin : In (Some terminator) (map Some out)).
  { rewrite <- Hys. destruct (done st') eqn:Hd; cbn [negb].
    - destruct (for_events_done _ _ _ _ _ _ _ Hrun Hd) as [H|H];
        [discriminate|].
      apply in_or_app. auto.
    - apply in_or_app. right. left. reflexivity. }
  apply in_map_iff in Hin as (chunk & Heq & Hin). congruence.
Qed.

End Conversion.


Lemma X14_witness :
  exists e,
    convert_request_for_supplier keep_params (fun _ => None) "anthropic"
      "openai" "/v1/chat/completions" hello_body "gpt-4" = RaiseApp e
    /\ code e = "unsupported_protocol_conversion".
Proof.
  refine (proj1 (X14_anthropic_request_to_openai keep_params (fun _ => None)
                   "anthropic" "openai" "/v1/chat/completions" hello_body
                   "gpt-4" eq_refl eq_refl) _).
  discriminate.
Defined.

Lemma X15_witness :
  convert_request_for_supplier keep_params (fun _ => None) "gemini" "openai"
    "/v1/chat/completions" hello_body "gpt-4"
  = RaiseApp (ServiceError "Unsupported protocol 'gemini'"
                "unsupported_protocol").
Proof.
  refine (proj1 (X15_unknown_protocol_is_refused (W := unit) (D := unit)
                   (fun _ => None) (fun _ => "{}") named_payloads (fun w => ("0", w))
                   (fun w => (0%Z, w)) keep_params (fun _ => None)
                   (fun _ => None) tt line_decoder "gemini" "openai"
                   "/v1/chat/completions" hello_body "gpt-4" [] "m" tt _
                   (or_introl eq_refl))).
Defined.

Lemma X16_witness :
  named_stream ["text_delta"; ""; "[DONE]"; "not json"; "message_delta"]
  = named_stream ["text_delta"; "message_delta"].
Proof.
  unfold named_stream.
  apply (X16_stream_reads_decoded_events (fun _ => None) (fun _ => "{}") named_payloads
           (fun w => ("0", w)) (fun w => (0%Z, w)) (fun _ => None) tt
           line_decoder "openai" "anthropic");
    reflexivity.
Defined.

Lemma X17_witness :
  In terminator (fst (named_stream ["message_delta"; "text_delta"])).
Proof.
  apply (X17_closed_stream_has_terminator (fun _ => None) (fun _ => "{}") named_payloads
           (fun w => ("0", w)) (fun w => (0%Z, w)) (fun _ => None) tt
           line_decoder "openai" "anthropic"
           ["message_delta"; "text_delta"] "claude" tt);
    reflexivity.
Defined.

End ProtocolMore.

(** ** The retry handler: what holds of every run *)

Module RetryRuns.
Import PyValue Retry Fixtures Notions RetryFacts.

Lemma failed_count_snoc_forward l c r :
  failed_count (l ++ [Forward c r])
  = failed_count l + (if is_success r then 0 else 1).
Proof.
  unfold failed_count. rewrite responses_snoc_forward, List.filter_app.
  rewrite length_app. simpl. unfold failed.
  destruct (is_success r); reflexivity.
Qed.

Lemma failed_count_snoc_sleep l ms :
  failed_count (l ++ [Sleep ms]) = failed_count l.
Proof. unfold failed_count. rewrite responses_snoc_sleep. reflexivity. Qed.

Lemma all_failed_snoc l r :
  forallb failed l = true -> is_success r = false ->
  forallb failed (l ++ [r]) = true.
Proof.
  intros Hl Hr. rewrite forallb_app, Hl. simpl. unfold failed. rewrite Hr.
  reflexivity.
Qed.

Section Handler.
Context {S : Type}.
Context (select : list CandidateProvider -> value -> S -> option CandidateProvider * S).
Context (forward_fn : CandidateProvider -> S -> ProviderResponse * S).
Context (max_retries : nat) (retry_delay_ms : Z).

Local Abbreviation same_provider_loop :=
  (same_provider_loop forward_fn max_retries retry_delay_ms).
Local Abbreviation provider_loop :=
  (provider_loop forward_fn max_retries retry_delay_ms).
Local Abbreviation execute_with_retry :=
  (execute_with_retry select forward_fn max_retries retry_delay_ms).

Lemma same_provider_loop_invariant fuel c same total last w ores total' last' w' :
  same_provider_loop fuel c same total last w = Some (ores, total', last', w') ->
  loop_invariant total last w ->
  (exists k, calls (log w') = calls (log w) ++ repeat c k
             /\ same + k <= Nat.max same max_retries)
  /\ match ores with
     | Some res => result_invariant res w'
     | None => loop_invariant total' last' w'
     end.
Proof.
  revert same total last w.
  induction fuel as [|fuel IH]; intros same total last w Hrun Hinv; simpl in Hrun.
  - destruct (same <? max_retries)%nat; [discriminate|].
    injection Hrun as <- <- <- <-. split; [|exact Hinv].
    exists 0. simpl. rewrite app_nil_r. split; [reflexivity|lia].
  - destruct (same <? max_retries)%nat eqn:E.
    2:{ injection Hrun as <- <- <- <-. split; [|exact Hinv].
        exists 0. simpl. rewrite app_nil_r. split; [reflexivity|lia]. }
    apply Nat.ltb_lt in E.
    destruct Hinv as (Ht & Hl & Hf).
    unfold await_forward in Hrun.
    destruct (forward_fn c (ext w)) as [r s].
    destruct (is_success r) eqn:Es.
    + injection Hrun as <- <- <- <-. cbn [log ext]. split.
      * exists 1. rewrite calls_snoc_forward. split; [reflexivity|lia].
      * unfold result_invariant. cbn [retry_count response success final_provider log].
        rewrite failed_count_snoc_forward, Es, responses_snoc_forward,
          calls_snoc_forward, !last_snoc.
        repeat split; try congruence; try lia.
    + assert (Hinv1 : loop_invariant (total + 1) (Some r)
                        {| ext := s; log := log w ++ [Forward c r] |}).
      { unfold loop_invariant. cbn [log].
        rewrite failed_count_snoc_forward, Es, responses_snoc_forward, last_snoc.
        split; [lia|]. split; [reflexivity|]. apply all_failed_snoc; assumption. }
      destruct (is_server_error r).
      * destruct (same + 1 <? max_retries)%nat eqn:E'.
        -- apply Nat.ltb_lt in E'.
           apply IH in Hrun.
           ++ destruct Hrun as ((k & Hk & Hle) & Hres). split; [|exact Hres].
              exists (Datatypes.S k). rewrite Hk. cbn [await_sleep log].
              rewrite calls_snoc_sleep, calls_snoc_forward, <- app_assoc.
              split; [reflexivity|lia].
           ++ destruct Hinv1 as (H1 & H2 & H3).
              unfold loop_invariant, await_sleep. cbn [log].
              rewrite failed_count_snoc_sleep, responses_snoc_sleep. auto.
        -- injection Hrun as <- <- <- <-. split; [|exact Hinv1].
           exists 1. cbn [log]. rewrite calls_snoc_forward.
           split; [reflexivity|lia].
      * injection Hrun as <- <- <- <-. split; [|exact Hinv1].
        exists 1. cbn [log]. rewrite calls_snoc_forward.
        split; [reflexivity|lia].
Qed.

Lemma provider_loop_invariant fuel candidates c tried total last w res w' :
  provider_loop fuel candidates c tried total last w = Some (res, w') ->
  loop_invariant total last w ->
  result_invariant res w'
  /\ exists extra,
       calls (log w') = calls (log w) ++ extra
       /\ Forall (fun x => x = c \/ In x candidates) extra
       /\ length extra
          <= max_retries
             * Datatypes.S (length (untried candidates
                                      ({[provider_id c]} ∪ tried))).
Proof.
  revert c tried total last w.
  induction fuel as [|fuel IH]; intros c tried total last w Hrun Hinv;
    [discriminate|].
  simpl in Hrun.
  destruct (same_provider_loop max_retries c 0 total last w)
    as [[[[ores total1] last1] w1]|] eqn:Einner; [|discriminate].
  destruct (same_provider_loop_invariant _ _ _ _ _ _ _ _ _ _ Einner Hinv)
    as ((k & Hk & Hle) & Hres).
  assert (Hrep : Forall (fun x => x = c \/ In x candidates) (repeat c k)).
  { apply Forall_forall. intros x Hx. apply list_elem_of_In in Hx.
    apply repeat_spec in Hx. auto. }
  destruct ores as [res1|].
  - injection Hrun as <- <-. split; [exact Hres|].
    exists (repeat c k). split; [exact Hk|]. split; [exact Hrep|].
    rewrite repeat_length. nia.
  - destruct (_get_next_untried_provider candidates _) as [n|] eqn:En.
    + pose proof (next_untried_Some _ _ _ En) as [Hnin Hn].
      destruct (IH _ _ _ _ _ Hrun Hres) as (Hfin & extra & He & Hall & Hlen).
      split; [exact Hfin|].
      exists (repeat c k ++ extra). rewrite He, Hk, <- app_assoc.
      split; [reflexivity|]. split.
      * apply Forall_app. split; [exact Hrep|].
        eapply Forall_impl; [exact Hall|]. simpl. intros x [->|Hx]; auto.
      * pose proof (untried_add_lt candidates _ n Hnin Hn).
        rewrite length_app, repeat_length. nia.
    + injection Hrun as <- <-. split.
      * destruct Hres as (H1 & H2 & H3).
        unfold result_invariant.
        cbn [retry_count response success final_provider].
        split; [exact H1|]. split.
        -- intros r Hr. rewrite <- H2 in Hr. rewrite H2, <- H2, Hr. reflexivity.
        -- split; [discriminate|]. intros _. exact H3.
      * exists (repeat c k). split; [exact Hk|]. split; [exact Hrep|].
        rewrite repeat_length. nia.
Qed.

(** A success ends the run: it is the last event of the log, and every
    response before it was a failure. *)
Lemma same_provider_loop_success fuel c same total last w res total' last' w' :
  same_provider_loop fuel c same total last w
  = Some (Some res, total', last', w') ->
  forallb failed (responses (log w)) = true ->
  exists l r,
    log w' = l ++ [Forward c r] /\ is_success r = true
    /\ forallb failed (responses l) = true.
Proof.
  revert same total last w.
  induction fuel as [|fuel IH]; intros same total last w Hrun Hf;
    simpl in Hrun.
  - destruct (same <? max_retries)%nat; discriminate.
  - destruct (same <? max_retries)%nat; [|discriminate].
    unfold await_forward in Hrun.
    destruct (forward_fn c (ext w)) as [r s].
    destruct (is_success r) eqn:Es.
    + injection Hrun as <- <- <- <-. cbn [log]. eauto.
    + destruct (is_server_error r); [|discriminate].
      destruct (same + 1 <? max_retries)%nat; [|discriminate].
      apply IH in Hrun; [exact Hrun|].
      unfold await_sleep. cbn [log].
      rewrite responses_snoc_sleep, responses_snoc_forward.
      apply all_failed_snoc; assumption.
Qed.

Lemma provider_loop_log fuel candidates c tried total last w res w' :
  provider_loop fuel candidates c tried total last w = Some (res, w') ->
  loop_invariant total last w ->
  forallb failed (responses (log w')) = true
  \/ exists l c' r,
       log w' = l ++ [Forward c' r] /\ is_success r = true
       /\ forallb failed (responses l) = true.
Proof.
  revert c tried total last w.
  induction fuel as [|fuel IH]; intros c tried total last w Hrun Hinv;
    [discriminate|].
  simpl in Hrun.
  destruct (same_provider_loop max_retries c 0 total last w)
    as [[[[ores total1] last1] w1]|] eqn:Einner; [|discriminate].
  destruct ores as [res1|].
  - injection Hrun as <- <-. right.
    destruct (same_provider_loop_success _ _ _ _ _ _ _ _ _ _ Einner
                (proj2 (proj2 Hinv))) as (l & r & H).
    eauto.
  - destruct (same_provider_loop_invariant _ _ _ _ _ _ _ _ _ _ Einner Hinv)
      as (_ & Hres).
    destruct (_get_next_untried_provider candidates _) as [n|].
    + exact (IH _ _ _ _ _ Hrun Hres).
    + injection Hrun as <- <-. left. exact (proj2 (proj2 Hres)).
Qed.

Lemma execute_with_retry_log candidates requested_model s res w' :
  execute_with_retry candidates requested_model {| ext := s; log := [] |}
  = Some (res, w') ->
  forallb failed (responses (log w')) = true
  \/ exists l c r,
       log w' = l ++ [Forward c r] /\ is_success r = true
       /\ forallb failed (responses l) = true.
Proof.
  unfold Retry.execute_with_retry. intros Hrun.
  destruct candidates as [|x cs].
  - injection Hrun as <- <-. left. reflexivity.
  - cbn [ext log] in Hrun.
    destruct (select (x :: cs) requested_model s) as [[c|] s0].
    + eapply provider_loop_log; [exact Hrun|].
      unfold loop_invariant. simpl. auto.
    + injection Hrun as <- <-. left. reflexivity.
Qed.

(** X1. Every run returns: whatever the strategy picks and however the
    forward function answers, the loops of [execute_with_retry] end. *)
Theorem X1_execute_with_retry_returns candidates requested_model w :
  exists res w',
    execute_with_retry candidates requested_model w = Some (res, w').
Proof.
  destruct (execute_with_retry_total select forward_fn max_retries
              retry_delay_ms candidates requested_model w) as [[res w'] H].
  eauto.
Qed.

(** The count of retries is the count of failed responses in the log of a
    run that starts with an empty log. *)
Lemma retry_count_counts_failures candidates requested_model s res w' :
  execute_with_retry candidates requested_model {| ext := s; log := [] |}
  = Some (res, w') ->
  retry_count res
  = length (List.filter (fun r => negb (is_success r)) (responses (log w'))).
Proof.
  unfold Retry.execute_with_retry. intros Hrun.
  destruct candidates as [|x cs].
  - injection Hrun as <- <-. reflexivity.
  - cbn [ext log] in Hrun.
    destruct (select (x :: cs) requested_model s) as [[c|] s0].
    + eapply provider_loop_invariant in Hrun.
      * exact (proj1 (proj1 Hrun)).
      * unfold loop_invariant. simpl. auto.
    + injection Hrun as <- <-. reflexivity.
Qed.

(** X2. Of every run that starts with an empty log: [retry_count] is the
    number of failed responses the forward function produced; the response
    returned is the last one it produced, when it produced any; on success
    that response is a success and [final_provider] is the provider of the
    last call; on failure no response was a success. *)
Theorem X2_result_accounts_for_the_log candidates requested_model s res w' :
  execute_with_retry candidates requested_model {| ext := s; log := [] |}
  = Some (res, w') ->
  retry_count res
  = length (List.filter (fun r => negb (is_success r)) (responses (log w')))
  /\ (forall r, list.last (responses (log w')) = Some r -> response res = r)
  /\ (success res = true ->
      is_success (response res) = true
      /\ list.last (responses (log w')) = Some (response res)
      /\ list.last (calls (log w')) = final_provider res)
  /\ (success res = false ->
      forallb (fun r => negb (is_success r)) (responses (log w')) = true).
Proof.
  unfold Retry.execute_with_retry. intros Hrun.
  destruct candidates as [|x cs].
  - injection Hrun as <- <-. repeat split; simpl; discriminate.
  - cbn [ext log] in Hrun.
    destruct (select (x :: cs) requested_model s) as [[c|] s0].
    + eapply provider_loop_invariant in Hrun.
      * exact (proj1 Hrun).
      * unfold loop_invariant. simpl. auto.
    + injection Hrun as <- <-. repeat split; simpl; discriminate.
Qed.

(** X3. When the strategy picks a member of the candidate list, every call
    of the forward function is on a member of the list, and there are at
    most [max_retries * len(candidates)] calls. *)
Theorem X3_calls_are_bounded candidates requested_model s c0 s0 res w' :
  select candidates requested_model s = (Some c0, s0) ->
  In c0 candidates ->
  execute_with_retry candidates requested_model {| ext := s; log := [] |}
  = Some (res, w') ->
  Forall (fun c => In c candidates) (calls (log w'))
  /\ length (calls (log w')) <= max_retries * length candidates.
Proof.
  intros Hsel Hin. unfold Retry.execute_with_retry.
  destruct candidates as [|x cs]; [destruct Hin|].
  cbn [ext log]. rewrite Hsel. intros Hrun.
  eapply provider_loop_invariant in Hrun.
  2:{ unfold loop_invariant. simpl. auto. }
  destruct Hrun as (_ & extra & He & Hall & Hlen).
  cbn [log] in He. simpl calls in He. rewrite He. simpl app. split.
  - eapply Forall_impl; [exact Hall|]. simpl. intros c [->|Hc]; auto.
  - pose proof (untried_add_lt (x :: cs) ∅ c0 Hin ltac:(set_solver)) as Hlt.
    rewrite untried_empty in Hlt. nia.
Qed.

End Handler.

Lemma X2_witness :
  exists res w',
    run succeed_on_third [provider1; provider2] 0 = Some (res, w')
    /\ retry_count res = 2
    /\ retry_count res
       = length (List.filter (fun r => negb (is_success r))
                   (responses (log w'))).
Proof.
  eexists _, _. split; [reflexivity|]. split; [reflexivity|].
  refine (proj1 (X2_result_accounts_for_the_log
                   (fun cs _ st => (head cs, st)) succeed_on_third 3 10
                   [provider1; provider2] (VStr "test") 0 _ _ eq_refl)).
Defined.

Lemma X3_witness :
  exists res w',
    run server_error_on_1 [provider1; provider2] tt = Some (res, w')
    /\ length (calls (log w')) = 4
    /\ length (calls (log w')) <= 3 * 2.
Proof.
  eexists _, _. split; [reflexivity|]. split; [reflexivity|].
  refine (proj2 (X3_calls_are_bounded
                   (fun cs _ st => (head cs, st)) server_error_on_1 3 10
                   [provider1; provider2] (VStr "test") tt provider1 tt _ _
                   eq_refl (or_introl eq_refl) eq_refl)).
Defined.

End RetryRuns.

(** ** The proxy service: errors and the log *)

Module ProxyMore.
Import PyValue Rules Errors Factory Proxy Fixtures Notions Retry.

(** *** What the handler leaves alone *)

Section Frame.
Context {S A : Type}.
Context (select : list CandidateProvider -> value -> S -> option CandidateProvider * S).
Context (forward_fn : CandidateProvider -> S -> ProviderResponse * S).
Context (max_retries : nat) (retry_delay_ms : Z).
Context (f : S -> A).
Hypothesis select_keeps : forall cs m s, f (snd (select cs m s)) = f s.
Hypothesis forward_keeps : forall c s, f (snd (forward_fn c s)) = f s.

Lemma same_provider_loop_keeps fuel c same total last w out total' last' w' :
  same_provider_loop forward_fn max_retries retry_delay_ms fuel c same total
    last w = Some (out, total', last', w') ->
  f (ext w') = f (ext w).
Proof.
  revert same total last w.
  induction fuel as [|fuel IH]; intros same total last w Hrun; simpl in Hrun.
  - destruct (same <? max_retries)%nat; [discriminate|].
    injection Hrun as <- <- <- <-. reflexivity.
  - destruct (same <? max_retries)%nat;
      [|injection Hrun as <- <- <- <-; reflexivity].
    unfold await_forward in Hrun.
    pose proof (forward_keeps c (ext w)) as Hk.
    destruct (forward_fn c (ext w)) as [r s]. cbn [snd] in Hk.
    destruct (is_success r); [injection Hrun as <- <- <- <-; exact Hk|].
    destruct (is_server_error r);
      [|injection Hrun as <- <- <- <-; exact Hk].
    destruct (same + 1 <? max_retries)%nat;
      [|injection Hrun as <- <- <- <-; exact Hk].
    apply IH in Hrun. rewrite Hrun. exact Hk.
Qed.

Lemma provider_loop_keeps fuel candidates c tried total last w res w' :
  provider_loop forward_fn max_retries retry_delay_ms fuel candidates c tried
    total last w = Some (res, w') ->
  f (ext w') = f (ext w).
Proof.
  revert c tried total last w.
  induction fuel as [|fuel IH]; intros c tried total last w Hrun;
    [discriminate|].
  simpl in Hrun.
  destruct (same_provider_loop _ _ _ _ _ _ _ _ _)
    as [[[[ores total1] last1] w1]|] eqn:Einner; [|discriminate].
  apply same_provider_loop_keeps in Einner.
  destruct ores as [res1|]; [injection Hrun as <- <-; exact Einner|].
  destruct (_get_next_untried_provider candidates _) as [n|].
  - apply IH in Hrun. rewrite Hrun. exact Einner.
  - injection Hrun as <- <-. exact Einner.
Qed.

Lemma execute_with_retry_keeps candidates requested_model w res w' :
  execute_with_retry select forward_fn max_retries retry_delay_ms candidates
    requested_model w = Some (res, w') ->
  f (ext w') = f (ext w).
Proof.
  unfold execute_with_retry. destruct candidates as [|x cs].
  - intros H. injection H as <- <-. reflexivity.
  - pose proof (select_keeps (x :: cs) requested_model (ext w)) as Hk.
    destruct (select (x :: cs) requested_model (ext w)) as [[c|] s].
    + intros H. apply provider_loop_keeps in H. rewrite H. exact Hk.
    + intros H. injection H as <- <-. exact Hk.
Qed.

End Frame.

Section Service.
Context {W ModelMapping ProviderMapping Provider : Type}.
Context (B : Builtins).
Context (generate_trace_id : W -> string * W).
Context (utcnow : W -> Z * W).
Context (get_mapping : value -> W -> option ModelMapping * W).
Context (mapping_is_active : ModelMapping -> bool).
Context (get_provider_mappings : value -> bool -> W -> list ProviderMapping * W).
Context (mapping_provider_id : ProviderMapping -> Z).
Context (get_by_id : Z -> W -> option Provider * W).
Context (provider_protocol : Provider -> string).
Context (tiktoken : option (string -> value -> option nat)).
Context (rule_engine_evaluate :
           RuleContext -> ModelMapping -> list ProviderMapping ->
           list (Z * Provider) -> W -> list CandidateProvider * W).
Context (select : list CandidateProvider -> value -> W -> option CandidateProvider * W).
Context (client_forward :
           client -> CandidateProvider -> string -> string ->
           list (string * string) -> dict -> W -> ProviderResponse * W).
Context (max_retries : nat) (retry_delay_ms : Z).
Context (json_dumps : value -> string).
Context (log_create : RequestLogCreate -> W -> W).

Local Abbreviation process_request :=
  (process_request B generate_trace_id utcnow get_mapping mapping_is_active
     get_provider_mappings mapping_provider_id get_by_id provider_protocol
     tiktoken rule_engine_evaluate select client_forward max_retries
     retry_delay_ms json_dumps log_create).
Local Abbreviation forward_fn := (Proxy.forward_fn client_forward).
Local Abbreviation strategy_select := (Proxy.strategy_select select).

(** *** The exception of the forward function *)

(** A log that replays the forward function to a state that notes no
    exception holds calls on known protocols only, and started from such a
    state. *)
Lemma replays_no_exception path method headers body_ s l s' :
  replays (forward_fn path method headers body_) s l s' ->
  snd s' = None ->
  snd s = None /\ went_upstream l = l.
Proof.
  revert s. induction l as [|[c r|ms] l IH]; intros s; cbn [replays].
  - intros -> Hs. auto.
  - intros [_ Hrest] Hs. destruct (IH _ Hrest Hs) as [Hflag Hl].
    unfold Proxy.forward_fn in Hflag.
    cbn [went_upstream List.filter].
    fold (went_upstream l). rewrite Hl.
    destruct (get_provider_client (protocol c)); [|discriminate].
    destruct (client_forward _ c path method headers body_ s.1).
    auto.
  - intros Hrest Hs. destruct (IH _ Hrest Hs) as [Hflag Hl].
    cbn [went_upstream List.filter]. fold (went_upstream l).
    rewrite Hl. auto.
Qed.

(** The only exception a run notes is the factory's. *)
Lemma replays_exception path method headers body_ s l s' :
  replays (forward_fn path method headers body_) s l s' ->
  snd s = None \/ snd s = Some "ValueError" ->
  snd s' = None \/ snd s' = Some "ValueError".
Proof.
  revert s. induction l as [|[c r|ms] l IH]; intros s; cbn [replays].
  - intros ->. auto.
  - intros [_ Hrest] Hs. apply (IH _ Hrest).
    unfold Proxy.forward_fn.
    destruct (get_provider_client (protocol c)); [|auto].
    destruct (client_forward _ c path method headers body_ s.1). exact Hs.
  - apply IH.
Qed.

Lemma replays_split path method headers body_ s l1 l2 s' :
  replays (forward_fn path method headers body_) s (l1 ++ l2) s' ->
  exists s1,
    replays (forward_fn path method headers body_) s l1 s1
    /\ replays (forward_fn path method headers body_) s1 l2 s'.
Proof.
  revert s. induction l1 as [|[c r|ms] l1 IH]; intros s; cbn [app replays].
  - intros H. exists s. auto.
  - intros [Hr H]. destruct (IH _ H) as (s1 & H1 & H2). exists s1. auto.
  - apply IH.
Qed.

(** Failures are answers of a client: a log of failures notes no
    exception. *)
Lemma replays_failed path method headers body_ s l s' :
  replays (forward_fn path method headers body_) s l s' ->
  snd s = None -> forallb failed (responses l) = true -> snd s' = None.
Proof.
  revert s. induction l as [|[c r|ms] l IH]; intros s; cbn [replays].
  - intros -> Hs _. exact Hs.
  - intros [Hr Hrest] Hs Hf.
    change (responses (Forward c r :: l)) with (r :: responses l) in Hf.
    cbn [forallb] in Hf. apply andb_true_iff in Hf as [Hfr Hfl].
    apply (IH _ Hrest); [|exact Hfl].
    unfold Proxy.forward_fn in Hr |- *.
    destruct (get_provider_client (protocol c)).
    + destruct (client_forward _ c path method headers body_ s.1). exact Hs.
    + cbn [fst] in Hr. subst r. discriminate Hfr.
  - intros Hrest Hs Hf. exact (IH _ Hrest Hs Hf).
Qed.

(** The exception ends the run: the call that raised is the last event of
    the log, the calls before it reached a client, and their responses were
    failures. *)
Lemma exception_is_last path method headers body_ s l s' what :
  replays (forward_fn path method headers body_) s l s' ->
  snd s = None -> snd s' = Some what ->
  forallb failed (responses l) = true
  \/ (exists l0 c r,
         l = l0 ++ [Forward c r] /\ is_success r = true
         /\ forallb failed (responses l0) = true) ->
  what = "ValueError"
  /\ forallb failed (responses (went_upstream l)) = true.
Proof.
  intros Hrep Hs Hs' [Hf | (l0 & c & r & -> & Hr & Hf)].
  - rewrite (replays_failed _ _ _ _ _ _ _ Hrep Hs Hf) in Hs'. discriminate.
  - destruct (replays_split _ _ _ _ _ _ _ _ Hrep) as (s1 & H0 & H1).
    pose proof (replays_failed _ _ _ _ _ _ _ H0 Hs Hf) as Hs1.
    destruct (replays_no_exception _ _ _ _ _ _ _ H0 Hs1) as [_ Hl0].
    cbn [replays] in H1. destruct H1 as [_ ->].
    unfold went_upstream. rewrite List.filter_app. fold (went_upstream l0).
    rewrite Hl0. cbn [List.filter].
    unfold Proxy.forward_fn in Hs'.
    destruct (get_provider_client (protocol c)).
    + destruct (client_forward _ c path method headers body_ s1.1).
      cbn [snd] in Hs'. congruence.
    + cbn [snd] in Hs'. injection Hs' as <-.
      rewrite app_nil_r. auto.
Qed.

(** A run of the handler in [process_request]. *)
Lemma run_replays path method headers body_ candidates requested_model w
    res rw :
  execute_with_retry strategy_select (forward_fn path method headers body_)
    max_retries retry_delay_ms candidates requested_model
    {| ext := (w, None); log := [] |} = Some (res, rw) ->
  exists s0,
    snd s0 = None
    /\ replays (forward_fn path method headers body_) s0 (log rw) (ext rw).
Proof.
  intros Hrun. apply RetryFacts.execute_with_retry_replays in Hrun.
  eexists. split; [|exact Hrun].
  destruct candidates; [reflexivity|].
  unfold Proxy.strategy_select. cbn [fst snd].
  destruct (select _ requested_model w). reflexivity.
Qed.

(** What [process_request] ends in. *)
Lemma process_request_outcome
    api_key_id api_key_name path method headers body_ w out w' upstream :
  process_request api_key_id api_key_name path method headers body_ w
  = (out, w', upstream) ->
  match out with
  | RaiseApp e =>
      upstream = []
      /\ ((code e = "missing_model" /\ Errors.status_code e = 503%Z)
          \/ (code e = "model_not_found" /\ Errors.status_code e = 404%Z)
          \/ (code e = "model_disabled" /\ Errors.status_code e = 503%Z)
          \/ (code e = "no_available_provider"
              /\ Errors.status_code e = 503%Z))
  | RaiseOther what =>
      (what = "count_messages" /\ upstream = [])
      \/ (what = "ValueError"
          /\ forallb (fun r => negb (is_success r)) (responses upstream)
             = true)
  | Return _ => went_upstream upstream = upstream
  end.
Proof.
  unfold Proxy.process_request.
  destruct (generate_trace_id w) as [trace_id w1].
  destruct (utcnow w1) as [request_time w2]. cbv zeta.
  destruct (negb (truthy _)).
  { intros H. injection H as <- <- <-. split; [reflexivity|]. left. auto. }
  destruct (get_mapping _ w2) as [[mm|] w3].
  2:{ intros H. injection H as <- <- <-. split; [reflexivity|].
      right. left. auto. }
  destruct (negb (mapping_is_active mm)).
  { intros H. injection H as <- <- <-. split; [reflexivity|].
    right. right. left. auto. }
  destruct (get_provider_mappings _ true w3) as [[|pm pms] w4].
  { intros H. injection H as <- <- <-. split; [reflexivity|].
    right. right. right. auto. }
  destruct (load_providers get_by_id _ [] w4) as [providers w5].
  destruct (TokenCounter.count_messages tiktoken _ _ _) as [input_tokens|].
  2:{ intros H. injection H as <- <- <-. left. auto. }
  destruct (rule_engine_evaluate _ mm (pm :: pms) providers w5)
    as [[|c cs] w6].
  { intros H. injection H as <- <- <-. split; [reflexivity|].
    right. right. right. auto. }
  match goal with
  | |- context [execute_with_retry ?sel ?fw ?mr ?rd ?cands ?rm ?w0] =>
      destruct (RetryFacts.execute_with_retry_total sel fw mr rd cands rm w0)
        as [[res rw] Hrun]; rewrite Hrun
  end.
  destruct (run_replays _ _ _ _ _ _ _ _ _ Hrun) as (s0 & Hs0 & Hrep).
  pose proof (RetryRuns.execute_with_retry_log _ _ _ _ _ _ _ _ _ Hrun)
    as Hlog.
  destruct (snd (ext rw)) as [what|] eqn:Hflag.
  - intros H. injection H as <- <- <-. right.
    exact (exception_is_last _ _ _ _ _ _ _ _ Hrep Hs0 Hflag Hlog).
  - intros H. injection H as <- <- <-.
    apply (replays_no_exception _ _ _ _ _ _ _ Hrep Hflag).
Qed.

(** X18. What [process_request] raises, the repositories, the rule engine,
    the strategy and the clients' [forward] returning.  An [AppError] is one
    of four, [missing_model], [model_disabled] or [no_available_provider]
    with status 503, or [model_not_found] with status 404, and nothing went
    upstream before it.  Another exception is the token counter's, before
    anything went upstream, or the [ValueError] of [get_provider_client],
    which ends the run at a candidate whose protocol has no client: every
    response that came from upstream before it was a failure.  When it
    returns, every call of the run reached a provider client. *)
Theorem X18_errors_before_any_forward
    api_key_id api_key_name path method headers body_ w out w' upstream :
  process_request api_key_id api_key_name path method headers body_ w
  = (out, w', upstream) ->
  match out with
  | RaiseApp e =>
      upstream = []
      /\ ((code e = "missing_model" /\ Errors.status_code e = 503%Z)
          \/ (code e = "model_not_found" /\ Errors.status_code e = 404%Z)
          \/ (code e = "model_disabled" /\ Errors.status_code e = 503%Z)
          \/ (code e = "no_available_provider"
              /\ Errors.status_code e = 503%Z))
  | RaiseOther what =>
      (what = "count_messages" /\ upstream = [])
      \/ (what = "ValueError"
          /\ forallb (fun r => negb (is_success r)) (responses upstream)
             = true)
  | Return _ => went_upstream upstream = upstream
  end.
Proof. apply process_request_outcome. Qed.

(** *** The log *)

Context (logged : W -> list RequestLogCreate).
Hypothesis log_create_appends :
  forall record w, logged (log_create record w) = logged w ++ [record].
Hypothesis generate_trace_id_keeps :
  forall w, logged (snd (generate_trace_id w)) = logged w.
Hypothesis utcnow_keeps : forall w, logged (snd (utcnow w)) = logged w.
Hypothesis get_mapping_keeps :
  forall m w, logged (snd (get_mapping m w)) = logged w.
Hypothesis get_provider_mappings_keeps :
  forall m a w, logged (snd (get_provider_mappings m a w)) = logged w.
Hypothesis get_by_id_keeps : forall i w, logged (snd (get_by_id i w)) = logged w.
Hypothesis rule_engine_keeps :
  forall c m ps pr w, logged (snd (rule_engine_evaluate c m ps pr w)) = logged w.
Hypothesis select_keeps : forall cs m w, logged (snd (select cs m w)) = logged w.
Hypothesis client_forward_keeps :
  forall k c p m h b w, logged (snd (client_forward k c p m h b w)) = logged w.

Lemma load_providers_keeps ids providers w :
  logged (snd (load_providers get_by_id ids providers w)) = logged w.
Proof.
  revert providers w. induction ids as [|pid rest IH]; intros providers w;
    [reflexivity|].
  cbn [load_providers].
  pose proof (get_by_id_keeps pid w) as Hk.
  destruct (get_by_id pid w) as [[p|] w1]; cbn [snd] in Hk;
    rewrite IH; exact Hk.
Qed.

Lemma strategy_select_keeps cs m (s : W * option string) :
  logged (fst (snd (strategy_select cs m s))) = logged (fst s).
Proof.
  unfold Proxy.strategy_select.
  pose proof (select_keeps cs m (fst s)) as Hk.
  destruct (select cs m (fst s)). exact Hk.
Qed.

Lemma forward_fn_keeps path method headers body_ c (s : W * option string) :
  logged (fst (snd (forward_fn path method headers body_ c s)))
  = logged (fst s).
Proof.
  unfold Proxy.forward_fn.
  destruct (get_provider_client (protocol c)) as [k|]; [|reflexivity].
  pose proof (client_forward_keeps k c path method headers body_ (fst s))
    as Hk.
  destruct (client_forward k c path method headers body_ (fst s)). exact Hk.
Qed.

(** X19. When none of the collaborators writes log records but
    [log_repo.create], which appends one: a call of [process_request] that
    raises, an [AppError] or another exception, writes no record, and a
    call that returns writes exactly one, after the upstream calls; that
    record carries the sanitized request headers, the status of the
    returned response, and a [retry_count] that is the number of failed
    upstream responses of the call. *)
Theorem X19_one_log_record_per_return
    api_key_id api_key_name path method headers body_ w :
  let '(outcome, w', upstream) :=
    process_request api_key_id api_key_name path method headers body_ w in
  match outcome with
  | RaiseApp _ | RaiseOther _ => logged w' = logged w
  | Return (response, info) =>
      exists record,
        logged w' = logged w ++ [record]
        /\ log_request_headers record = Proxy.sanitize_headers headers
        /\ log_response_status record = Retry.status_code response
        /\ log_retry_count record = info_retry_count info
        /\ log_retry_count record
           = length (List.filter (fun r => negb (is_success r))
                       (responses upstream))
  end.
Proof.
  unfold Proxy.process_request.
  pose proof (generate_trace_id_keeps w) as H1.
  destruct (generate_trace_id w) as [trace_id w1]. cbn [snd] in H1.
  pose proof (utcnow_keeps w1) as H2.
  destruct (utcnow w1) as [request_time w2]. cbn [snd] in H2. cbv zeta.
  destruct (negb (truthy _)); [congruence|].
  match goal with
  | |- context [get_mapping ?m w2] =>
      pose proof (get_mapping_keeps m w2) as H3;
      destruct (get_mapping m w2) as [[mm|] w3]; cbn [snd] in H3
  end; [|congruence].
  destruct (negb (mapping_is_active mm)); [congruence|].
  match goal with
  | |- context [get_provider_mappings ?m true w3] =>
      pose proof (get_provider_mappings_keeps m true w3) as H4;
      destruct (get_provider_mappings m true w3) as [[|pm pms] w4];
      cbn [snd] in H4
  end; [congruence|].
  match goal with
  | |- context [load_providers get_by_id ?ids [] w4] =>
      pose proof (load_providers_keeps ids [] w4) as H5;
      destruct (load_providers get_by_id ids [] w4) as [providers w5];
      cbn [snd] in H5
  end.
  destruct (TokenCounter.count_messages tiktoken _ _ _) as [input_tokens|];
    [|congruence].
  match goal with
  | |- context [rule_engine_evaluate ?c mm ?ps providers w5] =>
      pose proof (rule_engine_keeps c mm ps providers w5) as H6;
      destruct (rule_engine_evaluate c mm ps providers w5) as [[|c0 cs] w6];
      cbn [snd] in H6
  end; [congruence|].
  match goal with
  | |- context [execute_with_retry ?sel ?fw ?mr ?rd ?cands ?rm ?w0] =>
      destruct (execute_with_retry sel fw mr rd cands rm w0)
        as [[res rw]|] eqn:Hrun
  end; [|congruence].
  pose proof (execute_with_retry_keeps _ _ _ _ (fun s => logged (fst s))
                strategy_select_keeps
                (forward_fn_keeps path method headers body_)
                _ _ _ _ _ Hrun) as H7.
  cbn [ext fst] in H7.
  destruct (snd (ext rw)); [congruence|].
  pose proof (RetryRuns.retry_count_counts_failures _ _ _ _ _ _ _ _ _ Hrun)
    as Hcount.
  eexists. split; [rewrite log_create_appends; f_equal; congruence|].
  cbn [log_request_headers log_response_status log_retry_count
       info_retry_count].
  repeat split. exact Hcount.
Qed.

End Service.

(** The exceptions that are no [AppError], on the service of the tests: a
    message that is no dict stops the token counter before anything is
    forwarded; a candidate whose protocol has no client stops the run at its
    turn, after the request that went to provider 1.  Neither writes a log
    record. *)
Example token_counter_raises :
  logging_service [("model", VStr "gpt-4"); ("messages", VList [VStr "hi"])] []
  = (RaiseOther "count_messages", [], []).
Proof. reflexivity. Qed.

Example unknown_protocol_raises :
  gemini_service [("model", VStr "gpt-4")] []
  = (RaiseOther "ValueError", [],
     [Forward provider1 (error_response 400 "Bad request")]).
Proof. reflexivity. Qed.

Lemma X18_witness :
  exists w' upstream,
    logging_service [("model", VStr "gpt-4"); ("messages", VList [VStr "hi"])]
      [] = (RaiseOther "count_messages", w', upstream)
    /\ (("count_messages" = "count_messages" /\ upstream = [])
        \/ ("count_messages" = "ValueError"
            /\ forallb (fun r => negb (is_success r)) (responses upstream)
               = true)).
Proof.
  eexists _, _. split; [reflexivity|].
  exact (X18_errors_before_any_forward _ _ _ _ _ _ _ _ _ _ _ _ _ _ _ _ _ _
           _ _ _ _ _ _ _ _ _
           (eq_refl
              (logging_service
                 [("model", VStr "gpt-4"); ("messages", VList [VStr "hi"])]
                 []))).
Defined.

Lemma X19_witness :
  let '(outcome, w', upstream) :=
    logging_service [("model", VStr "gpt-4")] [] in
  match outcome with
  | RaiseApp _ | RaiseOther _ => w' = []
  | Return (response, info) =>
      exists record,
        w' = [] ++ [record]
        /\ log_request_headers record
           = Proxy.sanitize_headers
               [("authorization", "Bearer sk-1234567890abcdef")]
        /\ log_response_status record = Retry.status_code response
        /\ log_retry_count record = info_retry_count info
        /\ log_retry_count record
           = length (List.filter (fun r => negb (is_success r))
                       (responses upstream))
  end.
Proof.
  exact (X19_one_log_record_per_return (W := list RequestLogCreate)
           (ModelMapping := unit) (ProviderMapping := Z)
           (Provider := unit) no_builtins
           (fun w => ("0123456789abcdef0123456789abcdef", w))
           (fun w => (0%Z, w))
           (fun _ w => (Some tt, w)) (fun _ => true)
           (fun _ _ w => ([1%Z; 2%Z], w))
           (fun pid => pid) (fun _ w => (Some tt, w)) (fun _ => "openai")
           None (fun _ _ _ _ w => ([provider1; provider2], w))
           (fun cs _ w => (head cs, w))
           (fun _ c _ _ _ _ w => (fst (bad_request_on_1 c tt), w)) 3 1000
           (fun _ => "{}") (fun record w => w ++ [record])
           (fun w => w)
           (fun _ _ => eq_refl) (fun _ => eq_refl) (fun _ => eq_refl)
           (fun _ _ => eq_refl) (fun _ _ _ => eq_refl) (fun _ _ => eq_refl)
           (fun _ _ _ _ _ => eq_refl) (fun _ _ _ => eq_refl)
           (fun _ _ _ _ _ _ _ => eq_refl)
           1 "key" "/v1/chat/completions" "POST"
           [("authorization", "Bearer sk-1234567890abcdef")]
           [("model", VStr "gpt-4")] []).
Defined.

End ProxyMore.


(** ** Streams towards an Anthropic client *)

Module AnthropicStreamFacts.
Import PyValue Errors Protocol AnthropicStream Fixtures ProtocolFacts.

Section Frames.
Context {W D : Type}.
Context (encode_utf8 : string -> option string).
Context (json_dumps : value -> string).
Context (json_loads : string -> option value).
Context (uuid4_hex : W -> string * W).
Context (time_time : W -> Z * W).
Context (translate_streaming_chunk : value -> option value).
Context (new_decoder : D).
Context (feed : D -> string -> list string * D).

Local Abbreviation handle_openai_payload :=
  (Protocol.handle_openai_payload encode_utf8 json_dumps json_loads uuid4_hex
     translate_streaming_chunk).
Local Abbreviation for_openai_payloads :=
  (Protocol.for_openai_payloads encode_utf8 json_dumps json_loads uuid4_hex
     translate_streaming_chunk).
Local Abbreviation for_openai_chunks :=
  (Protocol.for_openai_chunks encode_utf8 json_dumps json_loads uuid4_hex
     translate_streaming_chunk feed).
Local Abbreviation convert_stream_for_user :=
  (Protocol.convert_stream_for_user encode_utf8 json_dumps json_loads
     uuid4_hex time_time translate_streaming_chunk new_decoder feed).
Local Abbreviation translate_payload :=
  (AnthropicStream.translate_payload json_loads translate_streaming_chunk).
Local Abbreviation translated :=
  (AnthropicStream.translated json_loads translate_streaming_chunk).
Local Abbreviation header :=
  (AnthropicStream.header encode_utf8 json_dumps uuid4_hex).
Local Abbreviation body := (AnthropicStream.body encode_utf8 json_dumps).
Local Abbreviation pending := (AnthropicStream.pending encode_utf8 json_dumps).
Local Abbreviation frames :=
  (AnthropicStream.frames encode_utf8 json_dumps json_loads uuid4_hex
     translate_streaming_chunk).
Local Abbreviation decoded_payloads := (AnthropicStream.decoded_payloads feed).

Lemma for_openai_payloads_app model ps qs st w :
  for_openai_payloads model (ps ++ qs) st w
  = match for_openai_payloads model ps st w with
    | (out, None) => (out, None)
    | (out, Some (st1, w1)) =>
        let '(outs, fin) := for_openai_payloads model qs st1 w1 in
        (out ++ outs, fin)
    end.
Proof.
  revert st w. induction ps as [|p ps IH]; intros st w.
  - cbn [app Protocol.for_openai_payloads].
    destruct (for_openai_payloads model qs st w). reflexivity.
  - cbn [app Protocol.for_openai_payloads].
    destruct (handle_openai_payload model p st w) as [out1 [[st1 w1]|]];
      [|reflexivity].
    rewrite IH.
    destruct (for_openai_payloads model ps st1 w1) as [out2 [[st2 w2]|]];
      [|reflexivity].
    destruct (for_openai_payloads model qs st2 w2) as [out3 fin].
    rewrite app_assoc. reflexivity.
Qed.

Lemma for_openai_chunks_payloads model upstream decoder st w :
  for_openai_chunks model upstream decoder st w
  = for_openai_payloads model (decoded_payloads upstream decoder) st w.
Proof.
  revert decoder st w.
  induction upstream as [|chunk rest IH]; intros decoder st w; [reflexivity|].
  cbn [Protocol.for_openai_chunks AnthropicStream.decoded_payloads].
  destruct (feed decoder chunk) as [payloads decoder1].
  rewrite for_openai_payloads_app.
  destruct (for_openai_payloads model payloads st w) as [out [[st1 w1]|]];
    [|reflexivity].
  rewrite IH. reflexivity.
Qed.

Lemma body_cons finished processed events :
  body finished (processed :: events)
  = body finished [processed]
    ++ body (finished || is_message_delta processed) events.
Proof.
  unfold AnthropicStream.body. destruct finished; cbn [orb].
  - reflexivity.
  - cbn [until_delta from_delta].
    destruct (is_message_delta processed); cbn [map app].
    + reflexivity.
    + reflexivity.
Qed.

(** One payload: what is emitted and what is then held back is what was held
    back, the opening frames and the frames of the translated event. *)
Lemma handle_openai_payload_frames model p st w out st' w' :
  consistent st = true ->
  handle_openai_payload model p st w = (out, Some (st', w')) ->
  out ++ pending st'
  = pending st ++ (if is_live p then header model st w else [])
    ++ body (sent_content_block_finish st) (option_list (translate_payload p))
  /\ consistent st' = true
  /\ sent_content_block_finish st'
     = sent_content_block_finish st
       || match translate_payload p with
          | Some processed => is_message_delta processed
          | None => false
          end
  /\ (if is_live p
      then sent_message_start st' = true /\ sent_content_block_start st' = true
      else st' = st /\ w' = w).
Proof.
  unfold Protocol.handle_openai_payload, AnthropicStream.translate_payload,
    AnthropicStream.is_live, AnthropicStream.header, AnthropicStream.pending,
    AnthropicStream.body, AnthropicStream.consistent,
    AnthropicStream.is_message_delta.
  destruct (PyStr.is_empty p); cbn [negb andb].
  { intros Hc H. injection H as <- <- <-.
    destruct st as [a b c [h|]]; cbn in *; destruct c; auto. }
  destruct (String.eqb (PyStr.strip p) "[DONE]"); cbn [negb andb].
  { intros Hc H. injection H as <- <- <-.
    destruct st as [a b c [h|]]; cbn in *; destruct c; auto. }
  destruct (message_start_event uuid4_hex model w) as [ev w1].
  cbn [fst].
  destruct st as [a b c h].
  cbn [sent_message_start sent_content_block_start sent_content_block_finish
       holding].
  intros Hc.
  destruct (json_loads p) as [data|].
  2:{ intros H. destruct a; injection H as <- <- <-;
      cbn [holding sent_content_block_finish sent_message_start
           sent_content_block_start option_list];
      destruct h, b, c; cbn in *; try discriminate; auto. }
  destruct (translate_streaming_chunk data) as [processed|].
  2:{ intros H. destruct a; injection H as <- <- <-;
      cbn [holding sent_content_block_finish sent_message_start
           sent_content_block_start option_list];
      destruct h, b, c; cbn in *; try discriminate; auto. }
  destruct processed as [| | | | | | d |];
    try (intros H; destruct a; discriminate H).
  cbn [option_list event_type until_delta from_delta].
  destruct (py_eq (get_or "type" d VNone) (VStr "message_delta")) eqn:Hd;
    destruct c, h as [held|]; cbn [negb andb orb] in *; try discriminate;
    intros H; destruct a; injection H as <- <- <-;
    cbn [holding sent_content_block_finish sent_message_start
         sent_content_block_start];
    destruct b; cbn in *; try discriminate; rewrite ?Hd; auto.
Qed.

Lemma header_sent model st w :
  sent_message_start st = true -> sent_content_block_start st = true ->
  header model st w = [].
Proof.
  unfold AnthropicStream.header. intros -> ->. reflexivity.
Qed.

Lemma body_nil finished : body finished [] = [].
Proof.
  unfold AnthropicStream.body. destruct finished; reflexivity.
Qed.

Lemma translated_cons p ps :
  translated (p :: ps) = option_list (translate_payload p) ++ translated ps.
Proof.
  unfold AnthropicStream.translated. simpl.
  destruct (translate_payload p); reflexivity.
Qed.

(** A run of payloads, from any consistent state. *)
Lemma for_openai_payloads_frames model ps st w out st' w' :
  consistent st = true ->
  for_openai_payloads model ps st w = (out, Some (st', w')) ->
  out ++ pending st'
  = pending st
    ++ match List.filter is_live ps with
       | [] => []
       | _ => header model st w
       end
    ++ body (sent_content_block_finish st) (translated ps)
  /\ consistent st' = true.
Proof.
  revert st w out. induction ps as [|p ps IH]; intros st w out Hc Hrun.
  - injection Hrun as <- <- <-. split; [|exact Hc].
    change (translated []) with (@nil value). cbn [List.filter app].
    rewrite body_nil, app_nil_r. reflexivity.
  - cbn [Protocol.for_openai_payloads] in Hrun.
    destruct (handle_openai_payload model p st w) as [out1 [[st1 w1]|]] eqn:Hp;
      [|discriminate].
    destruct (for_openai_payloads model ps st1 w1) as [out2 fin] eqn:Hrest.
    injection Hrun as <- ->.
    destruct (handle_openai_payload_frames _ _ _ _ _ _ _ Hc Hp)
      as (Hout1 & Hc1 & Hfin & Hlive).
    destruct (IH _ _ _ Hc1 Hrest) as (Hout2 & Hc').
    split; [|exact Hc'].
    rewrite <- app_assoc, Hout2, app_assoc, Hout1, Hfin.
    rewrite translated_cons. cbn [List.filter].
    destruct (is_live p) eqn:Hl.
    + destruct Hlive as [Hs1 Hs2].
      rewrite (header_sent _ _ _ Hs1 Hs2).
      assert (Hnil : match List.filter is_live ps with
                     | [] => []
                     | _ :: _ => @nil (option string)
                     end = [])
        by (destruct (List.filter is_live ps); reflexivity).
      rewrite Hnil. cbn [app].
      destruct (translate_payload p) as [processed|].
      * change (option_list (Some processed)) with [processed].
        cbn [app]. rewrite (body_cons _ processed (translated ps)).
        rewrite <- ?app_assoc. reflexivity.
      * change (option_list (@None value)) with (@nil value). cbn [app].
        rewrite orb_false_r, body_nil, ?app_nil_r, <- ?app_assoc.
        reflexivity.
    + destruct Hlive as [-> ->].
      assert (Hno : translate_payload p = None)
        by (unfold AnthropicStream.translate_payload; rewrite Hl; reflexivity).
      rewrite Hno. change (option_list (@None value)) with (@nil value).
      cbn [app].
      rewrite orb_false_r, body_nil, ?app_nil_r, <- ?app_assoc.
      reflexivity.
Qed.

(** X20. For an Anthropic client and an OpenAI provider, a stream that
    closes without an exception is determined by the payloads the decoder
    gives: [message_start] and [content_block_start] when a payload is not
    skipped, then every translated event once and in order, with
    [content_block_stop] before the first [message_delta], then
    [message_stop], which is the last frame of every such stream.  The event
    that is held back is never lost. *)
Theorem X20_anthropic_stream_frames
    request_protocol supplier_protocol upstream model w out :
  normalize_protocol request_protocol = Ok ANTHROPIC_PROTOCOL ->
  normalize_protocol supplier_protocol = Ok OPENAI_PROTOCOL ->
  convert_stream_for_user request_protocol supplier_protocol upstream model w
  = (out, Closed) ->
  map Some out = frames model (decoded_payloads upstream new_decoder) w
  /\ list.last (map Some out)
     = Some (message_stop_frame encode_utf8 json_dumps).
Proof.
  intros Hreq Hsup. unfold Protocol.convert_stream_for_user.
  rewrite Hreq, Hsup. cbn [String.eqb Ascii.eqb Bool.eqb andb].
  rewrite for_openai_chunks_payloads.
  fold (@initial_anthropic_state).
  destruct (for_openai_payloads model _ initial_anthropic_state w)
    as [out1 [[st' w']|]] eqn:Hrun.
  2:{ intros H. apply deliver_end in H as [H|H]; discriminate. }
  intros H. apply deliver_closed in H as [_ H]. rewrite <- H. clear H.
  destruct (for_openai_payloads_frames model _ initial_anthropic_state w
              out1 st' w' eq_refl Hrun) as [Hout _].
  fold (message_stop_frame encode_utf8 json_dumps).
  split; [|rewrite app_assoc; apply last_snoc].
  pose proof (f_equal
                (fun l => l ++ [message_stop_frame encode_utf8 json_dumps])
                Hout) as Hall.
  cbn beta in Hall. rewrite <- app_assoc in Hall.
  etransitivity; [exact Hall|].
  cbn [AnthropicStream.pending holding initial_anthropic_state app
       sent_content_block_finish].
  unfold AnthropicStream.frames. rewrite <- app_assoc. reflexivity.
Qed.

End Frames.

Lemma X20_witness :
  anthropic_named_stream ["text_delta"; "[DONE]"; "message_delta"; "text_delta"]
  = (map (fun name => "data: " +:+ name +:+ LF +:+ LF)
       ["message_start"; "content_block_start"; "content_block_delta";
        "content_block_stop"; "message_delta"; "content_block_delta";
        "message_stop"], Closed)
  /\ list.last
       (map Some
          (fst (anthropic_named_stream
                  ["text_delta"; "[DONE]"; "message_delta"; "text_delta"])))
     = Some (message_stop_frame (fun _ => None) show_type).
Proof.
  split; [reflexivity|].
  exact (proj2 (X20_anthropic_stream_frames (fun _ => None) show_type
                  named_payloads (fun w => ("0", w)) (fun w => (0%Z, w))
                  (fun data => Some data) tt line_decoder
                  "anthropic" "openai"
                  ["text_delta"; "[DONE]"; "message_delta"; "text_delta"]
                  "claude" tt _ eq_refl eq_refl eq_refl)).
Defined.

End AnthropicStreamFacts.


(** ** Token counters *)

Module TokenCounterFacts.
Import PyValue TokenCounter Fixtures.
#[local] Open Scope Z_scope.

Lemma estimate_nonneg text n : estimate text = Some n -> 0 <= n.
Proof.
  unfold estimate. destruct (py_len text) as [k|] eqn:Hk; [|discriminate].
  intros H. injection H as <-.
  assert (0 <= k) by (destruct text; try discriminate; injection Hk as <-; lia).
  apply Z.div_pos; lia.
Qed.

Section Counters.
Context (tiktoken : option (string -> value -> option nat)).

Local Abbreviation count_tokens := (TokenCounter.count_tokens tiktoken).
Local Abbreviation count_parts := (TokenCounter.count_parts tiktoken).
Local Abbreviation count_messages := (TokenCounter.count_messages tiktoken).
Local Abbreviation openai_count_tokens :=
  (TokenCounter.openai_count_tokens tiktoken).
Local Abbreviation openai_count_fields :=
  (TokenCounter.openai_count_fields tiktoken).
Local Abbreviation openai_count_loop :=
  (TokenCounter.openai_count_loop tiktoken).
Local Abbreviation openai_count_messages :=
  (TokenCounter.openai_count_messages tiktoken).

Lemma count_tokens_nonneg self text model n :
  count_tokens self text model = Some n -> 0 <= n.
Proof.
  destruct self; cbn [TokenCounter.count_tokens];
    unfold TokenCounter.openai_count_tokens, anthropic_count_tokens;
    destruct (negb (truthy text)); try (intros H; injection H as <-; lia);
    try apply estimate_nonneg.
  destruct tiktoken as [count|]; [|apply estimate_nonneg].
  destruct model; try discriminate.
  destruct (count (encoding_name s) text); [|discriminate].
  intros H. injection H as <-. lia.
Qed.

(** The loops add to the total they start with. *)
Lemma count_parts_shift self items model total :
  count_parts self items model total
  = option_map (Z.add total) (count_parts self items model 0).
Proof.
  revert total. induction items as [|item rest IH]; intros total.
  - cbn. f_equal. lia.
  - cbn [TokenCounter.count_parts].
    destruct item; try apply IH.
    destruct (dict_get "text" d) as [text|]; [|apply IH].
    destruct (count_tokens self text model) as [n|]; [|reflexivity].
    rewrite (IH (total + n)), (IH (0 + n)).
    destruct (count_parts self rest model 0); cbn; [f_equal; lia|reflexivity].
Qed.

Lemma count_parts_le self items model total t :
  count_parts self items model total = Some t -> total <= t.
Proof.
  revert total. induction items as [|item rest IH]; intros total.
  - cbn. intros H. injection H as <-. lia.
  - cbn [TokenCounter.count_parts].
    destruct item; try apply IH.
    destruct (dict_get "text" d) as [text|]; [|apply IH].
    destruct (count_tokens self text model) as [n|] eqn:Hn; [|discriminate].
    intros H. apply IH in H. apply count_tokens_nonneg in Hn. lia.
Qed.

(** *** The Anthropic counter *)

Lemma anthropic_count_message_shift message model total :
  anthropic_count_message tiktoken message model total
  = option_map (Z.add total)
      (anthropic_count_message tiktoken message model 0).
Proof.
  unfold anthropic_count_message. destruct message; try reflexivity.
  destruct (anthropic_count_tokens _ model) as [n|]; [|reflexivity].
  cbv zeta.
  destruct (match dict_get "content" d with
            | Some v => v
            | None => VStr ""
            end) as [| | | | c | items | |]; cbn [option_map];
    try (f_equal; lia).
  - destruct (anthropic_count_tokens (VStr c) model); cbn; [f_equal; lia|].
    reflexivity.
  - rewrite (count_parts_shift _ _ _ (total + n)),
      (count_parts_shift _ _ _ (0 + n)).
    destruct (count_parts AnthropicTokenCounter items model 0); cbn;
      [f_equal; lia|reflexivity].
Qed.

Lemma anthropic_count_message_le message model total t :
  anthropic_count_message tiktoken message model total = Some t ->
  total + 4 <= t.
Proof.
  unfold anthropic_count_message. destruct message; try discriminate.
  destruct (anthropic_count_tokens _ model) as [n|] eqn:Hn; [|discriminate].
  apply (count_tokens_nonneg AnthropicTokenCounter) in Hn.
  cbv zeta.
  destruct (match dict_get "content" d with
            | Some v => v
            | None => VStr ""
            end) as [| | | | c | items | |]; cbn [option_map];
    try (intros H; injection H as <-; lia).
  - destruct (anthropic_count_tokens (VStr c) model) as [k|] eqn:Hk;
      [|discriminate].
    apply (count_tokens_nonneg AnthropicTokenCounter) in Hk.
    cbn. intros H. injection H as <-. lia.
  - destruct (count_parts AnthropicTokenCounter items model (total + n))
      as [k|] eqn:Hk; [|discriminate].
    apply count_parts_le in Hk. intros H. injection H as <-. lia.
Qed.

Lemma anthropic_count_loop_shift messages model total :
  anthropic_count_loop tiktoken messages model total
  = option_map (Z.add total) (anthropic_count_loop tiktoken messages model 0).
Proof.
  revert total. induction messages as [|message rest IH]; intros total.
  - cbn. f_equal. lia.
  - cbn [anthropic_count_loop].
    rewrite (anthropic_count_message_shift message model total).
    destruct (anthropic_count_message tiktoken message model 0) as [n|];
      [|reflexivity].
    cbn [option_map]. rewrite (IH (total + n)), (IH n).
    destruct (anthropic_count_loop tiktoken rest model 0); cbn;
      [f_equal; lia|reflexivity].
Qed.

Lemma anthropic_count_loop_app a b model total :
  anthropic_count_loop tiktoken (a ++ b) model total
  = match anthropic_count_loop tiktoken a model total with
    | Some t => anthropic_count_loop tiktoken b model t
    | None => None
    end.
Proof.
  revert total. induction a as [|message rest IH]; intros total;
    [reflexivity|].
  cbn [app anthropic_count_loop].
  destruct (anthropic_count_message tiktoken message model total);
    [apply IH|reflexivity].
Qed.

Lemma anthropic_count_loop_le messages model total t :
  anthropic_count_loop tiktoken messages model total = Some t ->
  total + 4 * Z.of_nat (length messages) <= t.
Proof.
  revert total. induction messages as [|message rest IH]; intros total.
  - cbn. intros H. injection H as <-. lia.
  - cbn [anthropic_count_loop].
    destruct (anthropic_count_message tiktoken message model total)
      as [n|] eqn:Hn; [|discriminate].
    apply anthropic_count_message_le in Hn.
    intros H. apply IH in H. cbn [length]. lia.
Qed.

Lemma anthropic_count_messages_list items model :
  anthropic_count_messages tiktoken (VList items) model
  = anthropic_count_loop tiktoken items model 0.
Proof.
  destruct items; reflexivity.
Qed.

(** X21. The Anthropic count of a conversation is the sum of the counts of
    its parts, and at least four tokens for every message: the count of a
    list of messages can be kept up to date message by message. *)
Theorem X21_anthropic_count_is_additive a b model x y :
  count_messages AnthropicTokenCounter (VList a) model = Some x ->
  count_messages AnthropicTokenCounter (VList b) model = Some y ->
  count_messages AnthropicTokenCounter (VList (a ++ b)) model = Some (x + y)
  /\ 4 * Z.of_nat (length a) <= x.
Proof.
  cbn [TokenCounter.count_messages].
  rewrite !anthropic_count_messages_list, anthropic_count_loop_app.
  intros Ha Hb. rewrite Ha. split.
  - rewrite anthropic_count_loop_shift, Hb. reflexivity.
  - apply anthropic_count_loop_le in Ha. lia.
Qed.

(** *** The OpenAI counter *)

Lemma openai_count_fields_shift fields model total :
  openai_count_fields fields model total
  = option_map (Z.add total) (openai_count_fields fields model 0).
Proof.
  revert total. induction fields as [|[key v] rest IH]; intros total.
  - cbn. f_equal. lia.
  - cbn [TokenCounter.openai_count_fields].
    assert (Hstep : forall n,
      openai_count_fields rest model
        (if String.eqb key "name" then total + n + tokens_per_name
         else total + n)
      = option_map (Z.add total)
          (openai_count_fields rest model
             (if String.eqb key "name" then 0 + n + tokens_per_name
              else 0 + n))).
    { intros n.
      rewrite (IH (if String.eqb key "name" then total + n + tokens_per_name
                   else total + n)),
        (IH (if String.eqb key "name" then 0 + n + tokens_per_name
             else 0 + n)).
      destruct (openai_count_fields rest model 0); [|reflexivity].
      cbn. f_equal. destruct (String.eqb key "name"); lia. }
    destruct v as [| | | | c | items | |];
      try (specialize (Hstep 0); rewrite !Z.add_0_r in Hstep; exact Hstep).
    + destruct (openai_count_tokens (VStr c) model) as [n|]; [|reflexivity].
      cbn [option_map]. apply Hstep.
    + rewrite (count_parts_shift _ _ _ total).
      destruct (count_parts OpenAITokenCounter items model 0) as [n|];
        [|reflexivity].
      cbn [option_map]. specialize (Hstep n).
      rewrite !Z.add_0_l in Hstep. exact Hstep.
Qed.

Lemma openai_count_loop_shift messages model total :
  openai_count_loop messages model total
  = option_map (Z.add total) (openai_count_loop messages model 0).
Proof.
  revert total. induction messages as [|message rest IH]; intros total.
  - cbn. f_equal. lia.
  - cbn [TokenCounter.openai_count_loop].
    destruct message; try reflexivity.
    rewrite (openai_count_fields_shift d model (total + tokens_per_message)),
      (openai_count_fields_shift d model (0 + tokens_per_message)).
    destruct (openai_count_fields d model 0) as [n|]; [|reflexivity].
    cbn [option_map].
    rewrite (IH (total + tokens_per_message + n)),
      (IH (0 + tokens_per_message + n)).
    destruct (openai_count_loop rest model 0); cbn; [f_equal; lia|reflexivity].
Qed.

Lemma openai_count_loop_app a b model total :
  openai_count_loop (a ++ b) model total
  = match openai_count_loop a model total with
    | Some t => openai_count_loop b model t
    | None => None
    end.
Proof.
  revert total. induction a as [|message rest IH]; intros total;
    [reflexivity|].
  cbn [app TokenCounter.openai_count_loop].
  destruct message; try reflexivity.
  destruct (openai_count_fields d model (total + tokens_per_message));
    [apply IH|reflexivity].
Qed.

(** The [name] key takes one token off, once. *)
Lemma openai_count_fields_le fields model total t :
  NoDup (map fst fields) ->
  openai_count_fields fields model total = Some t ->
  (if dict_mem "name" fields then total - 1 else total) <= t.
Proof.
  revert total. induction fields as [|[key v] rest IH]; intros total Hnd.
  - cbn. intros H. injection H as <-. lia.
  - cbn [TokenCounter.openai_count_fields].
    apply NoDup_cons in Hnd as [Hkey Hnd].
    destruct (match v with
              | VStr _ =>
                  option_map (Z.add total) (openai_count_tokens v model)
              | VList items =>
                  count_parts OpenAITokenCounter items model total
              | _ => Some total
              end) as [t1|] eqn:Hv; [|discriminate].
    assert (Hle : total <= t1).
    { destruct v as [| | | | c | items | |];
        try (injection Hv as <-; lia).
      - destruct (openai_count_tokens (VStr c) model) as [n|] eqn:Hn;
          [|discriminate].
        apply (count_tokens_nonneg OpenAITokenCounter) in Hn.
        injection Hv as <-. lia.
      - apply count_parts_le in Hv. exact Hv. }
    intros H. apply (IH _ Hnd) in H.
    unfold dict_mem in *. cbn [dict_get].
    destruct (String.eqb key "name") eqn:Hk.
    + apply String.eqb_eq in Hk. subst key.
      assert (Hrest : dict_get "name" rest = None).
      { destruct (dict_get "name" rest) eqn:Hg; [|reflexivity].
        exfalso. apply Hkey. clear -Hg.
        induction rest as [|[k w] rest IH]; [discriminate|].
        cbn [dict_get] in Hg. cbn [map fst].
        destruct (String.eqb k "name") eqn:Hk.
        - apply String.eqb_eq in Hk. subst k. left.
        - right. apply IH. exact Hg. }
      rewrite Hrest in H. unfold tokens_per_name in H. lia.
    + destruct (dict_get "name" rest); lia.
Qed.

Lemma openai_count_loop_le messages model total t :
  forallb distinct_keys messages = true ->
  openai_count_loop messages model total = Some t ->
  total + 3 * Z.of_nat (length messages) <= t.
Proof.
  revert total. induction messages as [|message rest IH]; intros total Hd.
  - cbn. intros H. injection H as <-. lia.
  - cbn [TokenCounter.openai_count_loop].
    cbn [forallb] in Hd. apply andb_true_iff in Hd as [Hm Hd].
    destruct message; try discriminate.
    destruct (openai_count_fields d model (total + tokens_per_message))
      as [t1|] eqn:Ht1; [|discriminate].
    apply openai_count_fields_le in Ht1;
      [|exact (bool_decide_eq_true_1 _ Hm)].
    intros H. apply (IH _ Hd) in H. cbn [length].
    unfold tokens_per_message in Ht1.
    destruct (dict_mem "name" d); lia.
Qed.

(** X22. The OpenAI count of a conversation is the sum of the counts of its
    parts less the priming of one reply, and, the keys of a message being
    distinct, at least three tokens for the reply and three for every
    message: a [name] takes one token off a message, once. *)
Theorem X22_openai_count_composes a b model x y :
  a <> [] -> b <> [] ->
  count_messages OpenAITokenCounter (VList a) model = Some x ->
  count_messages OpenAITokenCounter (VList b) model = Some y ->
  count_messages OpenAITokenCounter (VList (a ++ b)) model = Some (x + y - 3)
  /\ (forallb distinct_keys a = true -> 3 + 3 * Z.of_nat (length a) <= x).
Proof.
  intros Ha Hb. cbn [TokenCounter.count_messages].
  unfold TokenCounter.openai_count_messages.
  destruct a as [|m a]; [congruence|].
  destruct b as [|m' b]; [congruence|].
  cbn [truthy negb app].
  rewrite (openai_count_loop_app (m :: a) (m' :: b)).
  destruct (openai_count_loop (m :: a) model 0) as [ta|] eqn:Hta;
    [|discriminate].
  rewrite (openai_count_loop_shift (m' :: b) model ta).
  destruct (openai_count_loop (m' :: b) model 0) as [tb|]; [|discriminate].
  cbn [option_map]. intros Hx Hy.
  injection Hx as <-. injection Hy as <-. split.
  - f_equal. lia.
  - intros Hd. apply (openai_count_loop_le _ _ _ _ Hd) in Hta. lia.
Qed.

(** *** The estimate *)

Lemma count_tokens_estimates self text model :
  tiktoken = None \/ self = AnthropicTokenCounter ->
  text_ok text = true ->
  exists n, count_tokens self text model = Some n.
Proof.
  intros Hest Hok.
  assert (H : count_tokens self text model
              = if negb (truthy text) then Some 0 else estimate text).
  { destruct Hest as [Hnone| ->]; [|reflexivity].
    destruct self; [|reflexivity].
    cbn [TokenCounter.count_tokens].
    unfold TokenCounter.openai_count_tokens. rewrite Hnone. reflexivity. }
  rewrite H. unfold text_ok in Hok.
  destruct (negb (truthy text)); [eauto|].
  unfold estimate. cbn [orb] in Hok.
  destruct (py_len text); [cbn; eauto|discriminate].
Qed.

Lemma count_parts_estimates self items model total :
  tiktoken = None \/ self = AnthropicTokenCounter ->
  forallb part_ok items = true ->
  exists t, count_parts self items model total = Some t.
Proof.
  intros Hest. revert total.
  induction items as [|item rest IH]; intros total Hok; [cbn; eauto|].
  cbn [forallb] in Hok. apply andb_true_iff in Hok as [Hitem Hrest].
  cbn [TokenCounter.count_parts].
  destruct item; try (apply IH; exact Hrest).
  cbn [part_ok] in Hitem.
  destruct (dict_get "text" d) as [text|]; [|apply IH; exact Hrest].
  destruct (count_tokens_estimates self text model Hest Hitem) as [n ->].
  apply IH. exact Hrest.
Qed.

Lemma dict_get_In (k : string) (fields : dict) v :
  dict_get k fields = Some v -> In (k, v) fields.
Proof.
  induction fields as [|[k' v'] rest IH]; [discriminate|].
  cbn [dict_get]. destruct (String.eqb k' k) eqn:Hk.
  - apply String.eqb_eq in Hk. intros H. injection H as ->. subst. left.
    reflexivity.
  - intros H. right. apply IH. exact H.
Qed.

Lemma openai_count_fields_estimates fields model total :
  tiktoken = None ->
  forallb (fun entry => field_ok (snd entry)) fields = true ->
  exists t, openai_count_fields fields model total = Some t.
Proof.
  intros Hnone. revert total.
  induction fields as [|[key v] rest IH]; intros total Hok; [cbn; eauto|].
  cbn [forallb snd] in Hok. apply andb_true_iff in Hok as [Hv Hrest].
  cbn [TokenCounter.openai_count_fields].
  destruct v as [| | | | c | items | |]; try (apply IH; exact Hrest).
  - destruct (count_tokens_estimates OpenAITokenCounter (VStr c) model
                (or_introl Hnone)) as [n Hn].
    { unfold text_ok. cbn [py_len]. apply orb_true_r. }
    cbn [TokenCounter.count_tokens] in Hn. rewrite Hn. cbn [option_map].
    apply IH. exact Hrest.
  - cbn [field_ok] in Hv.
    destruct (count_parts_estimates OpenAITokenCounter items model total
                (or_introl Hnone) Hv) as [t ->].
    apply IH. exact Hrest.
Qed.

Lemma openai_count_loop_estimates messages model total :
  tiktoken = None ->
  forallb message_ok messages = true ->
  exists t, openai_count_loop messages model total = Some t.
Proof.
  intros Hnone. revert total.
  induction messages as [|message rest IH]; intros total Hok; [cbn; eauto|].
  cbn [forallb] in Hok. apply andb_true_iff in Hok as [Hm Hrest].
  cbn [TokenCounter.openai_count_loop].
  destruct message; try discriminate.
  cbn [message_ok] in Hm. apply andb_true_iff in Hm as [Hfields _].
  destruct (openai_count_fields_estimates d model
              (total + tokens_per_message) Hnone Hfields) as [t ->].
  apply IH. exact Hrest.
Qed.

Lemma anthropic_count_message_estimates message model total :
  message_ok message = true ->
  exists t, anthropic_count_message tiktoken message model total = Some t.
Proof.
  destruct message; try discriminate.
  cbn [message_ok]. intros Hm. apply andb_true_iff in Hm as [Hfields Hrole].
  unfold anthropic_count_message.
  destruct (count_tokens_estimates AnthropicTokenCounter
              (match dict_get "role" d with
               | Some v => v
               | None => VStr ""
               end) model (or_intror eq_refl)) as [n Hn].
  { destruct (dict_get "role" d); [exact Hrole|reflexivity]. }
  cbn [TokenCounter.count_tokens] in Hn. rewrite Hn. cbv zeta.
  destruct (dict_get "content" d) as [content|] eqn:Hc.
  2:{ cbn. eauto. }
  destruct content as [| | | | c | items | |]; cbn [option_map]; eauto.
  - destruct (count_tokens_estimates AnthropicTokenCounter (VStr c) model
                (or_intror eq_refl)) as [k Hk].
    { unfold text_ok. cbn [py_len]. apply orb_true_r. }
    cbn [TokenCounter.count_tokens] in Hk. rewrite Hk. cbn. eauto.
  - apply dict_get_In in Hc.
    rewrite forallb_forall in Hfields. specialize (Hfields _ Hc).
    cbn [snd field_ok] in Hfields.
    destruct (count_parts_estimates AnthropicTokenCounter items model
                (total + n) (or_intror eq_refl) Hfields) as [t ->].
    eauto.
Qed.

Lemma anthropic_count_loop_estimates messages model total :
  forallb message_ok messages = true ->
  exists t, anthropic_count_loop tiktoken messages model total = Some t.
Proof.
  revert total.
  induction messages as [|message rest IH]; intros total Hok; [cbn; eauto|].
  cbn [forallb] in Hok. apply andb_true_iff in Hok as [Hm Hrest].
  cbn [anthropic_count_loop].
  destruct (anthropic_count_message_estimates message model total Hm)
    as [t ->].
  apply IH. exact Hrest.
Qed.

(** X23. The estimate never raises on chat messages: when [tiktoken] is
    absent or the provider speaks the Anthropic protocol, the counter that
    [get_token_counter] gives returns a count for every list of dicts whose
    roles and [text] parts are texts, whatever the other fields and the
    model. *)
Theorem X23_estimate_counts_chat_messages protocol messages model :
  tiktoken = None \/ get_token_counter protocol = AnthropicTokenCounter ->
  forallb message_ok messages = true ->
  exists n,
    count_messages (get_token_counter protocol) (VList messages) model
    = Some n.
Proof.
  intros Hest Hok.
  destruct (get_token_counter protocol) eqn:Hc;
    cbn [TokenCounter.count_messages].
  - destruct Hest as [Hnone|]; [|discriminate].
    unfold TokenCounter.openai_count_messages.
    destruct messages as [|m rest]; [cbn; eauto|].
    cbn [truthy negb].
    destruct (openai_count_loop_estimates (m :: rest) model 0 Hnone Hok)
      as [t ->].
    cbn. eauto.
  - rewrite anthropic_count_messages_list.
    apply anthropic_count_loop_estimates. exact Hok.
Qed.

End Counters.

Lemma X21_witness :
  count_messages None AnthropicTokenCounter
    (VList ([user_message] ++ [assistant_message])) (VStr "claude")
  = Some (11 + 8)
  /\ 4 * Z.of_nat (length [user_message]) <= 11.
Proof.
  exact (X21_anthropic_count_is_additive None [user_message]
           [assistant_message] (VStr "claude") 11 8 eq_refl eq_refl).
Defined.

Lemma X22_witness :
  count_messages None OpenAITokenCounter
    (VList ([named_message] ++ [assistant_message])) (VStr "gpt-4")
  = Some (7 + 11 - 3)
  /\ 3 + 3 * Z.of_nat (length [named_message]) <= 7.
Proof.
  destruct (X22_openai_count_composes None [named_message]
              [assistant_message] (VStr "gpt-4") 7 11
              ltac:(discriminate) ltac:(discriminate) eq_refl eq_refl)
    as [Hsum Hbound].
  split; [exact Hsum|exact (Hbound eq_refl)].
Defined.

Lemma X23_witness :
  exists n,
    count_messages None (get_token_counter "openai")
      (VList [user_message; named_message; assistant_message]) (VStr "gpt-4")
    = Some n.
Proof.
  exact (X23_estimate_counts_chat_messages None "openai"
           [user_message; named_message; assistant_message] (VStr "gpt-4")
           (or_introl eq_refl) eq_refl).
Defined.

End TokenCounterFacts.


(** ** Responses, and the conversions no pair of protocols reaches *)

Module ProtocolResponseFacts.
Import PyValue Errors Protocol ProtocolResponse Fixtures ProtocolFacts.

Section Response.
Context {W D : Type}.
Context (encode_utf8 : string -> option string).
Context (json_dumps : value -> string).
Context (json_loads : string -> option value).
Context (uuid4_hex : W -> string * W).
Context (time_time : W -> Z * W).
Context (translate_streaming_chunk : value -> option value).
Context (new_decoder : D).
Context (feed : D -> string -> list string * D).
Context (translate_openai_response_to_anthropic : dict -> option value).
Context (transform_response : value -> dict -> option value).

Local Abbreviation convert_response_for_user :=
  (ProtocolResponse.convert_response_for_user
     translate_openai_response_to_anthropic transform_response).
Local Abbreviation convert_stream_for_user :=
  (Protocol.convert_stream_for_user encode_utf8 json_dumps json_loads
     uuid4_hex time_time translate_streaming_chunk new_decoder feed).

(** X24. A response and a stream are converted between every two protocols
    that [normalize_protocol] accepts: the only [AppError] of
    [convert_response_for_user] and of [convert_stream_for_user] is
    [unsupported_protocol], raised before anything is yielded, and the error
    [unsupported_protocol_conversion] at the end of both is never raised.
    A response between equal protocols, and one that is not a dict, is
    returned as it is. *)
Theorem X24_responses_convert_between_all_protocols
    request_protocol supplier_protocol body target_model upstream model w :
  (forall e,
      convert_response_for_user request_protocol supplier_protocol body
        target_model = RaiseApp e ->
      code e = "unsupported_protocol")
  /\ (forall out e,
        convert_stream_for_user request_protocol supplier_protocol upstream
          model w = (out, Failed e) ->
        out = [] /\ code e = "unsupported_protocol")
  /\ (forall p q,
        normalize_protocol request_protocol = Ok p ->
        normalize_protocol supplier_protocol = Ok q ->
        p = q \/ is_object body = false ->
        convert_response_for_user request_protocol supplier_protocol body
          target_model = Return body).
Proof.
  unfold ProtocolResponse.convert_response_for_user,
    Protocol.convert_stream_for_user.
  destruct (normalize_protocol request_protocol) as [p|e1] eqn:Hp.
  2:{ apply ProtocolMore.normalize_protocol_Raise in Hp as [Hp _].
      split; [|split].
      - intros e H. injection H as <-. exact Hp.
      - intros out e H. injection H as <- <-. auto.
      - discriminate. }
  destruct (normalize_protocol supplier_protocol) as [q|e2] eqn:Hq.
  2:{ apply ProtocolMore.normalize_protocol_Raise in Hq as [Hq _].
      split; [|split].
      - intros e H. injection H as <-. exact Hq.
      - intros out e H. injection H as <- <-. auto.
      - discriminate. }
  apply ProtocolMore.normalize_protocol_Ok in Hp, Hq.
  split; [|split].
  - intros e. destruct Hp as [-> | ->], Hq as [-> | ->];
      cbn [String.eqb Ascii.eqb Bool.eqb andb];
      destruct body; try discriminate.
    + destruct (transform_response _ d); discriminate.
    + destruct (translate_openai_response_to_anthropic d); discriminate.
  - intros out e. destruct Hp as [-> | ->], Hq as [-> | ->];
      cbn [String.eqb Ascii.eqb Bool.eqb andb]; try discriminate.
    + destruct (for_chunks _ _ _ _ _ _ _ _ _ _ _) as [o [[st w1]|]];
        intros H; apply deliver_end in H as [H|H]; discriminate.
    + destruct (for_openai_chunks _ _ _ _ _ _ _ _ _ _ _) as [o [[st w1]|]];
        intros H; apply deliver_end in H as [H|H]; discriminate.
  - intros p' q' Hp' Hq' Hsame. injection Hp' as <-. injection Hq' as <-.
    destruct Hsame as [<- | Hbody].
    + rewrite String.eqb_refl. reflexivity.
    + destruct (String.eqb p q); [reflexivity|].
      destruct body; try reflexivity. discriminate.
Qed.

End Response.

End ProtocolResponseFacts.


(** ** The endpoints: what a client is answered *)

Module EndpointFacts.
Import PyValue Rules Errors Factory Proxy Fixtures Notions Retry.

Section Handler.
Context {S : Type}.
Context (select : list CandidateProvider -> value -> S -> option CandidateProvider * S).
Context (forward_fn : CandidateProvider -> S -> ProviderResponse * S).
Context (max_retries : nat) (retry_delay_ms : Z).

Local Abbreviation same_provider_loop :=
  (same_provider_loop forward_fn max_retries retry_delay_ms).
Local Abbreviation provider_loop :=
  (provider_loop forward_fn max_retries retry_delay_ms).
Local Abbreviation execute_with_retry :=
  (execute_with_retry select forward_fn max_retries retry_delay_ms).




End Handler.

Section Service.
Context {W ModelMapping ProviderMapping Provider : Type}.
Context (B : Builtins).
Context (generate_trace_id : W -> string * W).
Context (utcnow : W -> Z * W).
Context (get_mapping : value -> W -> option ModelMapping * W).
Context (mapping_is_active : ModelMapping -> bool).
Context (get_provider_mappings : value -> bool -> W -> list ProviderMapping * W).
Context (mapping_provider_id : ProviderMapping -> Z).
Context (get_by_id : Z -> W -> option Provider * W).
Context (provider_protocol : Provider -> string).
Context (tiktoken : option (string -> value -> option nat)).
Context (rule_engine_evaluate :
           RuleContext -> ModelMapping -> list ProviderMapping ->
           list (Z * Provider) -> W -> list CandidateProvider * W).
Context (select : list CandidateProvider -> value -> W -> option CandidateProvider * W).
Context (client_forward :
           client -> CandidateProvider -> string -> string ->
           list (string * string) -> dict -> W -> ProviderResponse * W).
Context (max_retries : nat) (retry_delay_ms : Z).
Context (json_dumps : value -> string).
Context (log_create : RequestLogCreate -> W -> W).

Local Abbreviation process_request :=
  (process_request B generate_trace_id utcnow get_mapping mapping_is_active
     get_provider_mappings mapping_provider_id get_by_id provider_protocol
     tiktoken rule_engine_evaluate select client_forward max_retries
     retry_delay_ms json_dumps log_create).
Local Abbreviation proxy_endpoint :=
  (proxy_endpoint B generate_trace_id utcnow get_mapping mapping_is_active
     get_provider_mappings mapping_provider_id get_by_id provider_protocol
     tiktoken rule_engine_evaluate select client_forward max_retries
     retry_delay_ms json_dumps log_create).



End Service.

(** The endpoint lets the token counter's exception through: it answers
    nothing, and nothing was forwarded. *)
Example endpoint_lets_exception_through :
  logging_endpoint
    [("model", VStr "gpt-4"); ("messages", VList [VStr "hi"])] []
  = (RaiseOther "count_messages", [], []).
Proof. reflexivity. Qed.


End EndpointFacts.
